(** * Athlete Insight: heart-rate analytics, cohort comparison and bulk
      stream backfill

    A shallow embedding of the analytics code of
    [src/components/ActivityDetail.tsx] (zone thresholds, zone-time
    distribution, relative effort, cohort comparison and the "Your
    Position" line) and of the bulk stream backfill of
    [src/components/Activities.tsx].

    Conventions of the embedding.
    - Heart-rate samples (bpm), time samples (seconds), years and
      identifiers are integers, modelled as [Z]; sums, differences and
      products of them are exact in JavaScript below 2^53.
    - Every other JavaScript number is a [jsnum], an IEEE 754 binary64
      value: products and quotients are rounded as the processor
      rounds them, with the operations of the standard library's
      [SpecFloat], and [Infinity], [-Infinity], [NaN] and the two
      zeros are values like the others.
    - [Math.round] is rounding to the nearest integer, ties towards
      +Infinity, of the binary64 value it is given.
    - React state that a function reads ([activity], [athlete],
      [comparisonData], ...) is passed to it as an argument; asynchronous
      service calls thread an explicit world; the browser's locale,
      which decides how a date is written and read back, is a
      parameter. *)

From Stdlib Require Import ZArith QArith Qround Lia List Bool String
  Sorted Permutation SpecFloat.
Import ListNotations.
Open Scope Z_scope.

(** ** JavaScript numbers *)

Module JS.

Definition prec : Z := 53.
Definition emax : Z := 1024.

(** A number: a binary64 value. *)
Definition jsnum : Type := spec_float.

Definition NaN : jsnum := S754_nan.
Definition NegInf : jsnum := S754_infinity true.

(** The number an integer literal or an integer variable holds: the
    integer itself below 2^53, and the nearest binary64 value in
    general. *)
Definition of_Z (z : Z) : jsnum := binary_normalize prec emax z 0 false.


(** [x * y] and [x / y] *)
Definition mul (x y : jsnum) : jsnum := SFmul prec emax x y.

Definition div (x y : jsnum) : jsnum := SFdiv prec emax x y.

(** [floor(x + 1/2)] for the finite number [(-1)^s * m * 2^e] with
    [e < 0], computed exactly. *)
Definition round_half_up (s : bool) (m : positive) (e : Z) : Z :=
  (2 * (if s then Z.neg m else Z.pos m) + 2 ^ (- e)) / (2 * 2 ^ (- e)).

(** [Math.round]: a number with a non-negative exponent is an integer
    already; a result of zero keeps the sign of the argument. *)
Definition Math_round (x : jsnum) : jsnum :=
  match x with
  | S754_finite s m e =>
      if 0 <=? e then x
      else if round_half_up s m e =? 0 then S754_zero s
      else of_Z (round_half_up s m e)
  | other => other
  end.

(** The integer [Math.round(x)] is, for a finite [x]. *)
Definition rounded (x : jsnum) : option Z :=
  match x with
  | S754_zero _ => Some 0
  | S754_finite s m e =>
      Some (if 0 <=? e then (if s then Z.neg m else Z.pos m) * 2 ^ e
            else round_half_up s m e)
  | _ => None
  end.

(** [x > y]; every comparison with [NaN] is false. *)
Definition gtb (x y : jsnum) : bool := SFltb y x.

End JS.

Import JS.

(** ** Data model ([services/database], the fields the analytics read) *)

Record StreamData : Type := mkStreamData {
  time : option (list Z);
  heartrate : option (list Z)
}.

(** [start_date_local], reduced to what the code reads from it: the
    calendar year ([getFullYear]), the month ([getMonth]) and the day
    of the month kept by [toLocaleDateString]. *)
Record LocalDate : Type := mkLocalDate {
  fullYear : Z;
  month : Z;
  dayOfMonth : Z
}.

Record StravaActivity : Type := mkStravaActivity {
  act_id : Z;
  act_start_date_local : LocalDate
}.

Record ActivityDetail : Type := mkActivityDetail {
  id : Z;
  start_date_local : LocalDate;
  streams : option StreamData
}.

Record StravaAthlete : Type := mkStravaAthlete {
  birth_year : option Z
}.

(** [activity?.streams?.heartrate]: an array, even an empty one, is
    truthy. *)
Definition heartrate_of (activity : option ActivityDetail) : option (list Z) :=
  match activity with
  | Some a => match streams a with
              | Some s => heartrate s
              | None => None
              end
  | None => None
  end.

(** [athlete?.birth_year] under a truthiness test: [undefined] and [0]
    are both falsy. *)
Definition birth_year_of (athlete : option StravaAthlete) : option Z :=
  match athlete with
  | Some a => match birth_year a with
              | Some y => if y =? 0 then None else Some y
              | None => None
              end
  | None => None
  end.

(** [activity.streams.time || []] *)
Definition time_of (activity : option ActivityDetail) : list Z :=
  match activity with
  | Some a => match streams a with
              | Some s => match time s with Some t => t | None => [] end
              | None => []
              end
  | None => []
  end.

(** ** Heart-rate zones *)

Section Zones.

(** [new Date().getFullYear()] *)
Variable currentYear : Z.

Definition calculateMaxHeartRate (birthYear : Z) : Z :=
  let age := currentYear - birthYear in
  220 - age.

End Zones.

Record Zone : Type := mkZone {
  min : Z;
  max : Z;
  name : string;
  color : string
}.

Record Zones : Type := mkZones {
  zone1 : Zone;
  zone2 : Zone;
  zone3 : Zone;
  zone4 : Zone;
  zone5 : Zone
}.

(** The literals [0.6], [0.7], [0.8] and [0.9]: the binary64 value
    nearest to [k / 10], which the correctly rounded quotient of [k]
    by 10 is. *)
Definition tenths (k : Z) : jsnum := div (of_Z k) (of_Z 10).

(** [Math.round(maxHR * c)], as the integer it is: the product of a
    number [maxHR] by a literal below 1 is finite. *)
Definition round_scaled (maxHR : Z) (c : jsnum) : Z :=
  match rounded (mul (of_Z maxHR) c) with
  | Some bound => bound
  | None => 0
  end.

Definition getHeartRateZones (maxHR : Z) : Zones :=
  {| zone1 := mkZone 0 (round_scaled maxHR (tenths 6))
                "Recovery (Zone 1)" "#4FC3F7";
     zone2 := mkZone (round_scaled maxHR (tenths 6))
                (round_scaled maxHR (tenths 7))
                "Aerobic Base (Zone 2)" "#66BB6A";
     zone3 := mkZone (round_scaled maxHR (tenths 7))
                (round_scaled maxHR (tenths 8))
                "Aerobic (Zone 3)" "#FFEB3B";
     zone4 := mkZone (round_scaled maxHR (tenths 8))
                (round_scaled maxHR (tenths 9))
                "Lactate Threshold (Zone 4)" "#FF9800";
     zone5 := mkZone (round_scaled maxHR (tenths 9)) maxHR
                "Neuromuscular Power (Zone 5)" "#F44336" |}.

(** The five zones in the order of the object's keys. *)
Inductive ZoneId : Type := Z1 | Z2 | Z3 | Z4 | Z5.

Definition zone_of (zones : Zones) (z : ZoneId) : Zone :=
  match z with
  | Z1 => zone1 zones
  | Z2 => zone2 zones
  | Z3 => zone3 zones
  | Z4 => zone4 zones
  | Z5 => zone5 zones
  end.

Definition all_zones : list ZoneId := [Z1; Z2; Z3; Z4; Z5].

Definition ZoneId_eqb (a b : ZoneId) : bool :=
  match a, b with
  | Z1, Z1 | Z2, Z2 | Z3, Z3 | Z4, Z4 | Z5, Z5 => true
  | _, _ => false
  end.

Definition zone_index (z : ZoneId) : nat :=
  match z with Z1 => 1 | Z2 => 2 | Z3 => 3 | Z4 => 4 | Z5 => 5 end.

(** The [if / else if] chain shared by the three sample loops:
    [hr <= zones.zone1.max], else [hr <= zones.zone2.max], ..., else
    zone 5. *)
Definition classify (zones : Zones) (hr : Z) : ZoneId :=
  if hr <=? max (zone1 zones) then Z1
  else if hr <=? max (zone2 zones) then Z2
  else if hr <=? max (zone3 zones) then Z3
  else if hr <=? max (zone4 zones) then Z4
  else Z5.

(** [hr && hr > 0] *)
Definition counted (hr : Z) : bool := 0 <? hr.

(** [index < timeData.length - 1 ? timeData[index + 1] - timeData[index] : 1] *)
Definition timeIncrement (timeData : list Z) (index : nat) : Z :=
  if Z.of_nat index <? Z.of_nat (List.length timeData) - 1
  then nth (index + 1) timeData 0 - nth index timeData 0
  else 1.

(** [Array.prototype.forEach((x, index) => ...)] with the variables the
    callback mutates gathered in a state [S]. *)
Fixpoint forEach_from {A S : Type} (body : S -> A -> nat -> S)
    (l : list A) (index : nat) (s : S) : S :=
  match l with
  | [] => s
  | x :: rest => forEach_from body rest (index + 1)%nat (body s x index)
  end.

Definition forEach {A S : Type} (body : S -> A -> nat -> S)
    (l : list A) (s : S) : S :=
  forEach_from body l 0%nat s.

(** ** Zone-time distribution ([getHeartRateZoneDistribution]) *)

(** The [time] counters of the [zoneDistribution] object. *)
Record ZoneDistribution : Type := mkZoneDistribution {
  zone1_time : Z;
  zone2_time : Z;
  zone3_time : Z;
  zone4_time : Z;
  zone5_time : Z
}.

Definition zoneDistribution0 : ZoneDistribution :=
  mkZoneDistribution 0 0 0 0 0.

Definition zone_time (d : ZoneDistribution) (z : ZoneId) : Z :=
  match z with
  | Z1 => zone1_time d
  | Z2 => zone2_time d
  | Z3 => zone3_time d
  | Z4 => zone4_time d
  | Z5 => zone5_time d
  end.

(** The callback of the first [forEach]. *)
Definition distributionBody (zones : Zones) (timeData : list Z)
    (d : ZoneDistribution) (hr : Z) (index : nat) : ZoneDistribution :=
  if counted hr then
    let timeIncrement := timeIncrement timeData index in
    if hr <=? max (zone1 zones) then
      mkZoneDistribution (zone1_time d + timeIncrement) (zone2_time d)
        (zone3_time d) (zone4_time d) (zone5_time d)
    else if hr <=? max (zone2 zones) then
      mkZoneDistribution (zone1_time d) (zone2_time d + timeIncrement)
        (zone3_time d) (zone4_time d) (zone5_time d)
    else if hr <=? max (zone3 zones) then
      mkZoneDistribution (zone1_time d) (zone2_time d)
        (zone3_time d + timeIncrement) (zone4_time d) (zone5_time d)
    else if hr <=? max (zone4 zones) then
      mkZoneDistribution (zone1_time d) (zone2_time d)
        (zone3_time d) (zone4_time d + timeIncrement) (zone5_time d)
    else
      mkZoneDistribution (zone1_time d) (zone2_time d)
        (zone3_time d) (zone4_time d) (zone5_time d + timeIncrement)
  else d.

Module ZoneEntry.

Record t : Type := mk {
  zone : string;
  time : jsnum;
  percentage : jsnum;
  color : string
}.

End ZoneEntry.

(** [timeData[timeData.length - 1] || 1]: [undefined] (empty stream) and
    [0] are both replaced by [1]. *)
Definition lastTimeOr1 (timeData : list Z) : Z :=
  match nth_error timeData (List.length timeData - 1) with
  | Some t => if t =? 0 then 1 else t
  | None => 1
  end.

(** The [map] over [Object.entries(zoneDistribution)]. *)
Definition chartEntry (zones : Zones) (timeData : list Z)
    (d : ZoneDistribution) (z : ZoneId) : ZoneEntry.t :=
  {| ZoneEntry.zone := name (zone_of zones z);
     ZoneEntry.time := Math_round (div (of_Z (zone_time d z)) (of_Z 60));
     ZoneEntry.percentage :=
       Math_round (mul (div (of_Z (zone_time d z))
                            (of_Z (lastTimeOr1 timeData)))
                       (of_Z 100));
     ZoneEntry.color := color (zone_of zones z) |}.

Section Analytics.

Variable currentYear : Z.

(** The component state the analytics read. *)
Variable activity : option ActivityDetail.
Variable athlete : option StravaAthlete.

Definition getHeartRateZoneDistribution : list ZoneEntry.t :=
  match heartrate_of activity, birth_year_of athlete with
  | Some heartRateData, Some birthYear =>
      let maxHR := calculateMaxHeartRate currentYear birthYear in
      let zones := getHeartRateZones maxHR in
      let timeData := time_of activity in
      let zoneDistribution :=
        forEach (distributionBody zones timeData) heartRateData
                zoneDistribution0 in
      filter (fun item => gtb (ZoneEntry.time item) (of_Z 0))
             (map (chartEntry zones timeData zoneDistribution) all_zones)
  | _, _ => []
  end.

End Analytics.

(** ** Relative effort ([calculateRelativeEffortPoints]) *)

Definition zoneMultipliers (z : ZoneId) : Z :=
  match z with
  | Z1 => 1
  | Z2 => 2
  | Z3 => 3
  | Z4 => 5
  | Z5 => 8
  end.

(** The two accumulators of the effort loops. *)
Record EffortTotals : Type := mkEffortTotals {
  totalEffortPoints : Z;
  totalTimeInZones : Z
}.

Definition effortTotals0 : EffortTotals := mkEffortTotals 0 0.

(** The callback of the effort [forEach]; the loop of
    [loadComparisonData] has the same text. *)
Definition effortBody (zones : Zones) (timeData : list Z)
    (e : EffortTotals) (hr : Z) (index : nat) : EffortTotals :=
  if counted hr then
    let timeIncrement := timeIncrement timeData index in
    let totalTimeInZones := totalTimeInZones e + timeIncrement in
    if hr <=? max (zone1 zones) then
      mkEffortTotals (totalEffortPoints e + timeIncrement * zoneMultipliers Z1)
                     totalTimeInZones
    else if hr <=? max (zone2 zones) then
      mkEffortTotals (totalEffortPoints e + timeIncrement * zoneMultipliers Z2)
                     totalTimeInZones
    else if hr <=? max (zone3 zones) then
      mkEffortTotals (totalEffortPoints e + timeIncrement * zoneMultipliers Z3)
                     totalTimeInZones
    else if hr <=? max (zone4 zones) then
      mkEffortTotals (totalEffortPoints e + timeIncrement * zoneMultipliers Z4)
                     totalTimeInZones
    else
      mkEffortTotals (totalEffortPoints e + timeIncrement * zoneMultipliers Z5)
                     totalTimeInZones
  else e.

Module Effort.

Record t : Type := mk {
  totalPoints : jsnum;
  relativeScore : jsnum;
  intensityFactor : jsnum;
  timeInZones : jsnum;
  zoneMultipliers : ZoneId -> Z
}.

End Effort.

(** The tail of [calculateRelativeEffortPoints], from the two totals. *)
Definition effortResult (e : EffortTotals) : Effort.t :=
  let ratio := div (of_Z (totalEffortPoints e)) (of_Z (totalTimeInZones e)) in
  let relativeEffortScore :=
    if 0 <? totalTimeInZones e
    then Math_round (mul ratio (of_Z 3600))
    else of_Z 0 in
  let intensityFactor :=
    if 0 <? totalTimeInZones e
    then div ratio (of_Z 3)
    else of_Z 0 in
  {| Effort.totalPoints := Math_round (of_Z (totalEffortPoints e));
     Effort.relativeScore := relativeEffortScore;
     Effort.intensityFactor :=
       div (Math_round (mul intensityFactor (of_Z 100))) (of_Z 100);
     Effort.timeInZones :=
       Math_round (div (of_Z (totalTimeInZones e)) (of_Z 60));
     Effort.zoneMultipliers := zoneMultipliers |}.

Section RelativeEffort.

Variable currentYear : Z.
Variable activity : option ActivityDetail.
Variable athlete : option StravaAthlete.

(** [None] is the [null] the function returns. *)
Definition calculateRelativeEffortPoints : option Effort.t :=
  match heartrate_of activity, birth_year_of athlete with
  | Some heartRateData, Some birthYear =>
      let maxHR := calculateMaxHeartRate currentYear birthYear in
      let zones := getHeartRateZones maxHR in
      let timeData := time_of activity in
      Some (effortResult
              (forEach (effortBody zones timeData) heartRateData
                       effortTotals0))
  | _, _ => None
  end.

End RelativeEffort.

(** ** Cohort comparison ([loadComparisonData]) *)

(** An element of [comparisonResults]; the fields only shown in the
    chart ([name], [type], [distance]) are left out.  [date] is the
    string [new Date(start_date_local).toLocaleDateString()], kept as
    the day it was written from: how it reads is up to the locale. *)
Module ComparisonEntry.

Record t : Type := mk {
  id : Z;
  date : LocalDate;
  effort : jsnum;
  isCurrentActivity : bool
}.

End ComparisonEntry.

Inductive Period : Type := Month | Year.

(** [Array.prototype.sort(compare)]: the sort is stable, and [a] goes
    before [b] when [compare a b <= 0] and [a] came first.  With a
    comparison that is consistent this is the order every engine
    gives; with invalid dates in the list the comparison is not
    consistent, the order is left to the engine, and this is the order
    of one that inserts from the right. *)
Fixpoint sort_insert {A : Type} (compare : A -> A -> Z) (x : A)
    (l : list A) : list A :=
  match l with
  | [] => [x]
  | y :: rest =>
      if compare x y <=? 0 then x :: y :: rest
      else y :: sort_insert compare x rest
  end.

Fixpoint sort {A : Type} (compare : A -> A -> Z) (l : list A) : list A :=
  match l with
  | [] => []
  | x :: rest => sort_insert compare x (sort compare rest)
  end.

(** The filter of [allActivities] by period. *)
Definition inPeriod (comparisonPeriod : Period) (activity : ActivityDetail)
    (act : StravaActivity) : bool :=
  let activityDate := start_date_local activity in
  let actDate := act_start_date_local act in
  match comparisonPeriod with
  | Month =>
      (fullYear actDate =? fullYear activityDate)
      && (month actDate =? month activityDate)
      && negb (act_id act =? id activity)
  | Year =>
      (fullYear actDate =? fullYear activityDate)
      && negb (act_id act =? id activity)
  end.

Section Service.

(** The state behind [stravaService] (cache and remote API). *)
Variable World : Type.

(** [await stravaService.getActivityDetail(id)]; [None] is a rejected
    promise. *)
Variable getActivityDetail : World -> Z -> World * option ActivityDetail.

(** [await stravaService.getCachedActivities()] *)
Variable getCachedActivities : World -> World * option (list StravaActivity).

Variable currentYear : Z.

(** The browser's locale: [new Date(s).getTime()] for the string [s]
    that [toLocaleDateString()] writes for a day, and [None] where
    [new Date] reads [s] as an invalid date (a time value of
    [NaN]). *)
Variable localeTime : LocalDate -> option Z.

(** [(a, b) => new Date(a.date).getTime() - new Date(b.date).getTime()];
    a difference of [NaN] counts as 0 in a sort. *)
Definition byDate (a b : ComparisonEntry.t) : Z :=
  match localeTime (ComparisonEntry.date a),
        localeTime (ComparisonEntry.date b) with
  | Some ta, Some tb => ta - tb
  | _, _ => 0
  end.

(** The [for ... of] loop over [filteredActivities], with its
    [try / catch]. *)
Fixpoint comparisonLoop (birthYear : Z) (w : World)
    (acts : list StravaActivity)
    (comparisonResults : list ComparisonEntry.t)
    : World * list ComparisonEntry.t :=
  match acts with
  | [] => (w, comparisonResults)
  | act :: rest =>
      let (w', fetched) := getActivityDetail w (act_id act) in
      match fetched with
      | Some detailedAct =>
          match heartrate_of (Some detailedAct) with
          | Some heartRateData =>
              let maxHR := calculateMaxHeartRate currentYear birthYear in
              let zones := getHeartRateZones maxHR in
              let timeData := time_of (Some detailedAct) in
              let totals :=
                forEach (effortBody zones timeData) heartRateData
                        effortTotals0 in
              comparisonLoop birthYear w' rest
                (comparisonResults ++
                 [ComparisonEntry.mk (act_id act) (act_start_date_local act)
                    (Math_round (of_Z (totalEffortPoints totals))) false])
          | None => comparisonLoop birthYear w' rest comparisonResults
          end
      | None => comparisonLoop birthYear w' rest comparisonResults
      end
  end.

(** The value handed to [setComparisonData]; [None] when the function
    returns or fails before setting it. *)
Definition loadComparisonData (activity : option ActivityDetail)
    (athlete : option StravaAthlete) (comparisonPeriod : Period)
    (w : World) : World * option (list ComparisonEntry.t) :=
  match activity, birth_year_of athlete with
  | Some act0, Some birthYear =>
      let (w1, cached) := getCachedActivities w in
      match cached with
      | Some allActivities =>
          let filteredActivities :=
            filter (inPeriod comparisonPeriod act0) allActivities in
          let (w2, comparisonResults) :=
            comparisonLoop birthYear w1 filteredActivities [] in
          let currentEffort :=
            calculateRelativeEffortPoints currentYear activity athlete in
          let comparisonResults :=
            match currentEffort with
            | Some e =>
                comparisonResults ++
                [ComparisonEntry.mk (id act0) (start_date_local act0)
                   (Effort.totalPoints e) true]
            | None => comparisonResults
            end in
          (w2, Some (sort byDate comparisonResults))
      | None => (w1, None)
      end
  | _, _ => (w, None)
  end.

End Service.

(** ** The "Your Position" line *)

Fixpoint findIndex_from {A : Type} (p : A -> bool) (l : list A) (i : Z) : Z :=
  match l with
  | [] => -1
  | x :: rest => if p x then i else findIndex_from p rest (i + 1)
  end.

(** [Array.prototype.findIndex] *)
Definition findIndex {A : Type} (p : A -> bool) (l : list A) : Z :=
  findIndex_from p l 0.

Record Position : Type := mkPosition {
  rank : Z;
  total : Z;
  percentile : jsnum
}.

Definition position (comparisonData : list ComparisonEntry.t) : Position :=
  let currentIndex := findIndex ComparisonEntry.isCurrentActivity comparisonData in
  let rank := currentIndex + 1 in
  let total := Z.of_nat (List.length comparisonData) in
  let percentile :=
    Math_round (mul (div (of_Z (total - rank)) (of_Z (total - 1)))
                    (of_Z 100)) in
  mkPosition rank total percentile.

(** What the comparison panel shows: the position line when
    [comparisonData.length > 0], and otherwise ([None]) the text "No
    other activities with heart rate data found for comparison in this
    period." *)
Definition yourPosition (comparisonData : list ComparisonEntry.t)
    : option Position :=
  if 0 <? Z.of_nat (List.length comparisonData)
  then Some (position comparisonData)
  else None.

(** The rank in the words of the specification: the 1-based position of
    the subject after sorting by effort ascending. *)
Definition byEffort (a b : ComparisonEntry.t) : Z :=
  if gtb (ComparisonEntry.effort a) (ComparisonEntry.effort b) then 1
  else if gtb (ComparisonEntry.effort b) (ComparisonEntry.effort a) then -1
  else 0.

Definition spec_rank (comparisonData : list ComparisonEntry.t) : Z :=
  findIndex ComparisonEntry.isCurrentActivity (sort byEffort comparisonData)
  + 1.

(** ** Bulk stream backfill ([fetchAllStreamData]) *)

Inductive Event : Type :=
| SetLoadingStreams (b : bool)
| SetErrorNull
| SetStreamProgress (current total : Z)
| CallGetActivityDetail (activityId : Z)
| Delay (ms : Z)
| ConsoleError (activityId : Z)
| Alert (allSucceeded : bool) (successCount errorCount : Z).

Record Backfill (World : Type) : Type := mkBackfill {
  world : World;
  successCount : Z;
  errorCount : Z;
  events : list Event
}.

Arguments mkBackfill {World}.
Arguments world {World}.
Arguments successCount {World}.
Arguments errorCount {World}.
Arguments events {World}.

Section Backfill.

Variable World : Type.
Variable getActivityDetail : World -> Z -> World * option ActivityDetail.

(** The [for] loop, from index [i]; [n] is
    [activitiesToProcess.length]. *)
Fixpoint backfillLoop (n : Z) (i : Z) (acts : list StravaActivity)
    (s : Backfill World) : Backfill World :=
  match acts with
  | [] => s
  | activity :: rest =>
      let ev := events s ++ [SetStreamProgress (i + 1) n;
                             CallGetActivityDetail (act_id activity)] in
      let (w', fetched) := getActivityDetail (world s) (act_id activity) in
      let s' :=
        match fetched with
        | Some _ =>
            mkBackfill w' (successCount s + 1) (errorCount s)
              (if i <? n - 1 then ev ++ [Delay 200] else ev)
        | None =>
            mkBackfill w' (successCount s) (errorCount s + 1)
              (ev ++ [ConsoleError (act_id activity)])
        end in
      backfillLoop n (i + 1) rest s'
  end.

(** The component state read by the handler is passed in; the result is
    the world after the run with the trace of the effects, in order. *)
Definition fetchAllStreamData (isAuthenticated loadingStreams : bool)
    (filteredActivities activities : list StravaActivity) (w : World)
    : World * list Event :=
  if negb isAuthenticated || loadingStreams then (w, [])
  else
    let activitiesToProcess :=
      if 0 <? Z.of_nat (List.length filteredActivities)
      then filteredActivities else activities in
    let n := Z.of_nat (List.length activitiesToProcess) in
    let s0 := mkBackfill w 0 0
                [SetLoadingStreams true; SetErrorNull;
                 SetStreamProgress 0 n] in
    let s := backfillLoop n 0 activitiesToProcess s0 in
    (world s,
     events s ++
     [Alert (errorCount s =? 0) (successCount s) (errorCount s);
      SetLoadingStreams false; SetStreamProgress 0 0]).

End Backfill.

(** Projections of a trace. *)
Definition progressOf (e : Event) : option (Z * Z) :=
  match e with
  | SetStreamProgress current total => Some (current, total)
  | _ => None
  end.

Definition callOf (e : Event) : option Z :=
  match e with
  | CallGetActivityDetail activityId => Some activityId
  | _ => None
  end.

Definition alertOf (e : Event) : option (Z * Z) :=
  match e with
  | Alert _ s f => Some (s, f)
  | _ => None
  end.

Fixpoint filter_map {A B : Type} (f : A -> option B) (l : list A) : list B :=
  match l with
  | [] => []
  | x :: rest =>
      match f x with
      | Some y => y :: filter_map f rest
      | None => filter_map f rest
      end
  end.

(** ** Notions used to state the properties *)

(** [Math.round] of an exact rational [q]: the integer [r] with
    [r - 1/2 <= q < r + 1/2].  The formulas of the specification, read
    over the rationals, are stated with it. *)
Definition round_Q (q : Q) : Z := Qfloor (q + (1 # 2)).

Definition upper_bounds (zones : Zones) : list Z :=
  map (fun z => max (zone_of zones z)) all_zones.

(** [Math.round] applied to the exact product [k / 10 * maxHR]. *)
Definition round_tenths (k maxHR : Z) : Z := (2 * k * maxHR + 10) / 20.

(** The maximum heart rates at which [0.7 * maxHR] is a tie that the
    binary64 product falls just short of. *)
Definition tie_below (k maxHR : Z) : bool :=
  (k =? 7) && existsb (Z.eqb maxHR) [45; 85; 165; 175].

(** The threshold [Math.round(maxHR * 0.k)] as it should be for a
    maximum heart rate from 0 to 220. *)
Definition threshold (k maxHR : Z) : Z :=
  if tie_below k maxHR then round_tenths k maxHR - 1
  else round_tenths k maxHR.

Fixpoint all_from (p : Z -> bool) (lo : Z) (n : nat) : bool :=
  match n with
  | O => true
  | S n' => p lo && all_from p (lo + 1) n'
  end.

(** A sum over the samples of a stream, each with its index. *)
Fixpoint sum_from (f : Z -> nat -> Z) (l : list Z) (index : nat) : Z :=
  match l with
  | [] => 0
  | x :: rest => f x index + sum_from f rest (index + 1)%nat
  end.

(** The seconds a sample adds to a given zone, and the effort points it
    adds, written without the accumulators. *)
Definition secondsIn (zones : Zones) (timeData : list Z) (z : ZoneId)
    (hr : Z) (index : nat) : Z :=
  if counted hr && ZoneId_eqb (classify zones hr) z
  then timeIncrement timeData index else 0.

Definition secondsOf (timeData : list Z) (hr : Z) (index : nat) : Z :=
  if counted hr then timeIncrement timeData index else 0.

Definition pointsOf (zones : Zones) (timeData : list Z)
    (hr : Z) (index : nat) : Z :=
  if counted hr
  then timeIncrement timeData index * zoneMultipliers (classify zones hr)
  else 0.

(** *** Charges, in the words of the specification *)

(** The seconds charged to the sample at index [i]:
    [time[i+1] - time[i]] where the time stream has a value at
    [i + 1], and 1 second where it has none. *)
Definition charge (timeData : list Z) (i : nat) : Z :=
  match nth_error timeData i, nth_error timeData (i + 1) with
  | Some t, Some t' => t' - t
  | _, _ => 1
  end.

(** The samples with their indices. *)
Definition indexed_from (i : nat) (heartRateData : list Z) : list (nat * Z) :=
  combine (seq i (List.length heartRateData)) heartRateData.


Definition positive_sample (sample : nat * Z) : bool := 0 <? snd sample.

(** The zone and the seconds of every sample above 0, in order; the
    first sample has index [i]. *)
Definition charges_from (zones : Zones) (timeData : list Z) (i : nat)
    (heartRateData : list Z) : list (ZoneId * Z) :=
  map (fun sample => (classify zones (snd sample),
                      charge timeData (fst sample)))
      (filter positive_sample (indexed_from i heartRateData)).

Definition charges (zones : Zones) (timeData heartRateData : list Z)
    : list (ZoneId * Z) :=
  charges_from zones timeData 0 heartRateData.

Definition Zsum (l : list Z) : Z := fold_right Z.add 0 l.

Definition zoneSeconds (zones : Zones) (timeData heartRateData : list Z)
    (z : ZoneId) : Z :=
  Zsum (map snd (filter (fun c => ZoneId_eqb (fst c) z)
                        (charges zones timeData heartRateData))).

Definition classifiedSeconds (zones : Zones) (timeData heartRateData : list Z)
    : Z :=
  Zsum (map snd (charges zones timeData heartRateData)).

Definition weight (z : ZoneId) : Z :=
  match z with Z1 => 1 | Z2 => 2 | Z3 => 3 | Z4 => 5 | Z5 => 8 end.

Definition effortPoints (zones : Zones) (timeData heartRateData : list Z)
    : Z :=
  Zsum (map (fun c => snd c * weight (fst c))
            (charges zones timeData heartRateData)).


(** The denominator of the percentages: the last time value, and 1
    where there is none or it is 0. *)
Definition denominator (timeData : list Z) : Z :=
  match rev timeData with
  | t :: _ => if t =? 0 then 1 else t
  | [] => 1
  end.

(** The chart entry of a zone that holds [seconds] seconds. *)
Definition entryOf (zones : Zones) (D : Z) (z : ZoneId) (seconds : Z)
    : ZoneEntry.t :=
  ZoneEntry.mk (name (zone_of zones z))
    (Math_round (div (of_Z seconds) (of_Z 60)))
    (Math_round (mul (div (of_Z seconds) (of_Z D)) (of_Z 100)))
    (color (zone_of zones z)).

(** The zones that get an entry: those whose rounded minutes are above
    0. *)
Definition shown (seconds : Z) : bool :=
  gtb (Math_round (div (of_Z seconds) (of_Z 60))) (of_Z 0).

(** The two scores of an effort of [points] points in [seconds]
    classified seconds. *)
Definition scoreOf (points seconds : Z) : jsnum :=
  if 0 <? seconds
  then Math_round (mul (div (of_Z points) (of_Z seconds)) (of_Z 3600))
  else of_Z 0.

Definition intensityOf (points seconds : Z) : jsnum :=
  div (Math_round
         (mul (if 0 <? seconds
               then div (div (of_Z points) (of_Z seconds)) (of_Z 3)
               else of_Z 0)
              (of_Z 100)))
      (of_Z 100).





Definition fexp64 : Z -> Z := fexp prec emax.

(** Equality of two numbers as values (bit for bit). *)
Definition jsnum_eqb (x y : jsnum) : bool :=
  match x, y with
  | S754_zero s, S754_zero s' => Bool.eqb s s'
  | S754_infinity s, S754_infinity s' => Bool.eqb s s'
  | S754_nan, S754_nan => true
  | S754_finite s m e, S754_finite s' m' e' =>
      Bool.eqb s s' && Pos.eqb m m' && Z.eqb e e'
  | _, _ => false
  end.

(** The thresholds of [getHeartRateZones maxHR] are the expected ones. *)
Definition thresholds_ok (maxHR : Z) : bool :=
  forallb (fun k => round_scaled maxHR (tenths k) =? threshold k maxHR)
          [6; 7; 8; 9]
  && forallb (fun k => (-5 <=? 10 * threshold k maxHR - k * maxHR)
                       && (10 * threshold k maxHR - k * maxHR <=? 5))
             [6; 7; 8; 9]
  && (0 <=? threshold 6 maxHR)
  && (threshold 6 maxHR <=? threshold 7 maxHR)
  && (threshold 7 maxHR <=? threshold 8 maxHR)
  && (threshold 8 maxHR <=? threshold 9 maxHR)
  && (threshold 9 maxHR <=? maxHR).

(** [Math.round(seconds / 60)] is the whole number of minutes nearest
    to [seconds], halves counted up. *)
Definition minutes_ok (seconds : Z) : bool :=
  jsnum_eqb (Math_round (div (of_Z seconds) (of_Z 60)))
            (of_Z ((seconds + 30) / 60)).

(** The percentile shown for [rank] of [total]. *)
Definition percentileOf (total rank : Z) : jsnum :=
  Math_round (mul (div (of_Z (total - rank)) (of_Z (total - 1))) (of_Z 100)).

Definition percentile_ok (total rank : Z) : bool :=
  match rounded (mul (div (of_Z (total - rank)) (of_Z (total - 1)))
                     (of_Z 100)) with
  | Some k =>
      (0 <=? k) && (k <=? 100) && jsnum_eqb (percentileOf total rank) (of_Z k)
  | None => false
  end.

(** Every rank from 1 to [total] has a whole percentile from 0 to
    100. *)
Definition percentiles_ok (total : Z) : bool :=
  all_from (percentile_ok total) 1 (Z.to_nat total).

(** *** Dates *)

(** The order of the calendar days (months 0 to 11, days 1 to 31). *)
Definition dayNumber (d : LocalDate) : Z :=
  (fullYear d * 12 + month d) * 31 + dayOfMonth d.

Section Locale.

Variable localeTime : LocalDate -> option Z.

(** The time value the sort reads for an entry. *)
Definition timeOf (e : ComparisonEntry.t) : option Z :=
  localeTime (ComparisonEntry.date e).

Definition valid_date (e : ComparisonEntry.t) : Prop := timeOf e <> None.

Definition keyOf (e : ComparisonEntry.t) : Z :=
  match timeOf e with
  | Some t => t
  | None => 0
  end.

Definition key_le (a b : ComparisonEntry.t) : Prop := keyOf a <= keyOf b.

Definition same_key (k : Z) (e : ComparisonEntry.t) : bool := keyOf e =? k.

(** The candidates that the sort puts before the subject: those not
    read as later than it. *)
Definition not_later (subject e : ComparisonEntry.t) : bool :=
  keyOf e <=? keyOf subject.

(** A locale whose date strings [new Date] reads back as the days they
    were written from: every time value is valid, and the time values
    are ordered as the days are. *)
Definition reads_back : Prop :=
  forall d, exists t,
    localeTime d = Some t
    /\ forall d' t', localeTime d' = Some t' ->
                     (t <= t' <-> dayNumber d <= dayNumber d').

End Locale.

(** Chronological order of two entries. *)
Definition date_le (a b : ComparisonEntry.t) : Prop :=
  dayNumber (ComparisonEntry.date a) <= dayNumber (ComparisonEntry.date b).

Definition is_candidate (e : ComparisonEntry.t) : Prop :=
  ComparisonEntry.isCurrentActivity e = false.

(** The entry pushed for the subject activity. *)
Definition subjectEntry (activity : ActivityDetail) (e : Effort.t)
    : ComparisonEntry.t :=
  ComparisonEntry.mk (id activity) (start_date_local activity)
    (Effort.totalPoints e) true.

Section Candidates.

Variable World : Type.
Variable getActivityDetail : World -> Z -> World * option ActivityDetail.
Variable currentYear : Z.
Variable birthYear : Z.

(** An entry of the comparison for one of the activities [acts]: the
    detail of the activity was fetched, it has a heart-rate stream,
    and the effort of the entry is the total of its effort points. *)
Definition fetched_candidate (acts : list StravaActivity)
    (e : ComparisonEntry.t) : Prop :=
  exists act w w' detailedAct heartRateData,
    In act acts
    /\ getActivityDetail w (act_id act) = (w', Some detailedAct)
    /\ heartrate_of (Some detailedAct) = Some heartRateData
    /\ e = ComparisonEntry.mk (act_id act) (act_start_date_local act)
             (Math_round
                (of_Z (effortPoints
                         (getHeartRateZones
                            (calculateMaxHeartRate currentYear birthYear))
                         (time_of (Some detailedAct)) heartRateData)))
             false.

End Candidates.

(** *** Backfill *)

(** The progress updates and the detail requests of a trace. *)
Definition isStep (e : Event) : bool :=
  match e with
  | SetStreamProgress _ _ | CallGetActivityDetail _ => true
  | _ => false
  end.

Definition isConsoleError (e : Event) : bool :=
  match e with
  | ConsoleError _ => true
  | _ => false
  end.

Definition errorOf (e : Event) : option Z :=
  match e with
  | ConsoleError activityId => Some activityId
  | _ => None
  end.

(** One progress update followed by one detail request for each
    activity, in order; the update of the item at index [i] shows
    [i + 1]. *)
Fixpoint steps (n : Z) (i : Z) (acts : list StravaActivity) : list Event :=
  match acts with
  | [] => []
  | activity :: rest =>
      SetStreamProgress (i + 1) n
      :: CallGetActivityDetail (act_id activity)
      :: steps n (i + 1) rest
  end.

Section Outcomes.

Variable World : Type.
Variable getActivityDetail : World -> Z -> World * option ActivityDetail.

(** The requests of a run in the words of the specification: the
    activities are requested one after the other, each in the world the
    request before it left; [true] marks a request that was
    fulfilled. *)
Fixpoint fetchOutcomes (w : World) (acts : list StravaActivity)
    : list (Z * bool) :=
  match acts with
  | [] => []
  | activity :: rest =>
      let (w', fetched) := getActivityDetail w (act_id activity) in
      (act_id activity,
       match fetched with Some _ => true | None => false end)
      :: fetchOutcomes w' rest
  end.

Fixpoint worldAfter (w : World) (acts : list StravaActivity) : World :=
  match acts with
  | [] => w
  | activity :: rest =>
      worldAfter (fst (getActivityDetail w (act_id activity))) rest
  end.

End Outcomes.

Definition fulfilled (outcome : Z * bool) : bool := snd outcome.

Definition failed (outcome : Z * bool) : bool := negb (snd outcome).

(** ** Sample inputs *)

(** Samples of 100, 100 and 160 bpm at seconds 0, 30 and 60, on
    1 August 2025. *)
Definition run_100_100_160 : option ActivityDetail :=
  Some (mkActivityDetail 1 (mkLocalDate 2025 7 1)
          (Some (mkStreamData (Some [0; 30; 60]) (Some [100; 100; 160])))).

(** Samples of 100, 160 and 100 bpm at seconds 0, 30 and 60. *)
Definition run_100_160_100 : option ActivityDetail :=
  Some (mkActivityDetail 4 (mkLocalDate 2025 7 4)
          (Some (mkStreamData (Some [0; 30; 60]) (Some [100; 160; 100])))).

(** Two heart-rate samples on a time stream of three values. *)
Definition run_long_clock : option ActivityDetail :=
  Some (mkActivityDetail 5 (mkLocalDate 2025 7 5)
          (Some (mkStreamData (Some [0; 30; 60]) (Some [100; 100])))).

Definition born_1990 : option StravaAthlete :=
  Some (mkStravaAthlete (Some 1990)).

(** A heart-rate stream with no positive sample. *)
Definition run_flat : option ActivityDetail :=
  Some (mkActivityDetail 2 (mkLocalDate 2025 7 2)
          (Some (mkStreamData (Some [0]) (Some [0])))).



(** A cohort: a hard run on 1 August 2025 (one sample of 160 bpm), the
    subject; an easy run on 2 August and another on 2 July (one sample
    of 100 bpm each). *)
Definition hard_run : option ActivityDetail :=
  Some (mkActivityDetail 10 (mkLocalDate 2025 7 1)
          (Some (mkStreamData (Some [0]) (Some [160])))).

Definition easy_run : ActivityDetail :=
  mkActivityDetail 11 (mkLocalDate 2025 7 2)
    (Some (mkStreamData (Some [0]) (Some [100]))).

Definition july_run : ActivityDetail :=
  mkActivityDetail 12 (mkLocalDate 2025 6 2)
    (Some (mkStreamData (Some [0]) (Some [100]))).

Definition cohort_cache : list StravaActivity :=
  [mkStravaActivity 11 (mkLocalDate 2025 7 2);
   mkStravaActivity 10 (mkLocalDate 2025 7 1);
   mkStravaActivity 12 (mkLocalDate 2025 6 2)].

Definition cohort_getActivityDetail (w : unit) (activityId : Z)
    : unit * option ActivityDetail :=
  (w, if activityId =? 11 then Some easy_run
      else if activityId =? 12 then Some july_run
      else None).

Definition cohort_getCachedActivities (w : unit)
    : unit * option (list StravaActivity) :=
  (w, Some cohort_cache).

Definition cohort_comparisonData : list ComparisonEntry.t :=
  [ComparisonEntry.mk 10 (mkLocalDate 2025 7 1) (of_Z 5) true;
   ComparisonEntry.mk 11 (mkLocalDate 2025 7 2) (of_Z 1) false].

(** Two locales.  In an [en-US] browser 1 August 2025 is written
    "8/1/2025", which [new Date] reads back as that day.  In an
    [en-GB] browser it is written "01/08/2025", which [new Date] reads
    as 8 January 2025; a day after the 12th, as in "25/08/2025", is
    read as an invalid date.  The time values are given in days, up to
    the time zone: a sort only reads the sign of their differences. *)
Definition en_US (d : LocalDate) : option Z := Some (dayNumber d).

Definition en_GB (d : LocalDate) : option Z :=
  if dayOfMonth d <=? 12
  then Some (dayNumber (mkLocalDate (fullYear d) (dayOfMonth d - 1)
                          (month d + 1)))
  else None.

(** Five activities, of which the third cannot be fetched. *)
Definition five_activities : list StravaActivity :=
  map (fun i => mkStravaActivity i (mkLocalDate 2025 7 i)) [1; 2; 3; 4; 5].

Definition third_fails (w : unit) (activityId : Z)
    : unit * option ActivityDetail :=
  (w, if activityId =? 3 then None
      else Some (mkActivityDetail activityId (mkLocalDate 2025 7 activityId)
                   None)).

(** * The service ([services/stravaService], [services/database]) *)

(** ** Tables *)

(** A Dexie table: the rows with their primary keys, in key order. *)
Definition Table (R : Type) : Type := list (Z * R).

Fixpoint table_get {R : Type} (k : Z) (t : Table R) : option R :=
  match t with
  | [] => None
  | (k', r) :: rest => if k' =? k then Some r else table_get k rest
  end.

(** [put]: insert, or replace the row of the same key. *)
Fixpoint table_put {R : Type} (k : Z) (r : R) (t : Table R) : Table R :=
  match t with
  | [] => [(k, r)]
  | (k', r') :: rest =>
      if k <? k' then (k, r) :: (k', r') :: rest
      else if k =? k' then (k, r) :: rest
      else (k', r') :: table_put k r rest
  end.

Definition table_delete {R : Type} (k : Z) (t : Table R) : Table R :=
  filter (fun row => negb (fst row =? k)) t.

(** [toCollection().first()] *)
Definition table_first {R : Type} (t : Table R) : option R :=
  match t with
  | [] => None
  | (_, r) :: _ => Some r
  end.

Definition table_toArray {R : Type} (t : Table R) : list R := map snd t.

(** [update(key, changes)]: changes the row of that key, if there is
    one. *)
Definition table_update {R : Type} (k : Z) (change : R -> R) (t : Table R)
    : Table R :=
  map (fun row => if fst row =? k then (fst row, change (snd row)) else row) t.

(** [add]: fails ([None]) when the key is taken. *)
Definition table_add {R : Type} (k : Z) (r : R) (t : Table R)
    : option (Table R) :=
  match table_get k t with
  | Some _ => None
  | None => Some (table_put k r t)
  end.

(** [bulkAdd] inside a transaction: all the rows, or none of them when
    a key is taken. *)
Fixpoint table_bulkAdd {R : Type} (key : R -> Z) (rows : list R)
    (t : Table R) : option (Table R) :=
  match rows with
  | [] => Some t
  | r :: rest =>
      match table_add (key r) r t with
      | Some t' => table_bulkAdd key rest t'
      | None => None
      end
  end.

(** Keys strictly increasing. *)
Definition table_sorted {R : Type} (t : Table R) : Prop :=
  StronglySorted (fun a b => fst a < fst b) t.

(** ** Rows *)

(** A row of [settings]; every field may be missing at run time. *)
Record StravaSettings : Type := mkStravaSettings {
  settings_id : option Z;
  clientId : option string;
  clientSecret : option string;
  accessToken : option string;
  refreshToken : option string;
  expiresAt : option Z;
  scope : option string
}.

(** The [Partial<StravaSettings>] handed to [saveSettings]; the callers
    pass no [id] other than the one of the row they read. *)
Record PartialSettings : Type := mkPartialSettings {
  p_clientId : option string;
  p_clientSecret : option string;
  p_accessToken : option string;
  p_refreshToken : option string;
  p_expiresAt : option Z;
  p_scope : option string
}.

Definition override {A : Type} (old new : option A) : option A :=
  match new with
  | Some _ => new
  | None => old
  end.

(** [{ ...existing, ...settings }], which is also what [update] does to
    the stored row. *)
Definition mergeSettings (existing : StravaSettings) (p : PartialSettings)
    : StravaSettings :=
  {| settings_id := settings_id existing;
     clientId := override (clientId existing) (p_clientId p);
     clientSecret := override (clientSecret existing) (p_clientSecret p);
     accessToken := override (accessToken existing) (p_accessToken p);
     refreshToken := override (refreshToken existing) (p_refreshToken p);
     expiresAt := override (expiresAt existing) (p_expiresAt p);
     scope := override (scope existing) (p_scope p) |}.

(** [{ id, ...settings }] *)
Definition newSettings (k : Z) (p : PartialSettings) : StravaSettings :=
  {| settings_id := Some k;
     clientId := p_clientId p;
     clientSecret := p_clientSecret p;
     accessToken := p_accessToken p;
     refreshToken := p_refreshToken p;
     expiresAt := p_expiresAt p;
     scope := p_scope p |}.

(** A row of [athlete]: its key and the fields the analytics read. *)
Record AthleteRow : Type := mkAthleteRow {
  athlete_id : Z;
  athlete_fields : StravaAthlete
}.

(** Truthiness of an optional string and of an optional number. *)
Definition truthy_string (s : option string) : bool :=
  match s with
  | Some x => negb (String.eqb x "")
  | None => false
  end.

Definition truthy_number (n : option Z) : bool :=
  match n with
  | Some x => negb (x =? 0)
  | None => false
  end.

(** ** The database and the service object *)

Record Database : Type := mkDatabase {
  db_settings : Table StravaSettings;
  (** the key generator of [++id] *)
  db_settings_next : Z;
  db_activities : Table StravaActivity;
  db_activityDetails : Table ActivityDetail;
  db_athlete : Table AthleteRow
}.

Record Service : Type := mkService {
  svc_db : Database;
  (** [this.settings] *)
  svc_settings : option StravaSettings
}.

(** ** Calls that may throw *)

Inductive result (A : Type) : Type :=
| Ok (a : A)
| Err (message : string).

Arguments Ok {A}.
Arguments Err {A}.

(** An [async] method over a world [W]: the world after the call, and
    the value the promise resolves to or the error it rejects with.
    What was written before a [throw] stays written.  An error is
    its message, without the [response.statusText] that the code
    appends for a refused request. *)
Definition Async (W A : Type) : Type := W -> W * result A.

Definition resolve {W A : Type} (a : A) : Async W A := fun w => (w, Ok a).

Definition throw {W A : Type} (message : string) : Async W A :=
  fun w => (w, Err message).

Definition await {W A B : Type} (c : Async W A) (k : A -> Async W B)
    : Async W B :=
  fun w =>
    match c w with
    | (w', Ok a) => k a w'
    | (w', Err message) => (w', Err message)
    end.

(** [try { c } catch (error) { handler }] *)
Definition try_catch {W A : Type} (c : Async W A) (handler : string -> Async W A)
    : Async W A :=
  fun w =>
    match c w with
    | (w', Ok a) => (w', Ok a)
    | (w', Err message) => handler message w'
    end.

Declare Scope async_scope.
Delimit Scope async_scope with async.
Notation "x <- c ;; k" := (await c (fun x => k))
  (at level 61, c at next level, right associativity) : async_scope.
Notation "c ;;; k" := (await c (fun _ => k))
  (at level 61, right associativity) : async_scope.

(** ** The remote API *)

(** The body of a request to the token endpoint. *)
Inductive TokenRequest : Type :=
| AuthorizationCodeGrant (client_id client_secret code : string)
| RefreshTokenGrant (client_id client_secret refresh_token : string).

Record TokenResponse : Type := mkTokenResponse {
  access_token : string;
  refresh_token : string;
  expires_at : Z;
  granted_scope : string
}.

(** The response of the streams endpoint, keyed by stream type; [None]
    is an entry without a [data] array. *)
Definition StreamsEnvelope : Type := list (string * option (list Z)).

(** [streams[streamType] = streamInfo.data], on the two kinds that
    [StreamData] keeps here. *)
Definition setStream (streamType : string) (data : list Z) (s : StreamData)
    : StreamData :=
  if String.eqb streamType "time" then mkStreamData (Some data) (heartrate s)
  else if String.eqb streamType "heartrate" then mkStreamData (time s) (Some data)
  else s.

(** The [forEach] over [Object.keys(streamsData)]. *)
Definition unpackStreams (streamsData : StreamsEnvelope) : StreamData :=
  fold_left
    (fun streams entry =>
       match snd entry with
       | Some data => setStream (fst entry) data streams
       | None => streams
       end)
    streamsData (mkStreamData None None).

(** Everything outside the page: the Strava servers and the clock.  A
    request returns [None] when the response is not [ok]; a request
    that cannot be sent is not told apart from that. *)
Class Api (Remote : Type) : Type := mkApi {
  (** [Date.now()] *)
  now : Remote -> Z;
  (** [POST] to the token endpoint *)
  postToken : Remote -> TokenRequest -> Remote * option TokenResponse;
  (** [GET /activities/{id}], [GET /activities/{id}/streams],
      [GET /athlete/activities?page=..&per_page=..] and
      [GET /athlete], with the bearer token *)
  getDetail : Remote -> string -> Z -> Remote * option ActivityDetail;
  getStreams : Remote -> string -> Z -> Remote * option StreamsEnvelope;
  getPage : Remote -> string -> Z -> Z -> Remote * option (list StravaActivity);
  getProfile : Remote -> string -> Remote * option AthleteRow
}.

Record World (Remote : Type) : Type := mkWorld {
  service : Service;
  remote : Remote
}.

Arguments mkWorld {Remote}.
Arguments service {Remote}.
Arguments remote {Remote}.

Section Remote.

Context {Remote : Type} {api : Api Remote}.

Definition setService (s : Service) (w : World Remote) : World Remote :=
  mkWorld s (remote w).

Definition setRemote (r : Remote) (w : World Remote) : World Remote :=
  mkWorld (service w) r.

Definition setDb (d : Database) (w : World Remote) : World Remote :=
  mkWorld (mkService d (svc_settings (service w))) (remote w).

Definition the_db (w : World Remote) : Database := svc_db (service w).

Open Scope async_scope.

Definition getSettings : Async (World Remote) (option StravaSettings) :=
  fun w =>
    match svc_settings (service w) with
    | Some s => (w, Ok (Some s))
    | None =>
        let settings := table_first (db_settings (the_db w)) in
        (setService (mkService (the_db w) settings) w, Ok settings)
    end.

Definition saveSettings (settings : PartialSettings) : Async (World Remote) unit :=
  existingSettings <- getSettings ;;
  fun w =>
    let d := the_db w in
    match existingSettings with
    | Some existing =>
        let rows :=
          match settings_id existing with
          | Some k =>
              table_update k (fun row => mergeSettings row settings)
                (db_settings d)
          | None => db_settings d
          end in
        (mkWorld
           (mkService
              (mkDatabase rows (db_settings_next d) (db_activities d)
                 (db_activityDetails d) (db_athlete d))
              (Some (mergeSettings existing settings)))
           (remote w),
         Ok tt)
    | None =>
        let k := db_settings_next d in
        (mkWorld
           (mkService
              (mkDatabase (table_put k (newSettings k settings) (db_settings d))
                 (k + 1) (db_activities d) (db_activityDetails d)
                 (db_athlete d))
              (Some (newSettings k settings)))
           (remote w),
         Ok tt)
    end.

(** One request to the token endpoint. *)
Definition fetchToken (request : TokenRequest)
    : Async (World Remote) (option TokenResponse) :=
  fun w =>
    let (r, response) := postToken (remote w) request in
    (setRemote r w, Ok response).

Definition exchangeCodeForToken (code clientId clientSecret : string)
    : Async (World Remote) unit :=
  response <- fetchToken (AuthorizationCodeGrant clientId clientSecret code) ;;
  match response with
  | None => throw "Failed to exchange code for token"
  | Some data =>
      saveSettings
        {| p_clientId := Some clientId;
           p_clientSecret := Some clientSecret;
           p_accessToken := Some (access_token data);
           p_refreshToken := Some (refresh_token data);
           p_expiresAt := Some (expires_at data * 1000);
           p_scope := Some (granted_scope data) |}
  end.

Definition string_of (s : option string) : string :=
  match s with
  | Some x => x
  | None => "undefined"
  end.

Definition refreshAccessToken : Async (World Remote) unit :=
  settings <- getSettings ;;
  match settings with
  | Some s =>
      if negb (truthy_string (refreshToken s))
         || negb (truthy_string (clientId s))
         || negb (truthy_string (clientSecret s))
      then throw "Missing refresh token or client credentials"
      else
        response <- fetchToken
                      (RefreshTokenGrant (string_of (clientId s))
                         (string_of (clientSecret s))
                         (string_of (refreshToken s))) ;;
        match response with
        | None => throw "Failed to refresh token"
        | Some data =>
            saveSettings
              {| p_clientId := None;
                 p_clientSecret := None;
                 p_accessToken := Some (access_token data);
                 p_refreshToken := Some (refresh_token data);
                 p_expiresAt := Some (expires_at data * 1000);
                 p_scope := None |}
        end
  | None => throw "Missing refresh token or client credentials"
  end.

(** [settings.expiresAt && settings.expiresAt < Date.now() + 5 * 60 * 1000] *)
Definition tokenExpired (s : StravaSettings) (w : World Remote) : bool :=
  match expiresAt s with
  | Some e => negb (e =? 0) && (e <? now (remote w) + 5 * 60 * 1000)
  | None => false
  end.

(** The token returned is [None] where the code would return
    [undefined]. *)
Definition ensureValidToken : Async (World Remote) (option string) :=
  settings <- getSettings ;;
  match settings with
  | Some s =>
      if negb (truthy_string (accessToken s))
      then throw "No access token available"
      else
        fun w =>
          if tokenExpired s w
          then (refreshAccessToken ;;;
                updatedSettings <- getSettings ;;
                match updatedSettings with
                | Some u => resolve (accessToken u)
                | None => throw "TypeError"
                end) w
          else resolve (accessToken s) w
  | None => throw "No access token available"
  end.

(** [makeAuthenticatedRequest], for a request given by its endpoint. *)
Definition makeAuthenticatedRequest {A : Type}
    (request : Remote -> string -> Remote * option A)
    : Async (World Remote) (option A) :=
  token <- ensureValidToken ;;
  fun w =>
    let (r, response) := request (remote w) (string_of token) in
    (setRemote r w, Ok response).

Definition isAuthenticated : Async (World Remote) bool :=
  settings <- getSettings ;;
  resolve (match settings with
           | Some s => truthy_string (accessToken s)
           | None => false
           end).

Definition clearCache : Async (World Remote) unit :=
  fun w =>
    let d := the_db w in
    (setDb (mkDatabase (db_settings d) (db_settings_next d) [] []
              (db_athlete d)) w,
     Ok tt).

(** [activityId] is [None] when the argument is left out. *)
Definition clearActivityDetailCache (activityId : option Z)
    : Async (World Remote) unit :=
  fun w =>
    let d := the_db w in
    let details :=
      if truthy_number activityId
      then match activityId with
           | Some k => table_delete k (db_activityDetails d)
           | None => []
           end
      else [] in
    (setDb (mkDatabase (db_settings d) (db_settings_next d)
              (db_activities d) details (db_athlete d)) w,
     Ok tt).

Definition logout : Async (World Remote) unit :=
  (fun w =>
     let d := the_db w in
     (setDb (mkDatabase [] (db_settings_next d) (db_activities d)
               (db_activityDetails d) (db_athlete d)) w,
      Ok tt)) ;;;
  clearCache ;;;
  fun w => (setService (mkService (the_db w) None) w, Ok tt).


(** The [for ... of] loop of [getActivities]:
    [await db.activities.put(activity)]. *)
Definition putActivities (activities : list StravaActivity)
    (t : Table StravaActivity) : Table StravaActivity :=
  fold_left (fun t activity => table_put (act_id activity) activity t)
            activities t.

Definition getActivities (page perPage : Z)
    : Async (World Remote) (list StravaActivity) :=
  response <- makeAuthenticatedRequest
                (fun r token => getPage r token page perPage) ;;
  match response with
  | None => throw "Failed to fetch activities"
  | Some activities =>
      fun w =>
        let d := the_db w in
        (setDb (mkDatabase (db_settings d) (db_settings_next d)
                  (putActivities activities (db_activities d))
                  (db_activityDetails d) (db_athlete d)) w,
         Ok activities)
  end.

Definition getActivityStreams (activityId : Z) : Async (World Remote) StreamData :=
  response <- makeAuthenticatedRequest
                (fun r token => getStreams r token activityId) ;;
  match response with
  | None => throw "Failed to fetch activity streams"
  | Some streamsData => resolve (unpackStreams streamsData)
  end.

(** [await db.activityDetails.put(activityDetail)] *)
Definition putDetail (activityDetail : ActivityDetail) : Async (World Remote) unit :=
  fun w =>
    let d := the_db w in
    (setDb (mkDatabase (db_settings d) (db_settings_next d)
              (db_activities d)
              (table_put (id activityDetail) activityDetail
                 (db_activityDetails d))
              (db_athlete d)) w,
     Ok tt).

(** The cached detail that satisfies a request: one with streams. *)
Definition completeDetail (activityId : Z) (w : World Remote)
    : option ActivityDetail :=
  match table_get activityId (db_activityDetails (the_db w)) with
  | Some cachedDetail =>
      match streams cachedDetail with
      | Some _ => Some cachedDetail
      | None => None
      end
  | None => None
  end.

Definition getActivityDetail (activityId : Z) : Async (World Remote) ActivityDetail :=
  fun w =>
    match completeDetail activityId w with
    | Some cachedDetail => (w, Ok cachedDetail)
    | None =>
        (response <- makeAuthenticatedRequest
                       (fun r token => getDetail r token activityId) ;;
         match response with
         | None => throw "Failed to fetch activity detail"
         | Some activityDetail =>
             withStreams <-
               try_catch
                 (streams <- getActivityStreams activityId ;;
                  resolve (mkActivityDetail (id activityDetail)
                             (start_date_local activityDetail)
                             (Some streams)))
                 (fun _ => resolve activityDetail) ;;
             putDetail withStreams ;;;
             resolve withStreams
         end) w
    end.

(** [getAthlete]; the [catch] turns every failure into [null]. *)
Definition getAthlete : Async (World Remote) (option AthleteRow) :=
  try_catch
    (fun w =>
       match table_first (db_athlete (the_db w)) with
       | Some cachedAthlete => (w, Ok (Some cachedAthlete))
       | None =>
           (response <- makeAuthenticatedRequest getProfile ;;
            match response with
            | Some athleteData =>
                fun w' =>
                  let d := the_db w' in
                  (setDb (mkDatabase (db_settings d) (db_settings_next d)
                            (db_activities d) (db_activityDetails d)
                            [(athlete_id athleteData, athleteData)]) w',
                   Ok (Some athleteData))
            | None => resolve None
            end) w
       end)
    (fun _ => resolve None).

(** [birthYear] is [None] for [NaN], which is stored like a missing
    year: the analytics only test the field for truthiness. *)
Definition updateAthleteBirthYear (birthYear : option Z) : Async (World Remote) unit :=
  athlete <- getAthlete ;;
  match athlete with
  | Some a =>
      fun w =>
        let d := the_db w in
        (setDb (mkDatabase (db_settings d) (db_settings_next d)
                  (db_activities d) (db_activityDetails d)
                  (table_update (athlete_id a)
                     (fun row =>
                        mkAthleteRow (athlete_id row)
                          (mkStravaAthlete birthYear))
                     (db_athlete d))) w,
         Ok tt)
  | None => resolve tt
  end.

(** [loadActivityDetail] of the detail page, up to its [setState]
    calls: an optional forced refresh, then the request. *)
Definition loadActivityDetail (activityId : Z) (forceRefresh : bool)
    : Async (World Remote) ActivityDetail :=
  (if forceRefresh then clearActivityDetailCache (Some activityId)
   else resolve tt) ;;;
  getActivityDetail activityId.

End Remote.

(** The service calls as the components use them: the world after the
    call and the value, [None] for a rejected promise. *)
Definition settled {W A : Type} (c : Async W A) (w : W) : W * option A :=
  match c w with
  | (w', Ok a) => (w', Some a)
  | (w', Err _) => (w', None)
  end.

(** ** Notions used to state the properties of the service *)

(** The settings [getSettings] answers with: the copy in memory, or
    else the first stored row. *)
Definition currentSettings {Remote : Type} (w : World Remote)
    : option StravaSettings :=
  match svc_settings (service w) with
  | Some s => Some s
  | None => table_first (db_settings (the_db w))
  end.

Definition details {Remote : Type} (w : World Remote) : Table ActivityDetail :=
  db_activityDetails (the_db w).

(** Every stored settings row carries its key as [id], and the copy in
    memory, when there is one, is the first stored row. *)
Definition settings_keyed (rows : Table StravaSettings) : Prop :=
  Forall (fun row => settings_id (snd row) = Some (fst row)) rows.

Definition coherent (svc : Service) : Prop :=
  settings_keyed (db_settings (svc_db svc))
  /\ forall s, svc_settings svc = Some s ->
               table_first (db_settings (svc_db svc)) = Some s.

(** A usable token: present and not the empty string. *)
Definition usable (token : option string) : Prop :=
  exists t, token = Some t /\ t <> EmptyString.

(** The changes a token response makes to the settings. *)
Definition refreshed (s : StravaSettings) (data : TokenResponse)
    : StravaSettings :=
  mkStravaSettings (settings_id s) (clientId s) (clientSecret s)
    (Some (access_token data)) (Some (refresh_token data))
    (Some (expires_at data * 1000)) (scope s).

(** A call keeps an invariant of the world, whether it resolves or
    rejects. *)
Definition preserves {W A : Type} (I : W -> Prop) (c : Async W A) : Prop :=
  forall w, I w -> I (fst (c w)).

(** The three tables that hold Strava data. *)
Definition dataTables {Remote : Type} (w : World Remote)
    : Table StravaActivity * Table ActivityDetail * Table AthleteRow :=
  (db_activities (the_db w), db_activityDetails (the_db w),
   db_athlete (the_db w)).

(** Every cached detail is stored under its own id. *)
Definition details_keyed (t : Table ActivityDetail) : Prop :=
  forall k d, table_get k t = Some d -> id d = k.

(** [stravaService.getActivityDetail] as the components await it. *)
Definition awaitActivityDetail {Remote : Type} {api : Api Remote}
    (w : World Remote) (activityId : Z)
    : World Remote * option ActivityDetail :=
  settled (getActivityDetail activityId) w.

(** The server answers a detail request with the activity asked for. *)
Definition answers_by_id {Remote : Type} (api : Api Remote) : Prop :=
  forall r token activityId r' body,
    getDetail r token activityId = (r', Some body) -> id body = activityId.

(** Every athlete row is stored under its own id. *)
Definition athlete_keyed (t : Table AthleteRow) : Prop :=
  Forall (fun row => athlete_id (snd row) = fst row) t.

(** ** Export and import ([exportData], [importData]) *)

(** The exported document, after [JSON.parse]: a field is [None] when
    it is missing (for a table, also when it is not an array).  The
    JSON text in between is not modelled: a document is taken to be
    read back as it was written. *)
Record Document : Type := mkDocument {
  doc_version : option Z;
  doc_timestamp : option string;
  doc_settings : option (list StravaSettings);
  doc_activities : option (list StravaActivity);
  doc_activityDetails : option (list ActivityDetail);
  doc_athlete : option (list AthleteRow)
}.

(** [timestamp] is [new Date().toISOString()]. *)
Definition exportData (timestamp : string) (d : Database) : Document :=
  {| doc_version := Some 4;
     doc_timestamp := Some timestamp;
     doc_settings := Some (table_toArray (db_settings d));
     doc_activities := Some (table_toArray (db_activities d));
     doc_activityDetails := Some (table_toArray (db_activityDetails d));
     doc_athlete := Some (table_toArray (db_athlete d)) |}.

(** [clear] does not reset the key generator of a table. *)
Definition clearAllData (d : Database) : Database :=
  mkDatabase [] (db_settings_next d) [] [] [].

(** [bulkAdd] on the [++id] table: a row without an id takes the next
    generated key, and a row with an id moves the generator past
    it. *)
Fixpoint settings_bulkAdd (rows : list StravaSettings)
    (t : Table StravaSettings) (next : Z)
    : option (Table StravaSettings * Z) :=
  match rows with
  | [] => Some (t, next)
  | r :: rest =>
      match settings_id r with
      | Some k =>
          match table_add k r t with
          | Some t' => settings_bulkAdd rest t' (Z.max next (k + 1))
          | None => None
          end
      | None =>
          match table_add next
                  (mkStravaSettings (Some next) (clientId r) (clientSecret r)
                     (accessToken r) (refreshToken r) (expiresAt r) (scope r))
                  t with
          | Some t' => settings_bulkAdd rest t' (next + 1)
          | None => None
          end
      end
  end.

Definition rows_of {R : Type} (rows : option (list R)) : list R :=
  match rows with
  | Some l => l
  | None => []
  end.

(** The import transaction on the cleared database: [None] when a
    [bulkAdd] fails, which aborts the transaction. *)
Definition importTransaction (data : Document) (d : Database)
    : option Database :=
  match settings_bulkAdd (rows_of (doc_settings data))
          (db_settings d) (db_settings_next d) with
  | Some (settings, next) =>
      match table_bulkAdd act_id (rows_of (doc_activities data))
              (db_activities d) with
      | Some activities =>
          match table_bulkAdd id (rows_of (doc_activityDetails data))
                  (db_activityDetails d) with
          | Some activityDetails =>
              match table_bulkAdd athlete_id (rows_of (doc_athlete data))
                      (db_athlete d) with
              | Some athlete =>
                  Some (mkDatabase settings next activities activityDetails
                          athlete)
              | None => None
              end
          | None => None
          end
      | None => None
      end
  | None => None
  end.

(** [data] is [None] when [JSON.parse] throws. *)
Definition importData (data : option Document) (d : Database)
    : Database * result unit :=
  match data with
  | None => (d, Err "SyntaxError")
  | Some doc =>
      if negb (truthy_number (doc_version doc))
         || negb (truthy_string (doc_timestamp doc))
      then (d, Err "Invalid data format - missing version or timestamp")
      else
        let cleared := clearAllData d in
        match importTransaction doc cleared with
        | Some imported => (imported, Ok tt)
        | None => (cleared, Err "BulkError")
        end
  end.

Definition exportAllData {Remote : Type} (timestamp : string)
    : Async (World Remote) Document :=
  fun w => (w, Ok (exportData timestamp (the_db w))).

Definition importAllData {Remote : Type} (data : option Document)
    : Async (World Remote) unit :=
  await
    (fun w : World Remote =>
       let (d, outcome) := importData data (the_db w) in
       (setDb d w, outcome))
    (fun _ w => (setService (mkService (the_db w) None) w, Ok tt)).

(** The stored rows carry their keys as ids, in key order. *)
Definition activities_keyed (t : Table StravaActivity) : Prop :=
  Forall (fun row => act_id (snd row) = fst row) t.

Definition details_rows_keyed (t : Table ActivityDetail) : Prop :=
  Forall (fun row => id (snd row) = fst row) t.

Definition wellFormed (d : Database) : Prop :=
  (table_sorted (db_settings d) /\ settings_keyed (db_settings d))
  /\ (table_sorted (db_activities d) /\ activities_keyed (db_activities d))
  /\ (table_sorted (db_activityDetails d)
      /\ details_rows_keyed (db_activityDetails d))
  /\ (table_sorted (db_athlete d) /\ athlete_keyed (db_athlete d)).

(** The key of a settings row that has an id. *)
Definition settings_key (r : StravaSettings) : Z :=
  match settings_id r with
  | Some k => k
  | None => 0
  end.

Definition has_id (r : StravaSettings) : Prop := settings_id r <> None.

(** The ids of each table of a document are distinct. *)
Definition distinct_ids (doc : Document) : Prop :=
  NoDup (map settings_key (rows_of (doc_settings doc)))
  /\ NoDup (map act_id (rows_of (doc_activities doc)))
  /\ NoDup (map id (rows_of (doc_activityDetails doc)))
  /\ NoDup (map athlete_id (rows_of (doc_athlete doc))).

(** A document that passes the check of [importData]. *)
Definition accepted (doc : Document) : Prop :=
  truthy_number (doc_version doc) = true
  /\ truthy_string (doc_timestamp doc) = true.

(** ** A sample remote side and sample stores *)

(** The remote state is the clock, in milliseconds; every request
    takes one millisecond.  The token endpoint accepts every request;
    the detail of activity 3 cannot be fetched; the streams of
    activity 4 cannot be fetched. *)
Definition sample_api : Api Z :=
  {| now := fun r => r;
     postToken := fun r _ =>
       (r + 1, Some (mkTokenResponse "access-2" "refresh-2" 7200 "read"));
     getDetail := fun r _ activityId =>
       (r + 1,
        if activityId =? 3 then None
        else Some (mkActivityDetail activityId
                     (mkLocalDate 2025 7 activityId) None));
     getStreams := fun r _ activityId =>
       (r + 1,
        if activityId =? 4 then None
        else Some [("time"%string, Some [0; 30; 60]);
                   ("heartrate"%string, Some [100; 160; 100])]);
     getPage := fun r _ page perPage =>
       (r + 1,
        Some (if page =? 1
              then [mkStravaActivity 2 (mkLocalDate 2025 7 2);
                    mkStravaActivity 1 (mkLocalDate 2025 7 1)]
              else []));
     getProfile := fun r _ =>
       (r + 1, Some (mkAthleteRow 77 (mkStravaAthlete None))) |}.

(** Settings with a token that expires at millisecond [expiry]. *)
Definition sample_settings (expiry : option Z) : StravaSettings :=
  mkStravaSettings (Some 1) (Some "client"%string) (Some "secret"%string)
    (Some "access-1"%string) (Some "refresh-1"%string) expiry
    (Some "read"%string).

Definition sample_db (expiry : option Z) : Database :=
  mkDatabase [(1, sample_settings expiry)] 2
    [(1, mkStravaActivity 1 (mkLocalDate 2025 7 1));
     (2, mkStravaActivity 2 (mkLocalDate 2025 7 2))]
    [(1, mkActivityDetail 1 (mkLocalDate 2025 7 1)
           (Some (mkStreamData (Some [0; 30; 60]) (Some [100; 160; 100]))))]
    [(77, mkAthleteRow 77 (mkStravaAthlete (Some 1990)))].

(** A world at millisecond 1000 whose token expires at [expiry]. *)
Definition sample_world (expiry : option Z) : World Z :=
  mkWorld (mkService (sample_db expiry) None) 1000.

(** A world without settings and without an athlete. *)
Definition empty_world : World Z :=
  mkWorld (mkService (mkDatabase [] 1 [] [] []) None) 1000.

(** * The detail page: chart data ([getHeartRateData]) *)

(** [for (let i = start; i < n; i += interval) data.push(body(i))].
    The loop is run on fuel; [None] means the fuel ran out. *)
Fixpoint forStep {A : Type} (fuel : nat) (n interval i : Z) (body : Z -> A)
    (data : list A) : option (list A) :=
  if i <? n then
    match fuel with
    | O => None
    | S fuel' =>
        forStep fuel' n interval (i + interval) body (data ++ [body i])
    end
  else Some data.

Record HeartRatePoint : Type := mkHeartRatePoint {
  (** minutes *)
  point_time : jsnum;
  (** [None] where [heartrateData[i]] is [undefined] *)
  point_heartrate : option Z
}.

(** The point pushed for index [i]. *)
Definition heartRatePoint (timeData heartrateData : list Z) (i : Z)
    : HeartRatePoint :=
  {| point_time := div (of_Z (nth (Z.to_nat i) timeData 0)) (of_Z 60);
     point_heartrate := nth_error heartrateData (Z.to_nat i) |}.

(** [Math.max(1, Math.floor(length / 100))] *)
Definition sampleInterval (length : Z) : Z := Z.max 1 (length / 100).

Definition getHeartRateData (activity : option ActivityDetail)
    : option (list HeartRatePoint) :=
  match activity with
  | Some a =>
      match streams a with
      | Some s =>
          match time s, heartrate s with
          | Some timeData, Some heartrateData =>
              let n := Z.of_nat (List.length timeData) in
              forStep (List.length timeData) n (sampleInterval n) 0
                (heartRatePoint timeData heartrateData) []
          | _, _ => Some []
          end
      | None => Some []
      end
  | None => Some []
  end.

(** The number of rounds of the loop from [i]. *)
Definition rounds (n interval i : Z) : nat :=
  if i <? n then Z.to_nat ((n - i + interval - 1) / interval) else 0%nat.

(** * The activity list: paging ([loadActivities], [loadMoreActivities]) *)

(** The component state that the two handlers read and write. *)
Record ListState : Type := mkListState {
  ls_activities : list StravaActivity;
  ls_currentPage : Z;
  ls_hasMoreData : bool;
  ls_loadingMore : bool;
  ls_error : option string
}.

Definition setActivities
    (f : list StravaActivity -> list StravaActivity) (st : ListState)
    : ListState :=
  mkListState (f (ls_activities st)) (ls_currentPage st)
    (ls_hasMoreData st) (ls_loadingMore st) (ls_error st).

Definition setCurrentPage (f : Z -> Z) (st : ListState) : ListState :=
  mkListState (ls_activities st) (f (ls_currentPage st))
    (ls_hasMoreData st) (ls_loadingMore st) (ls_error st).

Definition setHasMoreData (b : bool) (st : ListState) : ListState :=
  mkListState (ls_activities st) (ls_currentPage st) b
    (ls_loadingMore st) (ls_error st).

Definition setLoadingMore (b : bool) (st : ListState) : ListState :=
  mkListState (ls_activities st) (ls_currentPage st)
    (ls_hasMoreData st) b (ls_error st).

Definition setError (e : option string) (st : ListState) : ListState :=
  mkListState (ls_activities st) (ls_currentPage st)
    (ls_hasMoreData st) (ls_loadingMore st) e.

Section Paging.

Context {Remote : Type} {api : Api Remote}.

(** [getCachedActivities] reads the activities ordered by the text of
    their start date, which the records here do not carry. *)
Variable getCachedActivities : Async (World Remote) (list StravaActivity).

(** A handler runs on the state of the render it was created in
    ([st]); its [setState] calls are applied in order, the functional
    ones to the latest state. *)
Definition loadActivities (reset : bool) (st : ListState) (w : World Remote)
    : World Remote * ListState :=
  let currentPage := ls_currentPage st in
  let st := setError None st in
  let fetchFresh (st : ListState) (w : World Remote) :=
    let pageToLoad := if reset then 1 else currentPage in
    match getActivities pageToLoad 30 w with
    | (w, Ok freshActivities) =>
        let st :=
          if reset then setActivities (fun _ => freshActivities) st
          else setActivities (fun prev => prev ++ freshActivities) st in
        (w,
         if Z.of_nat (List.length freshActivities) <? 30
         then setHasMoreData false st
         else setCurrentPage (fun prev => prev + 1) st)
    | (w, Err message) => (w, setError (Some message) st)
    end in
  if reset then
    let st := setHasMoreData true (setCurrentPage (fun _ => 1) st) in
    match getCachedActivities w with
    | (w, Ok cachedActivities) =>
        fetchFresh (setActivities (fun _ => cachedActivities) st) w
    | (w, Err message) => (w, setError (Some message) st)
    end
  else fetchFresh st w.

Definition loadMoreActivities (st : ListState) (w : World Remote)
    : World Remote * ListState :=
  if ls_loadingMore st || negb (ls_hasMoreData st) then (w, st)
  else
    let (w, st) := loadActivities false (setLoadingMore true st) w in
    (w, setLoadingMore false st).

(** [n] clicks on "load more", each on the state the one before left. *)
Fixpoint clicks (n : nat) (st : ListState) (w : World Remote)
    : World Remote * ListState :=
  match n with
  | O => (w, st)
  | S n' =>
      let (w, st) := loadMoreActivities st w in
      clicks n' st w
  end.

End Paging.

(** No page is skipped: the pages before the current one are shown in
    full. *)
Definition pagesShown (st : ListState) : Prop :=
  1 <= ls_currentPage st
  /\ 30 * (ls_currentPage st - 1) <= Z.of_nat (List.length (ls_activities st)).

(** * Further sample stores *)

(** A token endpoint that turns every request down, and no profile. *)
Definition refusing_api : Api Z :=
  {| now := fun r => r;
     postToken := fun r _ => (r + 1, None);
     getDetail := fun r _ _ => (r + 1, None);
     getStreams := fun r _ _ => (r + 1, None);
     getPage := fun r _ _ _ => (r + 1, None);
     getProfile := fun r _ => (r + 1, None) |}.

(** Settings without a refresh token, the token expiring at 1200. *)
Definition stale_world : World Z :=
  mkWorld
    (mkService
       (mkDatabase
          [(1, mkStravaSettings (Some 1) (Some "client"%string)
                 (Some "secret"%string) (Some "access-1"%string) None
                 (Some 1200) (Some "read"%string))]
          2 [] [] [])
       None)
    1000.

(** The cached activities, by key and not by date. *)
Definition sample_getCachedActivities : Async (World Z) (list StravaActivity) :=
  fun w => (w, Ok (map snd (db_activities (the_db w)))).

Definition sample_list : ListState := mkListState [] 7 false false None.

(** An export whose two detail rows share the id 1. *)
Definition clashing_document : Document :=
  exportData "2025-07-01"
    (mkDatabase [] 1 []
       [(1, mkActivityDetail 1 (mkLocalDate 2025 7 1) None);
        (2, mkActivityDetail 1 (mkLocalDate 2025 7 1) None)]
       []).

(** What the sample server sends for an activity, and what the service
    makes of it once the streams are in. *)
Definition bare_detail (activityId : Z) : ActivityDetail :=
  mkActivityDetail activityId (mkLocalDate 2025 7 activityId) None.

Definition fetched_detail (activityId : Z) : ActivityDetail :=
  mkActivityDetail activityId (mkLocalDate 2025 7 activityId)
    (Some (mkStreamData (Some [0; 30; 60]) (Some [100; 160; 100]))).

Definition sample_athlete : AthleteRow :=
  mkAthleteRow 77 (mkStravaAthlete (Some 1990)).

(** A document whose version is 0. *)
Definition unversioned_document : Document :=
  mkDocument (Some 0) (Some "2025-07-01"%string) None None None None.

Definition sample_envelope : StreamsEnvelope :=
  [("time"%string, Some [0; 30; 60]);
   ("heartrate"%string, Some [100; 160; 100])].

(** * Properties *)

(** ** Binary64: the size of results *)

Lemma digits_bounds (p : positive) :
  2 ^ (Zdigits2 (Zpos p) - 1) <= Zpos p < 2 ^ (Zdigits2 (Zpos p)).
Proof.
  cbn [Zdigits2].
  induction p as [p IH|p IH|]; cbn [digits2_pos].
  - rewrite Pos2Z.inj_succ.
    replace (Z.succ (Z.pos (digits2_pos p)) - 1)
      with (Z.succ (Z.pos (digits2_pos p) - 1)) by lia.
    rewrite !Z.pow_succ_r by lia. lia.
  - rewrite Pos2Z.inj_succ.
    replace (Z.succ (Z.pos (digits2_pos p)) - 1)
      with (Z.succ (Z.pos (digits2_pos p) - 1)) by lia.
    rewrite !Z.pow_succ_r by lia. lia.
  - cbn. lia.
Qed.

Lemma digits_le (m k : Z) : 0 <= k -> 0 <= m < 2 ^ k -> Zdigits2 m <= k.
Proof.
  intros Hk [H0 Hm]. destruct m as [|p|p]; [cbn; lia| |lia].
  pose proof (digits_bounds p) as [Hlo _].
  destruct (Z.le_gt_cases (Zdigits2 (Z.pos p)) k) as [|Hgt]; [assumption|].
  exfalso.
  assert (2 ^ k <= 2 ^ (Zdigits2 (Z.pos p) - 1))
    by (apply Z.pow_le_mono_r; lia).
  lia.
Qed.

Lemma digits_pos (p : positive) : 1 <= Zdigits2 (Zpos p).
Proof. cbn. lia. Qed.






Lemma fexp64_eq (e : Z) : fexp64 e = Z.max (e - 53) (-1074).
Proof. reflexivity. Qed.


(** A mantissa of 53 digits with its own exponent is kept as it is. *)
Lemma binary_round_aux_exact (s : bool) (m : positive) (e : Z) :
  fexp64 (Zdigits2 (Zpos m) + e) = e -> e <= 971 ->
  binary_round_aux prec emax s (Zpos m) e loc_Exact = S754_finite s m e.
Proof.
  intros Hcanon He. unfold binary_round_aux, shr_fexp. fold fexp64.
  rewrite Hcanon, Z.sub_diag.
  cbn [shr shr_record_of_loc shr_m loc_of_shr_record round_nearest_even].
  rewrite Hcanon, Z.sub_diag. cbn [shr shr_record_of_loc shr_m].
  change (emax - prec) with 971.
  destruct (Z.leb_spec e 971); [reflexivity|lia].
Qed.

Lemma digits_iter_xO (p k : positive) :
  digits2_pos (Pos.iter xO p k) = (digits2_pos p + k)%positive.
Proof.
  induction k as [|k IH] using Pos.peano_ind.
  - cbn. lia.
  - rewrite Pos.iter_succ. cbn [digits2_pos]. rewrite IH. lia.
Qed.

Lemma iter_xO_value (p k : positive) :
  Zpos (Pos.iter xO p k) = Zpos p * 2 ^ Zpos k.
Proof.
  induction k as [|k IH] using Pos.peano_ind.
  - cbn [Pos.iter]. change (2 ^ 1) with 2. lia.
  - rewrite Pos.iter_succ, Pos2Z.inj_xO, IH, Pos2Z.inj_succ.
    rewrite Z.pow_succ_r by lia. lia.
Qed.

(** An integer below 2^53 is a number: its digits, shifted to the left
    until there are 53 of them. *)
Lemma of_Z_pos (s : bool) (p : positive) :
  Zpos p < 2 ^ 53 ->
  exists m e,
    binary_round prec emax s p 0 = S754_finite s m e
    /\ Zdigits2 (Zpos m) = 53 /\ - 52 <= e <= 0
    /\ Zpos m = Zpos p * 2 ^ (- e).
Proof.
  intros Hp. unfold binary_round.
  pose proof (digits_bounds p) as Hd. pose proof (digits_pos p) as Hd1.
  assert (Hd53 : Zdigits2 (Zpos p) <= 53) by (apply digits_le; lia).
  cbn [Zdigits2] in Hd, Hd1, Hd53.
  set (d := Z.pos (digits2_pos p)) in *.
  fold fexp64. rewrite fexp64_eq.
  replace (Z.max (d + 0 - 53) (-1074)) with (d - 53) by lia.
  unfold shl_align.
  destruct (d - 53 - 0) as [|k|k] eqn:Hk; try lia.
  - exists p, 0.
    split; [|split; [cbn [Zdigits2]; fold d; lia|split; [lia|cbn; lia]]].
    apply binary_round_aux_exact; [|lia].
    rewrite fexp64_eq. cbn [Zdigits2]. fold d. lia.
  - exists (Pos.iter xO p k), (d - 53).
    assert (Hdig : Zdigits2 (Zpos (Pos.iter xO p k)) = 53).
    { cbn [Zdigits2]. rewrite digits_iter_xO, Pos2Z.inj_add. fold d. lia. }
    split; [|split; [exact Hdig|split; [lia|]]].
    + apply binary_round_aux_exact; [|lia].
      rewrite Hdig, fexp64_eq. lia.
    + rewrite iter_xO_value. f_equal. f_equal. lia.
Qed.

Lemma of_Z_small (z : Z) :
  Z.abs z < 2 ^ 53 -> z <> 0 ->
  exists m e,
    of_Z z = S754_finite (z <? 0) m e
    /\ Zdigits2 (Zpos m) = 53 /\ - 52 <= e <= 0
    /\ Zpos m = Z.abs z * 2 ^ (- e).
Proof.
  intros Hz Hnz. unfold of_Z, binary_normalize.
  destruct z as [|p|p]; [contradiction| |]; apply of_Z_pos; lia.
Qed.









(** [Math.round] leaves an integer below 2^53 as it is. *)
Lemma Math_round_of_Z (z : Z) :
  Z.abs z < 2 ^ 53 -> Math_round (of_Z z) = of_Z z.
Proof.
  intros Hz. destruct (Z.eq_dec z 0) as [->|Hnz]; [reflexivity|].
  destruct (of_Z_small z Hz Hnz) as [m [e [H [Hd [He Hm]]]]].
  rewrite H. unfold Math_round.
  destruct (Z.leb_spec 0 e) as [He0|He0]; [reflexivity|].
  assert (Hr : round_half_up (z <? 0) m e = z).
  { unfold round_half_up.
    assert (Hp : 0 < 2 ^ (- e)) by (apply Z.pow_pos_nonneg; lia).
    replace (2 * (if z <? 0 then Z.neg m else Z.pos m) + 2 ^ (- e))
      with (z * (2 * 2 ^ (- e)) + 2 ^ (- e)).
    - rewrite Z.div_add_l by lia. rewrite Z.div_small by lia. lia.
    - destruct (Z.ltb_spec z 0).
      + change (Z.neg m) with (- Z.pos m). rewrite Hm. lia.
      + rewrite Hm. lia. }
  rewrite Hr. destruct (Z.eqb_spec z 0); [contradiction|].
  exact H.
Qed.

(** An integer below 2^53 is above 0 as a number when it is as an
    integer. *)
Lemma gtb_of_Z_0 (z : Z) :
  Z.abs z < 2 ^ 53 -> gtb (of_Z z) (of_Z 0) = (0 <? z).
Proof.
  intros Hz. destruct (Z.eq_dec z 0) as [->|Hnz]; [reflexivity|].
  destruct (of_Z_small z Hz Hnz) as [m [e [H _]]].
  rewrite H. unfold gtb, SFltb, SFcompare. cbn [of_Z binary_normalize].
  destruct (Z.ltb_spec z 0); destruct (Z.ltb_spec 0 z);
    try reflexivity; lia.
Qed.

Lemma jsnum_eqb_eq (x y : jsnum) : jsnum_eqb x y = true -> x = y.
Proof.
  destruct x as [s|s| |s m e]; destruct y as [s'|s'| |s' m' e']; cbn;
    try discriminate; try reflexivity.
  - intros H. apply Bool.eqb_prop in H. congruence.
  - intros H. apply Bool.eqb_prop in H. congruence.
  - intros H. apply andb_true_iff in H. destruct H as [H He].
    apply andb_true_iff in H. destruct H as [Hs Hm].
    apply Bool.eqb_prop in Hs. apply Pos.eqb_eq in Hm. apply Z.eqb_eq in He.
    congruence.
Qed.

Lemma all_from_spec (p : Z -> bool) (n : nat) : forall lo,
  all_from p lo n = true ->
  forall t, lo <= t < lo + Z.of_nat n -> p t = true.
Proof.
  induction n as [|n IH]; intros lo Hall t Ht; [lia|].
  cbn [all_from] in Hall. apply andb_true_iff in Hall.
  destruct Hall as [Hlo Hrest].
  destruct (Z.eq_dec t lo) as [->|Hne]; [exact Hlo|].
  apply (IH (lo + 1) Hrest). lia.
Qed.

(** ** Zone thresholds *)

Lemma thresholds_0_220 : all_from thresholds_ok 0 221 = true.
Proof. vm_compute. reflexivity. Qed.

Lemma thresholds_in_range (maxHR : Z) :
  0 <= maxHR <= 220 -> thresholds_ok maxHR = true.
Proof.
  intros H. apply (all_from_spec thresholds_ok 221 0 thresholds_0_220).
  lia.
Qed.

(** C4, as amended.  For every maximum heart rate from 0 to 220 the
    five zones are contiguous from a lower bound of 0; the upper
    bounds of zones 1 to 4 are the binary64 products of [maxHR] by
    0.6, 0.7, 0.8 and 0.9 under [Math.round], which are integers
    nearest to the exact products: the exact product rounded half up,
    except for the bound of zone 2 at 45, 85, 165 and 175, where the
    exact product is a tie and the code gives the integer below; the
    upper bound of zone 5 is [maxHR]; the bounds are non-decreasing.
    For a birth year of 1990 in 2025 the maximum heart rate is 185 and
    the upper bounds are 111, 130, 148, 167 and 185; for a maximum
    heart rate of 175 they are 105, 122, 140, 158 and 175. *)
Theorem zone_thresholds (maxHR : Z) (Hrange : 0 <= maxHR <= 220) :
  let zones := getHeartRateZones maxHR in
  (min (zone1 zones) = 0
   /\ min (zone2 zones) = max (zone1 zones)
   /\ min (zone3 zones) = max (zone2 zones)
   /\ min (zone4 zones) = max (zone3 zones)
   /\ min (zone5 zones) = max (zone4 zones))
  /\ upper_bounds zones
     = [threshold 6 maxHR; threshold 7 maxHR; threshold 8 maxHR;
        threshold 9 maxHR; maxHR]
  /\ (forall k, In k [6; 7; 8; 9] ->
        -5 <= 10 * threshold k maxHR - k * maxHR <= 5
        /\ (threshold k maxHR = (2 * k * maxHR + 10) / 20
            \/ (k = 7 /\ In maxHR [45; 85; 165; 175]
                /\ threshold k maxHR = (2 * k * maxHR + 10) / 20 - 1)))
  /\ (0 <= max (zone1 zones)
      /\ max (zone1 zones) <= max (zone2 zones)
      /\ max (zone2 zones) <= max (zone3 zones)
      /\ max (zone3 zones) <= max (zone4 zones)
      /\ max (zone4 zones) <= max (zone5 zones))
  /\ (calculateMaxHeartRate 2025 1990 = 185
      /\ upper_bounds (getHeartRateZones 185) = [111; 130; 148; 167; 185]
      /\ upper_bounds (getHeartRateZones 175) = [105; 122; 140; 158; 175]).
Proof.
  cbn zeta.
  pose proof (thresholds_in_range maxHR Hrange) as Hok.
  unfold thresholds_ok in Hok.
  repeat (apply andb_true_iff in Hok; destruct Hok as [Hok ?]).
  cbn [forallb] in Hok.
  repeat (apply andb_true_iff in Hok; destruct Hok as [? Hok]).
  match goal with
  | Hn : forallb _ _ = true |- _ =>
      cbn [forallb] in Hn;
      repeat (apply andb_true_iff in Hn; destruct Hn as [? Hn])
  end.
  repeat match goal with
         | Hb : (_ && _) = true |- _ =>
             apply andb_true_iff in Hb; destruct Hb
         end.
  repeat match goal with
         | Hb : (_ =? _) = true |- _ => apply Z.eqb_eq in Hb
         | Hb : (_ <=? _) = true |- _ => apply Z.leb_le in Hb
         end.
  assert (Hbounds : upper_bounds (getHeartRateZones maxHR)
                    = [threshold 6 maxHR; threshold 7 maxHR;
                       threshold 8 maxHR; threshold 9 maxHR; maxHR]).
  { unfold upper_bounds, getHeartRateZones.
    cbn [map all_zones zone_of zone1 zone2 zone3 zone4 zone5 max].
    congruence. }
  split; [repeat split; reflexivity|].
  split; [exact Hbounds|].
  split.
  { intros k Hk. split.
    - cbn [In] in Hk.
      destruct Hk as [<-|[<-|[<-|[<-|[]]]]]; lia.
    - unfold threshold, round_tenths.
      destruct (tie_below k maxHR) eqn:Htie; [right|left; reflexivity].
      unfold tie_below in Htie. apply andb_true_iff in Htie.
      destruct Htie as [Hk7 Hm]. apply Z.eqb_eq in Hk7.
      split; [exact Hk7|]. split; [|reflexivity].
      apply existsb_exists in Hm. destruct Hm as [x [Hx Hmx]].
      apply Z.eqb_eq in Hmx. subst x. exact Hx. }
  split.
  { cbn [getHeartRateZones zone1 zone2 zone3 zone4 zone5 max]. lia. }
  split; [reflexivity|]. split; vm_compute; reflexivity.
Qed.

Lemma zone_thresholds_witness :
  0 <= 185 <= 220
  /\ upper_bounds (getHeartRateZones 185) = [111; 130; 148; 167; 185].
Proof.
  assert (H : 0 <= 185 <= 220) by lia.
  split; [exact H|].
  exact (proj1 (proj2 (zone_thresholds 185 H))).
Defined.

(** C4 as stated fails: for [maxHR = 185] the upper bound of zone 2 is
    130, not [0.7 * 185 = 129.5]; for [maxHR = 175] it is 122, where
    the exact product 122.5 rounds half up to 123; for a negative
    [maxHR] the bounds decrease; and for [maxHR = 886614353205743] the
    upper bound of zone 3 is 709291482564595, which is not an integer
    nearest to the exact product 709291482564594.4. *)
Lemma zone_thresholds_not_exact :
  ~ (inject_Z (max (zone2 (getHeartRateZones 185))) == 0.7 * inject_Z 185)%Q
  /\ (max (zone2 (getHeartRateZones 175)) = 122
      /\ round_Q (0.7 * inject_Z 175) = 123)
  /\ max (zone2 (getHeartRateZones (-10)))
     < max (zone1 (getHeartRateZones (-10)))
  /\ (max (zone3 (getHeartRateZones 886614353205743)) = 709291482564595
      /\ ~ -5 <= 10 * 709291482564595 - 8 * 886614353205743 <= 5).
Proof.
  split; [vm_compute; discriminate|].
  split; [split; vm_compute; reflexivity|].
  split; [vm_compute; reflexivity|].
  split; [vm_compute; reflexivity|lia].
Qed.

(** ** Sample classification and the loop bodies *)

Lemma distributionBody_seconds zones timeData d hr index z :
  zone_time (distributionBody zones timeData d hr index) z
  = zone_time d z + secondsIn zones timeData z hr index.
Proof.
  unfold distributionBody, secondsIn, classify.
  destruct (counted hr); cbn [andb]; [|lia].
  destruct (hr <=? max (zone1 zones));
    [|destruct (hr <=? max (zone2 zones));
      [|destruct (hr <=? max (zone3 zones));
        [|destruct (hr <=? max (zone4 zones))]]];
    destruct z; cbn; lia.
Qed.

Lemma effortBody_points zones timeData e hr index :
  effortBody zones timeData e hr index
  = mkEffortTotals (totalEffortPoints e + pointsOf zones timeData hr index)
                   (totalTimeInZones e + secondsOf timeData hr index).
Proof.
  unfold effortBody, pointsOf, secondsOf, classify.
  destruct e as [p t]; cbn [totalEffortPoints totalTimeInZones].
  destruct (counted hr); [|f_equal; lia].
  destruct (hr <=? max (zone1 zones));
    [|destruct (hr <=? max (zone2 zones));
      [|destruct (hr <=? max (zone3 zones));
        [|destruct (hr <=? max (zone4 zones))]]];
    reflexivity.
Qed.

Lemma forEach_distribution zones timeData l : forall index d z,
  zone_time (forEach_from (distributionBody zones timeData) l index d) z
  = zone_time d z + sum_from (secondsIn zones timeData z) l index.
Proof.
  induction l as [|hr rest IH]; intros index d z; cbn [forEach_from sum_from].
  - lia.
  - rewrite IH, distributionBody_seconds. lia.
Qed.

Lemma forEach_effort zones timeData l : forall index e,
  forEach_from (effortBody zones timeData) l index e
  = mkEffortTotals
      (totalEffortPoints e + sum_from (pointsOf zones timeData) l index)
      (totalTimeInZones e + sum_from (secondsOf timeData) l index).
Proof.
  induction l as [|hr rest IH]; intros index e; cbn [forEach_from sum_from].
  - destruct e; cbn; f_equal; lia.
  - rewrite IH, effortBody_points. cbn. f_equal; lia.
Qed.

Lemma classify_lowest zones h :
  (exists z, h <= max (zone_of zones z)) ->
  h <= max (zone_of zones (classify zones h))
  /\ forall z', (zone_index z' < zone_index (classify zones h))%nat ->
                max (zone_of zones z') < h.
Proof.
  intros [z Hz]. unfold classify.
  destruct (Z.leb_spec h (max (zone1 zones))) as [H1|H1].
  { split; [exact H1|]. intros z'; destruct z'; cbn; lia. }
  destruct (Z.leb_spec h (max (zone2 zones))) as [H2|H2].
  { split; [exact H2|]. intros z'; destruct z'; cbn; lia. }
  destruct (Z.leb_spec h (max (zone3 zones))) as [H3|H3].
  { split; [exact H3|]. intros z'; destruct z'; cbn; lia. }
  destruct (Z.leb_spec h (max (zone4 zones))) as [H4|H4].
  { split; [exact H4|]. intros z'; destruct z'; cbn; lia. }
  split.
  - destruct z; cbn in Hz |- *; lia.
  - intros z'; destruct z'; cbn; lia.
Qed.

Lemma classify_above zones h :
  (forall z, max (zone_of zones z) < h) -> classify zones h = Z5.
Proof.
  intros H. unfold classify.
  pose proof (H Z1) as H1. pose proof (H Z2) as H2.
  pose proof (H Z3) as H3. pose proof (H Z4) as H4.
  cbn in H1, H2, H3, H4.
  repeat match goal with
         | |- context [?a <=? ?b] =>
             destruct (Z.leb_spec a b); [lia|]
         end.
  reflexivity.
Qed.

(** C6, as amended.  A sample [h <= 0] changes no counter of either
    loop.  A sample [h > 0] is charged to exactly one zone,
    [classify zones h]: that is the lowest zone whose upper bound is
    [>= h] when there is one, and zone 5 when [h] is above every upper
    bound (so above [maxHR]). *)
Theorem classification (zones : Zones) (h : Z) :
  (h <= 0 -> forall timeData d e index,
     distributionBody zones timeData d h index = d
     /\ effortBody zones timeData e h index = e)
  /\ (0 < h -> forall timeData d e index,
        (forall z,
           zone_time (distributionBody zones timeData d h index) z
           = zone_time d z
             + (if ZoneId_eqb (classify zones h) z
                then timeIncrement timeData index else 0))
        /\ effortBody zones timeData e h index
           = mkEffortTotals
               (totalEffortPoints e
                + timeIncrement timeData index
                  * zoneMultipliers (classify zones h))
               (totalTimeInZones e + timeIncrement timeData index))
  /\ ((exists z, h <= max (zone_of zones z)) ->
      h <= max (zone_of zones (classify zones h))
      /\ forall z', (zone_index z' < zone_index (classify zones h))%nat ->
                    max (zone_of zones z') < h)
  /\ ((forall z, max (zone_of zones z) < h) -> classify zones h = Z5).
Proof.
  split; [|split; [|split]].
  - intros Hle timeData d e index.
    unfold distributionBody, effortBody, counted.
    destruct (Z.ltb_spec 0 h); [lia|]. split; reflexivity.
  - intros Hpos timeData d e index. split.
    + intros z. rewrite distributionBody_seconds. unfold secondsIn, counted.
      destruct (Z.ltb_spec 0 h); [|lia]. reflexivity.
    + rewrite effortBody_points. unfold pointsOf, secondsOf, counted.
      destruct (Z.ltb_spec 0 h); [|lia]. reflexivity.
  - apply classify_lowest.
  - apply classify_above.
Qed.

Lemma classification_witness :
  (exists z, 160 <= max (zone_of (getHeartRateZones 185) z))
  /\ 160 <= max (zone_of (getHeartRateZones 185)
                   (classify (getHeartRateZones 185) 160)).
Proof.
  assert (H : exists z, 160 <= max (zone_of (getHeartRateZones 185) z)).
  { exists Z5. vm_compute. discriminate. }
  split; [exact H|].
  exact (proj1 (proj1 (proj2 (proj2
           (classification (getHeartRateZones 185) 160))) H)).
Defined.

(** C6 as stated fails: with [maxHR = 185] a sample of 200 bpm is
    counted and charged to zone 5, whose upper bound 185 is not
    [>= 200]. *)
Lemma classification_above_maxHR :
  counted 200 = true
  /\ classify (getHeartRateZones 185) 200 = Z5
  /\ ~ 200 <= max (zone_of (getHeartRateZones 185)
                     (classify (getHeartRateZones 185) 200)).
Proof.
  split; [reflexivity|]. split; [vm_compute; reflexivity|].
  vm_compute. intros H. apply H. reflexivity.
Qed.

(** ** The charges of the two loops *)

Lemma timeIncrement_charge timeData index :
  timeIncrement timeData index = charge timeData index.
Proof.
  unfold timeIncrement, charge.
  destruct (Z.ltb_spec (Z.of_nat index)
              (Z.of_nat (List.length timeData) - 1)) as [H|H].
  - destruct (nth_error timeData index) as [t|] eqn:H1;
      [|apply nth_error_None in H1; lia].
    destruct (nth_error timeData (index + 1)) as [t'|] eqn:H2;
      [|apply nth_error_None in H2; lia].
    rewrite (nth_error_nth _ _ 0 H1), (nth_error_nth _ _ 0 H2).
    reflexivity.
  - assert (H2 : nth_error timeData (index + 1) = None)
      by (apply nth_error_None; lia).
    rewrite H2. destruct (nth_error timeData index); reflexivity.
Qed.

Lemma charge_inside timeData i t t' :
  nth_error timeData i = Some t -> nth_error timeData (i + 1) = Some t' ->
  charge timeData i = t' - t.
Proof. intros H1 H2. unfold charge. rewrite H1, H2. reflexivity. Qed.

Lemma charge_fallback timeData i :
  (List.length timeData <= i + 1)%nat -> charge timeData i = 1.
Proof.
  intros H. unfold charge.
  assert (H2 : nth_error timeData (i + 1) = None)
    by (apply nth_error_None; lia).
  rewrite H2. destruct (nth_error timeData i); reflexivity.
Qed.

Lemma charges_from_cons zones timeData i h l :
  charges_from zones timeData i (h :: l)
  = if 0 <? h
    then (classify zones h, charge timeData i)
         :: charges_from zones timeData (S i) l
    else charges_from zones timeData (S i) l.
Proof.
  unfold charges_from, indexed_from.
  cbn [List.length seq combine filter]. unfold positive_sample at 1.
  cbn [snd]. destruct (0 <? h); reflexivity.
Qed.

Lemma sum_from_zone zones timeData z l : forall i,
  sum_from (secondsIn zones timeData z) l i
  = Zsum (map snd (filter (fun c => ZoneId_eqb (fst c) z)
                          (charges_from zones timeData i l))).
Proof.
  induction l as [|h rest IH]; intros i; [reflexivity|].
  cbn [sum_from]. rewrite charges_from_cons, IH, Nat.add_1_r.
  unfold secondsIn, counted. rewrite timeIncrement_charge.
  destruct (0 <? h); cbn [andb]; [|reflexivity].
  cbn [filter fst]. destruct (ZoneId_eqb (classify zones h) z);
    reflexivity.
Qed.

Lemma sum_from_seconds zones timeData l : forall i,
  sum_from (secondsOf timeData) l i
  = Zsum (map snd (charges_from zones timeData i l)).
Proof.
  induction l as [|h rest IH]; intros i; [reflexivity|].
  cbn [sum_from]. rewrite charges_from_cons, IH, Nat.add_1_r.
  unfold secondsOf, counted. rewrite timeIncrement_charge.
  destruct (0 <? h); reflexivity.
Qed.

Lemma zoneMultipliers_weight z : zoneMultipliers z = weight z.
Proof. destruct z; reflexivity. Qed.

Lemma sum_from_points zones timeData l : forall i,
  sum_from (pointsOf zones timeData) l i
  = Zsum (map (fun c => snd c * weight (fst c))
              (charges_from zones timeData i l)).
Proof.
  induction l as [|h rest IH]; intros i; [reflexivity|].
  cbn [sum_from]. rewrite charges_from_cons, IH, Nat.add_1_r.
  unfold pointsOf, counted.
  rewrite timeIncrement_charge, zoneMultipliers_weight.
  destruct (0 <? h); reflexivity.
Qed.

(** What the first loop leaves in the counter of a zone, and the
    second in its two accumulators. *)
Lemma distribution_loop zones timeData heartRateData z :
  zone_time (forEach (distributionBody zones timeData) heartRateData
                     zoneDistribution0) z
  = zoneSeconds zones timeData heartRateData z.
Proof.
  unfold forEach, zoneSeconds, charges.
  rewrite forEach_distribution, sum_from_zone. destruct z; reflexivity.
Qed.

Lemma effort_loop zones timeData heartRateData :
  forEach (effortBody zones timeData) heartRateData effortTotals0
  = mkEffortTotals (effortPoints zones timeData heartRateData)
                   (classifiedSeconds zones timeData heartRateData).
Proof.
  unfold forEach, effortPoints, classifiedSeconds, charges.
  rewrite forEach_effort, sum_from_points, (sum_from_seconds zones).
  reflexivity.
Qed.

Lemma hd_error_rev {A : Type} (l : list A) :
  nth_error l (List.length l - 1) = hd_error (rev l).
Proof.
  destruct l as [|x l'] using rev_ind; [reflexivity|].
  rewrite rev_app_distr, length_app. cbn [rev List.length app hd_error].
  rewrite nth_error_app2 by lia.
  replace (List.length l' + 1 - 1 - List.length l')%nat with 0%nat by lia.
  reflexivity.
Qed.

Lemma lastTimeOr1_denominator timeData :
  lastTimeOr1 timeData = denominator timeData.
Proof.
  unfold lastTimeOr1, denominator. rewrite hd_error_rev.
  destruct (rev timeData); reflexivity.
Qed.


Lemma filter_map_swap {A B : Type} (p : B -> bool) (f : A -> B) (l : list A) :
  filter p (map f l) = map f (filter (fun x => p (f x)) l).
Proof.
  induction l as [|x rest IH]; cbn [map filter]; [reflexivity|].
  destruct (p (f x)); cbn [map]; rewrite IH; reflexivity.
Qed.

(** The output of [getHeartRateZoneDistribution] for an activity with
    a heart-rate stream and an athlete with a birth year. *)
Lemma distribution_of_streams currentYear a s athlete heartRateData
    birthYear :
  streams a = Some s -> heartrate s = Some heartRateData ->
  birth_year_of athlete = Some birthYear ->
  let zones := getHeartRateZones (calculateMaxHeartRate currentYear birthYear) in
  let timeData := match time s with Some t => t | None => [] end in
  getHeartRateZoneDistribution currentYear (Some a) athlete
  = map (fun z => entryOf zones (denominator timeData) z
                    (zoneSeconds zones timeData heartRateData z))
        (filter (fun z => shown (zoneSeconds zones timeData heartRateData z))
                all_zones).
Proof.
  intros Hs Hhr Hby zones timeData.
  unfold getHeartRateZoneDistribution, heartrate_of, time_of.
  rewrite Hs, Hhr, Hby. fold zones. fold timeData.
  rewrite filter_map_swap.
  rewrite (filter_ext _ (fun z => shown (zoneSeconds zones timeData
                                           heartRateData z))).
  - apply map_ext. intros z. unfold chartEntry, entryOf.
    rewrite distribution_loop, lastTimeOr1_denominator. reflexivity.
  - intros z. unfold chartEntry, shown. cbn [ZoneEntry.time].
    rewrite distribution_loop. reflexivity.
Qed.

(** The output of [calculateRelativeEffortPoints] for the same. *)
Lemma effort_of_streams currentYear a s athlete heartRateData birthYear :
  streams a = Some s -> heartrate s = Some heartRateData ->
  birth_year_of athlete = Some birthYear ->
  let zones := getHeartRateZones (calculateMaxHeartRate currentYear birthYear) in
  let timeData := match time s with Some t => t | None => [] end in
  calculateRelativeEffortPoints currentYear (Some a) athlete
  = Some (effortResult
            (mkEffortTotals (effortPoints zones timeData heartRateData)
               (classifiedSeconds zones timeData heartRateData))).
Proof.
  intros Hs Hhr Hby zones timeData.
  unfold calculateRelativeEffortPoints, heartrate_of, time_of.
  rewrite Hs, Hhr, Hby. fold zones. fold timeData.
  rewrite effort_loop. reflexivity.
Qed.

Lemma effortResult_fields points seconds :
  let r := effortResult (mkEffortTotals points seconds) in
  Effort.totalPoints r = Math_round (of_Z points)
  /\ Effort.timeInZones r = Math_round (div (of_Z seconds) (of_Z 60))
  /\ Effort.relativeScore r = scoreOf points seconds
  /\ Effort.intensityFactor r = intensityOf points seconds
  /\ map (Effort.zoneMultipliers r) all_zones = [1; 2; 3; 5; 8].
Proof. repeat split. Qed.

(** ** Time increments *)

(** C5, as amended.  For an activity with a heart-rate stream and a
    time stream, both functions charge every sample above 0 at index
    [i] with [time[i+1] - time[i]] where the time stream has a value
    at [i + 1], and with 1 second where it has none: the zone entries
    and the effort record are computed from the sums of these charges.
    The final heart-rate sample is charged 1 second when the time
    stream is not longer than the heart-rate stream.  For samples
    [100, 160, 100] at times [0, 30, 60] (birth year 1990, year 2025)
    the charges are 30, 30 and 1 second, in zones 1, 4 and 1, and the
    total is [30*1 + 30*5 + 1*1] effort points. *)
Theorem time_increments (currentYear : Z) (a : ActivityDetail)
    (s : StreamData) (athlete : option StravaAthlete)
    (heartRateData timeData : list Z) (birthYear : Z)
    (Hs : streams a = Some s)
    (Hhr : heartrate s = Some heartRateData)
    (Htime : time s = Some timeData)
    (Hby : birth_year_of athlete = Some birthYear) :
  let zones := getHeartRateZones (calculateMaxHeartRate currentYear birthYear) in
  let seconds := zoneSeconds zones timeData heartRateData in
  (getHeartRateZoneDistribution currentYear (Some a) athlete
   = map (fun z => entryOf zones (denominator timeData) z (seconds z))
         (filter (fun z => shown (seconds z)) all_zones))
  /\ (exists r,
        calculateRelativeEffortPoints currentYear (Some a) athlete = Some r
        /\ Effort.totalPoints r
           = Math_round (of_Z (effortPoints zones timeData heartRateData))
        /\ Effort.timeInZones r
           = Math_round
               (div (of_Z (classifiedSeconds zones timeData heartRateData))
                    (of_Z 60)))
  /\ (forall i t t',
        nth_error timeData i = Some t ->
        nth_error timeData (i + 1) = Some t' ->
        charge timeData i = t' - t)
  /\ (forall i, (List.length timeData <= i + 1)%nat -> charge timeData i = 1)
  /\ ((List.length timeData <= List.length heartRateData)%nat ->
      forall i, (i + 1 = List.length heartRateData)%nat ->
                charge timeData i = 1)
  /\ (charges (getHeartRateZones 185) [0; 30; 60] [100; 160; 100]
      = [(Z1, 30); (Z4, 30); (Z1, 1)]
      /\ option_map Effort.totalPoints
           (calculateRelativeEffortPoints 2025 run_100_160_100 born_1990)
         = Some (of_Z (30 * 1 + 30 * 5 + 1 * 1))
      /\ getHeartRateZoneDistribution 2025 run_100_160_100 born_1990
         = [ZoneEntry.mk "Recovery (Zone 1)" (of_Z 1) (of_Z 52) "#4FC3F7";
            ZoneEntry.mk "Lactate Threshold (Zone 4)" (of_Z 1) (of_Z 50)
              "#FF9800"]).
Proof.
  intros zones seconds.
  pose proof (distribution_of_streams currentYear a s athlete heartRateData
                birthYear Hs Hhr Hby) as Hd.
  pose proof (effort_of_streams currentYear a s athlete heartRateData
                birthYear Hs Hhr Hby) as He.
  cbn zeta in Hd, He. rewrite Htime in Hd, He.
  split; [exact Hd|].
  split.
  { eexists. split; [exact He|]. split; reflexivity. }
  split; [apply charge_inside|].
  split; [apply charge_fallback|].
  split.
  { intros Hlen i Hi. apply charge_fallback. lia. }
  split; [vm_compute; reflexivity|].
  split; vm_compute; reflexivity.
Qed.

Lemma time_increments_witness :
  streams (mkActivityDetail 4 (mkLocalDate 2025 7 4)
             (Some (mkStreamData (Some [0; 30; 60])
                      (Some [100; 160; 100]))))
  = Some (mkStreamData (Some [0; 30; 60]) (Some [100; 160; 100]))
  /\ birth_year_of born_1990 = Some 1990
  /\ charge [0; 30; 60] 0 = 30
  /\ charge [0; 30; 60] 2 = 1.
Proof.
  pose proof (time_increments 2025
                (mkActivityDetail 4 (mkLocalDate 2025 7 4)
                   (Some (mkStreamData (Some [0; 30; 60])
                            (Some [100; 160; 100]))))
                (mkStreamData (Some [0; 30; 60]) (Some [100; 160; 100]))
                born_1990 [100; 160; 100] [0; 30; 60] 1990
                eq_refl eq_refl eq_refl eq_refl) as H.
  cbn zeta in H.
  destruct H as [_ [_ [Hin [Hout _]]]].
  split; [reflexivity|]. split; [reflexivity|].
  split.
  - exact (Hin 0%nat 0 30 eq_refl eq_refl).
  - apply Hout. cbn. lia.
Defined.

(** C5 as stated fails.  With two heart-rate samples on a time stream
    of three values the final sample is charged the 30 seconds to the
    next time value, not 1 second. *)
Lemma final_sample_on_longer_clock :
  charges (getHeartRateZones 185) [0; 30; 60] [100; 100]
  = [(Z1, 30); (Z1, 30)]
  /\ option_map Effort.totalPoints
       (calculateRelativeEffortPoints 2025 run_long_clock born_1990)
     = Some (of_Z 60)
  /\ getHeartRateZoneDistribution 2025 run_long_clock born_1990
     = [ZoneEntry.mk "Recovery (Zone 1)" (of_Z 1) (of_Z 100) "#4FC3F7"].
Proof.
  split; [vm_compute; reflexivity|].
  split; vm_compute; reflexivity.
Qed.

(** ** Zone-time distribution *)

Lemma minutes_of_half_day :
  all_from minutes_ok 0 (Z.to_nat 43201) = true.
Proof. vm_compute. reflexivity. Qed.

Lemma minutes_rounded (t : Z) :
  0 <= t <= 43200 ->
  Math_round (div (of_Z t) (of_Z 60)) = of_Z ((t + 30) / 60).
Proof.
  intros H. apply jsnum_eqb_eq.
  apply (all_from_spec minutes_ok (Z.to_nat 43201) 0 minutes_of_half_day).
  rewrite Z2Nat.id; lia.
Qed.

Lemma shown_from_30 (t : Z) : 0 <= t <= 43200 -> shown t = (30 <=? t).
Proof.
  intros H. unfold shown. rewrite (minutes_rounded t H).
  assert (Hq : 0 <= (t + 30) / 60 <= 721).
  { split.
    - apply Z.div_pos; lia.
    - apply Z.div_le_upper_bound; lia. }
  rewrite gtb_of_Z_0 by (change (2 ^ 53) with 9007199254740992; lia).
  destruct (Z.ltb_spec 0 ((t + 30) / 60)); destruct (Z.leb_spec 30 t);
    try reflexivity; exfalso.
  - assert ((t + 30) / 60 = 0) by (apply Z.div_small; lia). lia.
  - assert (1 <= (t + 30) / 60) by (apply Z.div_le_lower_bound; lia). lia.
Qed.

(** C2, as amended.  With a heart-rate stream and a birth year, the
    output lists, in zone order, the zones whose rounded minutes
    [Math.round(zoneSeconds / 60)] are above 0; each entry carries
    these rounded minutes and the percentage
    [Math.round(zoneSeconds / D * 100)], both evaluated in binary64,
    where [D] is the last value of the time stream, or 1 when that
    stream is absent or empty or ends in 0.  For an accumulated time
    from 0 to 43200 seconds the rounded minutes are
    [floor((zoneSeconds + 30) / 60)], so that a zone has an entry
    exactly when it holds at least 30 seconds.  The percentage is that
    of binary64: 41 seconds over a last time value of 40 give 102. *)
Theorem zone_distribution_entries (currentYear : Z) (a : ActivityDetail)
    (s : StreamData) (athlete : option StravaAthlete)
    (heartRateData : list Z) (birthYear : Z)
    (Hs : streams a = Some s)
    (Hhr : heartrate s = Some heartRateData)
    (Hby : birth_year_of athlete = Some birthYear) :
  let zones := getHeartRateZones (calculateMaxHeartRate currentYear birthYear) in
  let timeData := match time s with Some t => t | None => [] end in
  let seconds := zoneSeconds zones timeData heartRateData in
  let D := denominator timeData in
  getHeartRateZoneDistribution currentYear (Some a) athlete
  = map (fun z =>
           ZoneEntry.mk (name (zone_of zones z))
             (Math_round (div (of_Z (seconds z)) (of_Z 60)))
             (Math_round (mul (div (of_Z (seconds z)) (of_Z D)) (of_Z 100)))
             (color (zone_of zones z)))
        (filter (fun z =>
                   gtb (Math_round (div (of_Z (seconds z)) (of_Z 60)))
                       (of_Z 0))
                all_zones)
  /\ (timeData = [] -> D = 1)
  /\ (forall front t, timeData = front ++ [t] ->
                      D = if t =? 0 then 1 else t)
  /\ (forall z, 0 <= seconds z <= 43200 ->
        Math_round (div (of_Z (seconds z)) (of_Z 60))
        = of_Z ((seconds z + 30) / 60)
        /\ gtb (Math_round (div (of_Z (seconds z)) (of_Z 60))) (of_Z 0)
           = (30 <=? seconds z))
  /\ Math_round (mul (div (of_Z 41) (of_Z 40)) (of_Z 100)) = of_Z 102.
Proof.
  intros zones timeData seconds D.
  split.
  { exact (distribution_of_streams currentYear a s athlete heartRateData
             birthYear Hs Hhr Hby). }
  split.
  { intros Hempty. unfold D. rewrite Hempty. reflexivity. }
  split.
  { intros front t Hlast. unfold D, denominator.
    rewrite Hlast, rev_app_distr. reflexivity. }
  split.
  { intros z Hz. split.
    - apply minutes_rounded, Hz.
    - apply (shown_from_30 (seconds z) Hz). }
  vm_compute. reflexivity.
Qed.

Lemma zone_distribution_entries_witness :
  streams (mkActivityDetail 1 (mkLocalDate 2025 7 1)
             (Some (mkStreamData (Some [0; 30; 60])
                      (Some [100; 100; 160]))))
  = Some (mkStreamData (Some [0; 30; 60]) (Some [100; 100; 160]))
  /\ birth_year_of born_1990 = Some 1990
  /\ getHeartRateZoneDistribution 2025 run_100_100_160 born_1990
     = [ZoneEntry.mk "Recovery (Zone 1)" (of_Z 1) (of_Z 100) "#4FC3F7"].
Proof.
  split; [reflexivity|]. split; [reflexivity|].
  unfold run_100_100_160.
  rewrite (proj1 (zone_distribution_entries 2025
                    (mkActivityDetail 1 (mkLocalDate 2025 7 1)
                       (Some (mkStreamData (Some [0; 30; 60])
                                (Some [100; 100; 160]))))
                    (mkStreamData (Some [0; 30; 60]) (Some [100; 100; 160]))
                    born_1990 [100; 100; 160] 1990
                    eq_refl eq_refl eq_refl)).
  vm_compute. reflexivity.
Defined.

(** C2 as stated fails.  For samples 100, 100 and 160 bpm at seconds 0,
    30 and 60 (birth year 1990, year 2025) zone 1 holds 60 of the 61
    classified seconds and zone 4 the remaining one.  The only entry is
    that of zone 1, with percentage 100 and not [round(60 / 61 * 100)]
    = 98; zone 4, whose time is not zero, has no entry. *)
Lemma zone_distribution_not_share_of_classified :
  let zones := getHeartRateZones (calculateMaxHeartRate 2025 1990) in
  let d := forEach (distributionBody zones [0; 30; 60]) [100; 100; 160]
                   zoneDistribution0 in
  zone_time d Z1 = 60
  /\ zone_time d Z4 = 1
  /\ totalTimeInZones
       (forEach (effortBody zones [0; 30; 60]) [100; 100; 160] effortTotals0)
     = 61
  /\ getHeartRateZoneDistribution 2025 run_100_100_160 born_1990
     = [ZoneEntry.mk "Recovery (Zone 1)" (of_Z 1) (of_Z 100) "#4FC3F7"]
  /\ Math_round (mul (div (of_Z 60) (of_Z 61)) (of_Z 100)) = of_Z 98.
Proof.
  vm_compute. repeat split; reflexivity.
Qed.

(** ** Relative effort *)

(** C7, as amended.  With a heart-rate stream and a birth year the
    function returns a record: the zone weights are 1, 2, 3, 5 and 8;
    [totalPoints] is the sum of the charges of the samples above 0,
    each times the weight of its zone (rounded, which changes nothing
    below 2^53); with classified seconds above 0 the relative score is
    [Math.round(points / seconds * 3600)] and the intensity factor
    [Math.round(points / seconds / 3 * 100) / 100], evaluated in
    binary64; otherwise both are 0.  The values are those of binary64:
    101 points in 96 seconds score 3787, and 147 points in 40 seconds
    have intensity 1.22. *)
Theorem relative_effort_scores (currentYear : Z) (a : ActivityDetail)
    (s : StreamData) (athlete : option StravaAthlete)
    (heartRateData : list Z) (birthYear : Z)
    (Hs : streams a = Some s)
    (Hhr : heartrate s = Some heartRateData)
    (Hby : birth_year_of athlete = Some birthYear) :
  let zones := getHeartRateZones (calculateMaxHeartRate currentYear birthYear) in
  let timeData := match time s with Some t => t | None => [] end in
  let points :=
    Zsum (map (fun c => snd c * weight (fst c))
              (charges zones timeData heartRateData)) in
  let seconds := Zsum (map snd (charges zones timeData heartRateData)) in
  map weight all_zones = [1; 2; 3; 5; 8]
  /\ (exists r,
        calculateRelativeEffortPoints currentYear (Some a) athlete = Some r
        /\ map (Effort.zoneMultipliers r) all_zones = [1; 2; 3; 5; 8]
        /\ Effort.totalPoints r = Math_round (of_Z points)
        /\ (Z.abs points < 2 ^ 53 -> Effort.totalPoints r = of_Z points)
        /\ Effort.timeInZones r = Math_round (div (of_Z seconds) (of_Z 60))
        /\ (0 < seconds ->
            Effort.relativeScore r
            = Math_round (mul (div (of_Z points) (of_Z seconds))
                              (of_Z 3600))
            /\ Effort.intensityFactor r
               = div (Math_round
                        (mul (div (div (of_Z points) (of_Z seconds))
                                  (of_Z 3))
                             (of_Z 100)))
                     (of_Z 100))
        /\ (seconds <= 0 ->
            Effort.relativeScore r = of_Z 0
            /\ Effort.intensityFactor r = of_Z 0))
  /\ (Math_round (mul (div (of_Z 101) (of_Z 96)) (of_Z 3600)) = of_Z 3787
      /\ div (Math_round
                (mul (div (div (of_Z 147) (of_Z 40)) (of_Z 3)) (of_Z 100)))
             (of_Z 100)
         = div (of_Z 122) (of_Z 100)).
Proof.
  intros zones timeData points seconds.
  split; [reflexivity|].
  split; [|split; vm_compute; reflexivity].
  pose proof (effort_of_streams currentYear a s athlete heartRateData
                birthYear Hs Hhr Hby) as He.
  cbn zeta in He. fold zones timeData in He.
  change (effortPoints zones timeData heartRateData) with points in He.
  change (classifiedSeconds zones timeData heartRateData) with seconds in He.
  eexists. split; [exact He|].
  destruct (effortResult_fields points seconds)
    as [Hp [Ht [Hscore [Hint Hw]]]].
  cbn zeta in Hp, Ht, Hscore, Hint, Hw.
  split; [exact Hw|]. split; [exact Hp|].
  split; [intros Hsmall; rewrite Hp; apply Math_round_of_Z, Hsmall|].
  split; [exact Ht|].
  rewrite Hscore, Hint. unfold scoreOf, intensityOf.
  split.
  - intros Hpos. destruct (Z.ltb_spec 0 seconds); [|lia].
    split; reflexivity.
  - intros Hle. destruct (Z.ltb_spec 0 seconds); [lia|].
    split; vm_compute; reflexivity.
Qed.

Lemma relative_effort_scores_witness :
  streams (mkActivityDetail 1 (mkLocalDate 2025 7 1)
             (Some (mkStreamData (Some [0; 30; 60])
                      (Some [100; 100; 160]))))
  = Some (mkStreamData (Some [0; 30; 60]) (Some [100; 100; 160]))
  /\ birth_year_of born_1990 = Some 1990
  /\ exists r,
       calculateRelativeEffortPoints 2025 run_100_100_160 born_1990 = Some r
       /\ Effort.totalPoints r = of_Z 65.
Proof.
  split; [reflexivity|]. split; [reflexivity|].
  destruct (relative_effort_scores 2025
              (mkActivityDetail 1 (mkLocalDate 2025 7 1)
                 (Some (mkStreamData (Some [0; 30; 60])
                          (Some [100; 100; 160]))))
              (mkStreamData (Some [0; 30; 60]) (Some [100; 100; 160]))
              born_1990 [100; 100; 160] 1990 eq_refl eq_refl eq_refl)
    as [_ [[r [Hr [_ [Hp _]]]] _]].
  exists r. split; [exact Hr|].
  rewrite Hp. vm_compute. reflexivity.
Defined.

(** C7 as stated fails.  For a heart-rate stream with no positive
    sample the classified seconds and the effort points are both 0:
    the code returns 0 for the relative score and for the intensity
    factor, where the stated quotients are 0 / 0. *)
Lemma relative_effort_without_positive_sample :
  forEach (effortBody
             (getHeartRateZones (calculateMaxHeartRate 2025 1990)) [0])
          [0] effortTotals0
  = mkEffortTotals 0 0
  /\ option_map Effort.relativeScore
       (calculateRelativeEffortPoints 2025 run_flat born_1990)
     = Some (of_Z 0)
  /\ option_map Effort.intensityFactor
       (calculateRelativeEffortPoints 2025 run_flat born_1990)
     = Some (of_Z 0)
  /\ Math_round (mul (div (of_Z 0) (of_Z 0)) (of_Z 3600)) = NaN
  /\ div (Math_round (mul (div (div (of_Z 0) (of_Z 0)) (of_Z 3)) (of_Z 100)))
         (of_Z 100) = NaN.
Proof.
  vm_compute. repeat split; reflexivity.
Qed.

Lemma heartrate_of_None activity :
  heartrate_of activity = None
  <-> forall a s hr,
        ~ (activity = Some a /\ streams a = Some s /\ heartrate s = Some hr).
Proof.
  unfold heartrate_of. split.
  - intros H a s hr [Ha [Hs Hh]]. subst activity.
    rewrite Hs in H. congruence.
  - intros H. destruct activity as [a|]; [|reflexivity].
    destruct (streams a) as [s|] eqn:Hs; [|reflexivity].
    destruct (heartrate s) as [hr|] eqn:Hh; [|reflexivity].
    exfalso. apply (H a s hr). auto.
Qed.

Lemma birth_year_of_None athlete :
  birth_year_of athlete = None
  <-> forall ath y, athlete = Some ath -> birth_year ath = Some y -> y = 0.
Proof.
  unfold birth_year_of. split.
  - intros H ath y Ha Hy. subst athlete. rewrite Hy in H.
    destruct (Z.eqb_spec y 0); [assumption|discriminate].
  - intros H. destruct athlete as [ath|]; [|reflexivity].
    destruct (birth_year ath) as [y|] eqn:Hy; [|reflexivity].
    rewrite (H ath y eq_refl Hy). reflexivity.
Qed.

(** C8.  [calculateRelativeEffortPoints] returns [null] exactly when
    the heart-rate stream or the birth year is absent, and an effort
    record otherwise, whatever the samples; it has no other outcome.
    The stream is absent when the activity, its streams or their
    [heartrate] entry is missing; the birth year is absent when the
    athlete or the field is missing or the field is 0, which the
    truthiness test does not tell from a missing one. *)
Theorem relative_effort_null (currentYear : Z)
    (activity : option ActivityDetail) (athlete : option StravaAthlete) :
  (calculateRelativeEffortPoints currentYear activity athlete = None
   <-> heartrate_of activity = None \/ birth_year_of athlete = None)
  /\ (heartrate_of activity = None
      <-> forall a s hr,
            ~ (activity = Some a /\ streams a = Some s
               /\ heartrate s = Some hr))
  /\ (birth_year_of athlete = None
      <-> forall ath y,
            athlete = Some ath -> birth_year ath = Some y -> y = 0)
  /\ (forall a s hr ath y,
        activity = Some a -> streams a = Some s -> heartrate s = Some hr ->
        athlete = Some ath -> birth_year ath = Some y -> y <> 0 ->
        exists r,
          calculateRelativeEffortPoints currentYear activity athlete
          = Some r).
Proof.
  split; [|split; [apply heartrate_of_None|split;
                   [apply birth_year_of_None|]]].
  - unfold calculateRelativeEffortPoints.
    destruct (heartrate_of activity) as [hr|];
      destruct (birth_year_of athlete) as [y|]; split; intros H;
      try reflexivity; try discriminate; auto.
    destruct H; discriminate.
  - intros a s hr ath y Ha Hs Hh Hath Hy Hnz.
    unfold calculateRelativeEffortPoints, heartrate_of, birth_year_of.
    subst activity athlete. rewrite Hs, Hh, Hy.
    destruct (Z.eqb_spec y 0); [contradiction|].
    eexists. reflexivity.
Qed.

Lemma relative_effort_null_witness :
  1990 <> 0
  /\ exists r,
       calculateRelativeEffortPoints 2025 run_100_100_160 born_1990 = Some r.
Proof.
  split; [discriminate|].
  refine (proj2 (proj2 (proj2
            (relative_effort_null 2025 run_100_100_160 born_1990)))
            _ _ _ _ 1990 eq_refl eq_refl eq_refl eq_refl eq_refl _).
  discriminate.
Defined.

(** ** Missing or short time stream *)












(** ** Sorting by date *)

Lemma sort_insert_perm {A : Type} (compare : A -> A -> Z) (x : A) (l : list A) :
  Permutation (x :: l) (sort_insert compare x l).
Proof.
  induction l as [|y rest IH]; cbn [sort_insert]; [apply Permutation_refl|].
  destruct (compare x y <=? 0); [apply Permutation_refl|].
  eapply perm_trans; [apply perm_swap|]. apply perm_skip, IH.
Qed.

Lemma sort_perm {A : Type} (compare : A -> A -> Z) (l : list A) :
  Permutation l (sort compare l).
Proof.
  induction l as [|x rest IH]; cbn [sort]; [apply perm_nil|].
  eapply perm_trans; [apply perm_skip, IH|]. apply sort_insert_perm.
Qed.

Lemma sort_Forall {A : Type} (P : A -> Prop) (compare : A -> A -> Z)
    (l : list A) :
  Forall P l -> Forall P (sort compare l).
Proof.
  intros H. apply Forall_forall. intros x Hx.
  rewrite Forall_forall in H. apply H.
  apply (Permutation_in x (Permutation_sym (sort_perm compare l))), Hx.
Qed.

Lemma findIndex_from_spec {A : Type} (p : A -> bool) (l : list A) :
  forall i,
    (findIndex_from p l i = -1 /\ forallb (fun x => negb (p x)) l = true)
    \/ (exists k x,
          findIndex_from p l i = i + Z.of_nat k
          /\ nth_error l k = Some x /\ p x = true
          /\ forallb (fun y => negb (p y)) (firstn k l) = true).
Proof.
  induction l as [|x rest IH]; intros i; cbn [findIndex_from forallb].
  - left. split; reflexivity.
  - destruct (p x) eqn:Hpx.
    + right. exists 0%nat, x. cbn. repeat split; try assumption. lia.
    + destruct (IH (i + 1)) as [[Hr Hall]|[k [y [Hr [Hn [Hp Hall]]]]]].
      * left. split; [exact Hr|]. cbn. exact Hall.
      * right. exists (S k), y. cbn [nth_error firstn forallb].
        rewrite Hpx. cbn. repeat split; try assumption. lia.
Qed.

Lemma findIndex_found {A : Type} (p : A -> bool) (l : list A) :
  (exists x, In x l /\ p x = true) ->
  exists k x,
    findIndex p l = Z.of_nat k /\ nth_error l k = Some x /\ p x = true
    /\ forallb (fun y => negb (p y)) (firstn k l) = true.
Proof.
  intros [x0 [Hin Hp0]]. unfold findIndex.
  destruct (findIndex_from_spec p l 0) as [[_ Hall]|[k [x [Hr H]]]].
  - rewrite forallb_forall in Hall. specialize (Hall x0 Hin).
    rewrite Hp0 in Hall. discriminate.
  - exists k, x. split; [rewrite Hr; lia|exact H].
Qed.

Lemma findIndex_from_shift {A : Type} (p : A -> bool) (l : list A) :
  (exists x, In x l /\ p x = true) ->
  forall i, findIndex_from p l (i + 1) = findIndex_from p l i + 1.
Proof.
  induction l as [|y rest IH]; intros [x [Hin Hp]] i.
  - destruct Hin.
  - cbn [findIndex_from]. destruct (p y) eqn:Hy; [reflexivity|].
    apply IH. exists x. split; [|exact Hp].
    destruct Hin as [->|Hin]; [congruence|exact Hin].
Qed.

Section SortByDate.

Variable localeTime : LocalDate -> option Z.

Lemma byDate_valid a b :
  valid_date localeTime a -> valid_date localeTime b ->
  byDate localeTime a b = keyOf localeTime a - keyOf localeTime b.
Proof.
  unfold valid_date, byDate, keyOf, timeOf. intros Ha Hb.
  destruct (localeTime (ComparisonEntry.date a)); [|contradiction].
  destruct (localeTime (ComparisonEntry.date b)); [|contradiction].
  reflexivity.
Qed.

Lemma sort_insert_byDate_sorted x l :
  valid_date localeTime x -> Forall (valid_date localeTime) l ->
  Sorted (key_le localeTime) l ->
  Sorted (key_le localeTime) (sort_insert (byDate localeTime) x l).
Proof.
  intros Hx. induction l as [|y rest IH]; intros Hv Hs; cbn [sort_insert].
  - repeat constructor.
  - inversion Hv as [|? ? Hy Hrest]; subst.
    pose proof (byDate_valid x y Hx Hy) as Hxy. rewrite Hxy.
    destruct (Z.leb_spec (keyOf localeTime x - keyOf localeTime y) 0)
      as [Hle|Hgt].
    + constructor; [exact Hs|]. constructor. unfold key_le. lia.
    + inversion Hs as [|? ? Hsrest Hhd]; subst.
      constructor; [apply IH; assumption|].
      destruct rest as [|z rest']; cbn [sort_insert].
      * constructor. unfold key_le. lia.
      * destruct (byDate localeTime x z <=? 0).
        -- constructor. unfold key_le. lia.
        -- inversion Hhd; subst. constructor. assumption.
Qed.

Lemma sort_byDate_sorted l :
  Forall (valid_date localeTime) l ->
  Sorted (key_le localeTime) (sort (byDate localeTime) l).
Proof.
  induction l as [|x rest IH]; intros Hv; cbn [sort]; [constructor|].
  inversion Hv; subst.
  apply sort_insert_byDate_sorted;
    [assumption|apply sort_Forall; assumption|apply IH; assumption].
Qed.

(** The sort is stable: the entries of one time value keep their
    order. *)
Lemma sort_insert_byDate_stable k x l :
  valid_date localeTime x -> Forall (valid_date localeTime) l ->
  filter (same_key localeTime k) (sort_insert (byDate localeTime) x l)
  = filter (same_key localeTime k) (x :: l).
Proof.
  intros Hx. induction l as [|y rest IH]; intros Hv; cbn [sort_insert];
    [reflexivity|].
  inversion Hv as [|? ? Hy Hrest]; subst.
  rewrite (byDate_valid x y Hx Hy).
  destruct (Z.leb_spec (keyOf localeTime x - keyOf localeTime y) 0)
    as [Hle|Hgt]; [reflexivity|].
  specialize (IH Hrest). cbn [filter] in IH |- *. rewrite IH.
  unfold same_key.
  destruct (Z.eqb_spec (keyOf localeTime x) k);
    destruct (Z.eqb_spec (keyOf localeTime y) k);
    try reflexivity; lia.
Qed.

Lemma sort_byDate_stable k l :
  Forall (valid_date localeTime) l ->
  filter (same_key localeTime k) (sort (byDate localeTime) l)
  = filter (same_key localeTime k) l.
Proof.
  induction l as [|x rest IH]; intros Hv; cbn [sort]; [reflexivity|].
  inversion Hv; subst.
  rewrite sort_insert_byDate_stable by (try apply sort_Forall; assumption).
  cbn [filter]. rewrite IH by assumption. reflexivity.
Qed.

Lemma sorted_head_least y rest x :
  Sorted (key_le localeTime) (y :: rest) -> In x (y :: rest) ->
  keyOf localeTime y <= keyOf localeTime x.
Proof.
  intros Hs Hin.
  assert (Hall : Forall (key_le localeTime y) rest).
  { apply Sorted_extends; [|exact Hs].
    intros u v t Huv Hvt. unfold key_le in *. lia. }
  destruct Hin as [->|Hin]; [lia|].
  rewrite Forall_forall in Hall. apply (Hall x Hin).
Qed.

(** Where a candidate goes in a sorted list that holds the subject:
    before it when the candidate is not read as later, after it
    otherwise. *)
Lemma sort_insert_index c l ks :
  valid_date localeTime c -> ComparisonEntry.isCurrentActivity c = false ->
  Forall (valid_date localeTime) l -> Sorted (key_le localeTime) l ->
  (forall x, In x l -> ComparisonEntry.isCurrentActivity x = true ->
             keyOf localeTime x = ks) ->
  (exists x, In x l /\ ComparisonEntry.isCurrentActivity x = true) ->
  forall i,
    findIndex_from ComparisonEntry.isCurrentActivity
      (sort_insert (byDate localeTime) c l) i
    = findIndex_from ComparisonEntry.isCurrentActivity l i
      + (if keyOf localeTime c <=? ks then 1 else 0).
Proof.
  intros Hc Hcand. induction l as [|y rest IH]; intros Hv Hs Hkey Hex i.
  - destruct Hex as [x [[] _]].
  - inversion Hv as [|? ? Hy Hrest]; subst. cbn [sort_insert].
    rewrite (byDate_valid c y Hc Hy).
    destruct (Z.leb_spec (keyOf localeTime c - keyOf localeTime y) 0)
      as [Hle|Hgt].
    + cbn [findIndex_from]. rewrite Hcand.
      change (findIndex_from ComparisonEntry.isCurrentActivity (y :: rest)
                (i + 1)
              = findIndex_from ComparisonEntry.isCurrentActivity (y :: rest) i
                + (if keyOf localeTime c <=? ks then 1 else 0)).
      rewrite (findIndex_from_shift _ _ Hex).
      destruct Hex as [x [Hin Hx]].
      pose proof (sorted_head_least y rest x Hs Hin) as Hyx.
      rewrite (Hkey x Hin Hx) in Hyx.
      destruct (Z.leb_spec (keyOf localeTime c) ks); [reflexivity|lia].
    + cbn [findIndex_from].
      destruct (ComparisonEntry.isCurrentActivity y) eqn:Hcur.
      * rewrite <- (Hkey y (or_introl eq_refl) Hcur).
        destruct (Z.leb_spec (keyOf localeTime c) (keyOf localeTime y));
          lia.
      * inversion Hs as [|? ? Hsrest Hhd]; subst.
        apply IH; [exact Hrest|exact Hsrest| |].
        -- intros x Hin. apply Hkey. right. exact Hin.
        -- destruct Hex as [x [Hin Hx]]. exists x. split; [|exact Hx].
           destruct Hin as [->|Hin]; [congruence|exact Hin].
Qed.

(** The index of the subject after the sort: the number of candidates
    that are not read as later than it. *)
Lemma sort_index l s :
  Forall (valid_date localeTime) (l ++ [s]) ->
  Forall is_candidate l ->
  ComparisonEntry.isCurrentActivity s = true ->
  findIndex ComparisonEntry.isCurrentActivity
    (sort (byDate localeTime) (l ++ [s]))
  = Z.of_nat (List.length (filter (not_later localeTime s) l)).
Proof.
  intros Hv Hcand Hs. unfold findIndex.
  induction l as [|c rest IH].
  - cbn [app sort sort_insert findIndex_from filter List.length].
    rewrite Hs. reflexivity.
  - cbn [app] in Hv. inversion Hv as [|? ? Hc Hvrest]; subst.
    inversion Hcand as [|? ? Hcc Hcrest]; subst.
    cbn [app sort].
    rewrite (sort_insert_index c _ (keyOf localeTime s)).
    + rewrite (IH Hvrest Hcrest). cbn [filter]. unfold not_later at 2.
      destruct (keyOf localeTime c <=? keyOf localeTime s);
        cbn [List.length]; lia.
    + exact Hc.
    + exact Hcc.
    + apply sort_Forall, Hvrest.
    + apply sort_byDate_sorted, Hvrest.
    + intros x Hin Hx.
      apply (Permutation_in x (Permutation_sym (sort_perm _ _))) in Hin.
      apply in_app_or in Hin. destruct Hin as [Hin|[<-|[]]]; [|reflexivity].
      rewrite Forall_forall in Hcrest. specialize (Hcrest x Hin).
      unfold is_candidate in Hcrest. congruence.
    + exists s. split; [|exact Hs].
      apply (Permutation_in s (sort_perm _ _)).
      apply in_or_app. right. left. reflexivity.
Qed.

Lemma reads_back_valid e : reads_back localeTime -> valid_date localeTime e.
Proof.
  intros Hrb. unfold valid_date, timeOf.
  destruct (Hrb (ComparisonEntry.date e)) as [t [Ht _]].
  rewrite Ht. discriminate.
Qed.

Lemma reads_back_key a b :
  reads_back localeTime ->
  (keyOf localeTime a <= keyOf localeTime b <-> date_le a b).
Proof.
  intros Hrb. unfold keyOf, timeOf, date_le.
  destruct (Hrb (ComparisonEntry.date a)) as [t [Ht Hord]].
  destruct (Hrb (ComparisonEntry.date b)) as [t' [Ht' _]].
  rewrite Ht, Ht'. apply (Hord _ _ Ht').
Qed.

Lemma reads_back_sorted l :
  reads_back localeTime -> Sorted (key_le localeTime) l -> Sorted date_le l.
Proof.
  intros Hrb Hs. induction Hs as [|x l Hl IH Hhd]; [constructor|].
  constructor; [exact IH|].
  destruct Hhd as [|y l' Hxy]; constructor.
  apply (reads_back_key x y Hrb), Hxy.
Qed.

End SortByDate.

(** ** The position line *)

Lemma percentiles_to_100 : all_from percentiles_ok 2 99 = true.
Proof. vm_compute. reflexivity. Qed.

Lemma whole_percentile (total rank : Z) :
  2 <= total <= 100 -> 1 <= rank <= total ->
  exists k, percentileOf total rank = of_Z k /\ 0 <= k <= 100.
Proof.
  intros Htotal Hrank.
  pose proof (all_from_spec percentiles_ok 99 2 percentiles_to_100 total
                ltac:(lia)) as Hall.
  unfold percentiles_ok in Hall.
  pose proof (all_from_spec (percentile_ok total) (Z.to_nat total) 1 Hall
                rank ltac:(lia)) as Hok.
  unfold percentile_ok in Hok.
  destruct (rounded (mul (div (of_Z (total - rank)) (of_Z (total - 1)))
                         (of_Z 100))) as [k|]; [|discriminate].
  apply andb_true_iff in Hok. destruct Hok as [Hk Heq].
  apply andb_true_iff in Hk. destruct Hk as [Hlo Hhi].
  exists k. split; [apply jsnum_eqb_eq, Heq|lia].
Qed.

(** C3, on the code.  When the subject is the only member of the
    comparison list the position line is shown, with rank 1 of 1, and
    its percentile is the [NaN] of [0 / 0]. *)
Theorem single_member_position (e : ComparisonEntry.t)
    (Hcurrent : ComparisonEntry.isCurrentActivity e = true) :
  yourPosition [e] = Some (mkPosition 1 1 NaN)
  /\ div (of_Z (1 - 1)) (of_Z (1 - 1)) = NaN.
Proof.
  split; [|reflexivity].
  unfold yourPosition, position, findIndex. cbn [List.length findIndex_from].
  rewrite Hcurrent. reflexivity.
Qed.

Lemma single_member_position_witness :
  ComparisonEntry.isCurrentActivity
    (ComparisonEntry.mk 10 (mkLocalDate 2025 7 1) (of_Z 5) true) = true
  /\ yourPosition [ComparisonEntry.mk 10 (mkLocalDate 2025 7 1) (of_Z 5) true]
     = Some (mkPosition 1 1 NaN).
Proof.
  split; [reflexivity|].
  exact (proj1 (single_member_position
                  (ComparisonEntry.mk 10 (mkLocalDate 2025 7 1) (of_Z 5) true)
                  eq_refl)).
Defined.

(** ** Cohort comparison *)

Section CohortComparison.

Variable World : Type.
Variable getActivityDetail : World -> Z -> World * option ActivityDetail.
Variable getCachedActivities : World -> World * option (list StravaActivity).
Variable currentYear : Z.
Variable localeTime : LocalDate -> option Z.

Lemma comparisonLoop_candidates birthYear acts0 acts : forall w acc,
  (forall act, In act acts -> In act acts0) ->
  Forall (fetched_candidate World getActivityDetail currentYear birthYear
            acts0) acc ->
  Forall (fetched_candidate World getActivityDetail currentYear birthYear
            acts0)
    (snd (comparisonLoop World getActivityDetail currentYear birthYear
            w acts acc)).
Proof.
  induction acts as [|act rest IH]; intros w acc Hsub Hacc;
    cbn [comparisonLoop].
  - exact Hacc.
  - assert (Hrest : forall a, In a rest -> In a acts0)
      by (intros a Ha; apply Hsub; right; exact Ha).
    destruct (getActivityDetail w (act_id act)) as [w' [detailedAct|]]
      eqn:Hfetch; [|apply IH; assumption].
    destruct (heartrate_of (Some detailedAct)) as [heartRateData|] eqn:Hhr;
      [|apply IH; assumption].
    apply IH; [exact Hrest|].
    apply Forall_app. split; [exact Hacc|].
    constructor; [|constructor].
    exists act, w, w', detailedAct, heartRateData.
    split; [apply Hsub; left; reflexivity|].
    split; [exact Hfetch|]. split; [exact Hhr|].
    rewrite effort_loop. reflexivity.
Qed.

Lemma fetched_candidate_is_candidate birthYear acts e :
  fetched_candidate World getActivityDetail currentYear birthYear acts e ->
  is_candidate e.
Proof.
  intros [act [w [w' [d [hr [_ [_ [_ ->]]]]]]]]. reflexivity.
Qed.

Lemma loadComparisonData_sorted activity athlete comparisonPeriod w w' cd r :
  calculateRelativeEffortPoints currentYear activity athlete = Some r ->
  loadComparisonData World getActivityDetail getCachedActivities currentYear
    localeTime activity athlete comparisonPeriod w = (w', Some cd) ->
  exists act0 candidates birthYear allActivities w1,
    activity = Some act0
    /\ birth_year_of athlete = Some birthYear
    /\ getCachedActivities w = (w1, Some allActivities)
    /\ Forall (fetched_candidate World getActivityDetail currentYear
                 birthYear
                 (filter (inPeriod comparisonPeriod act0) allActivities))
              candidates
    /\ cd = sort (byDate localeTime) (candidates ++ [subjectEntry act0 r]).
Proof.
  intros Heffort Hrun. unfold loadComparisonData in Hrun.
  destruct activity as [act0|] eqn:Hact; [|discriminate].
  destruct (birth_year_of athlete) as [birthYear|]; [|discriminate].
  destruct (getCachedActivities w) as [w1 [allActivities|]];
    [|discriminate].
  pose proof (comparisonLoop_candidates birthYear
                (filter (inPeriod comparisonPeriod act0) allActivities)
                (filter (inPeriod comparisonPeriod act0) allActivities)
                w1 [] (fun _ H => H) (Forall_nil _)) as Hc.
  destruct (comparisonLoop World getActivityDetail currentYear birthYear w1
              (filter (inPeriod comparisonPeriod act0) allActivities) [])
    as [w2 candidates].
  rewrite Heffort in Hrun. inversion Hrun; subst.
  exists act0, candidates, birthYear, allActivities, w1.
  repeat split. exact Hc.
Qed.

(** C1, on the code.  When the subject has an effort and the
    comparison list has at least two members, the list is a
    rearrangement of the candidates' entries and the subject's, a
    candidate being an activity of the period whose detail was fetched
    with a heart-rate stream, entered with its total effort points; the
    rank shown is the 1-based position of the subject in that list,
    and the percentile is
    [Math.round((total - rank) / (total - 1) * 100)] in binary64, a
    whole number from 0 to 100 for a list of up to 100 members, where
    [total] is the length of the list.  When the locale gives every
    date of the list a valid time value, the list is sorted by these
    time values, entries of one time value keep their order, and the
    rank is 1 plus the number of candidates not read as later than the
    subject: the efforts play no part in it.  When the locale's date
    strings read back as the days they were written from, the list is
    in chronological order and the rank is 1 plus the number of
    candidates dated no later than the subject.  The percentile is
    that of binary64: rank 18 of 41 gives 57. *)
Theorem cohort_comparison (activity : option ActivityDetail)
    (athlete : option StravaAthlete) (comparisonPeriod : Period)
    (w w' : World) (cd : list ComparisonEntry.t) (r : Effort.t)
    (Heffort : calculateRelativeEffortPoints currentYear activity athlete
               = Some r)
    (Hrun : loadComparisonData World getActivityDetail getCachedActivities
              currentYear localeTime activity athlete comparisonPeriod w
            = (w', Some cd))
    (Htwo : 2 <= Z.of_nat (List.length cd)) :
  let p := position cd in
  exists act0 candidates birthYear allActivities w1,
    activity = Some act0
    /\ birth_year_of athlete = Some birthYear
    /\ getCachedActivities w = (w1, Some allActivities)
    /\ Forall (fetched_candidate World getActivityDetail currentYear
                 birthYear
                 (filter (inPeriod comparisonPeriod act0) allActivities))
              candidates
    /\ Permutation (candidates ++ [subjectEntry act0 r]) cd
    /\ total p = Z.of_nat (List.length cd)
    /\ 1 <= rank p <= total p
    /\ nth_error cd (Z.to_nat (rank p - 1)) = Some (subjectEntry act0 r)
    /\ forallb (fun e => negb (ComparisonEntry.isCurrentActivity e))
         (firstn (Z.to_nat (rank p - 1)) cd) = true
    /\ percentile p
       = Math_round (mul (div (of_Z (total p - rank p)) (of_Z (total p - 1)))
                         (of_Z 100))
    /\ (total p <= 100 -> exists k, percentile p = of_Z k /\ 0 <= k <= 100)
    /\ (Forall (valid_date localeTime) cd ->
        Sorted (key_le localeTime) cd
        /\ (forall k, filter (same_key localeTime k) cd
                      = filter (same_key localeTime k)
                          (candidates ++ [subjectEntry act0 r]))
        /\ rank p
           = 1 + Z.of_nat
                   (List.length
                      (filter (not_later localeTime (subjectEntry act0 r))
                              candidates)))
    /\ (reads_back localeTime ->
        Sorted date_le cd
        /\ rank p
           = 1 + Z.of_nat
                   (List.length
                      (filter (fun e =>
                                 dayNumber (ComparisonEntry.date e)
                                 <=? dayNumber (start_date_local act0))
                              candidates)))
    /\ Math_round (mul (div (of_Z (41 - 18)) (of_Z (41 - 1))) (of_Z 100))
       = of_Z 57.
Proof.
  intros p.
  destruct (loadComparisonData_sorted _ _ _ _ _ _ _ Heffort Hrun)
    as [act0 [candidates [birthYear [allActivities [w1
          [Hact [Hby [Hcache [Hfetched Hcd]]]]]]]]].
  assert (Hcand : Forall is_candidate candidates).
  { eapply Forall_impl; [|exact Hfetched].
    intros e. apply fetched_candidate_is_candidate. }
  assert (Hperm : Permutation (candidates ++ [subjectEntry act0 r]) cd).
  { rewrite Hcd. apply sort_perm. }
  assert (Hin : exists x, In x cd
                          /\ ComparisonEntry.isCurrentActivity x = true).
  { exists (subjectEntry act0 r). split; [|reflexivity].
    eapply Permutation_in; [exact Hperm|].
    apply in_or_app. right. left. reflexivity. }
  destruct (findIndex_found _ _ Hin) as [i [x [Hi [Hnth [Hx Hbefore]]]]].
  assert (Hxs : x = subjectEntry act0 r).
  { apply nth_error_In in Hnth.
    apply (Permutation_in _ (Permutation_sym Hperm)) in Hnth.
    apply in_app_or in Hnth. destruct Hnth as [Hc|[Hs|[]]].
    - rewrite Forall_forall in Hcand. specialize (Hcand x Hc).
      unfold is_candidate in Hcand. congruence.
    - symmetry. exact Hs. }
  assert (Hlt : (i < List.length cd)%nat).
  { apply nth_error_Some. rewrite Hnth. discriminate. }
  assert (Hrank : rank p = Z.of_nat i + 1).
  { unfold p, position. cbn [rank]. rewrite Hi. reflexivity. }
  assert (Htotal : total p = Z.of_nat (List.length cd)) by reflexivity.
  assert (Hidx : Z.to_nat (rank p - 1) = i) by (rewrite Hrank; lia).
  assert (Hvalid : Forall (valid_date localeTime) cd ->
                   Forall (valid_date localeTime)
                     (candidates ++ [subjectEntry act0 r])).
  { intros Hv. apply Forall_forall. intros e He.
    rewrite Forall_forall in Hv. apply Hv.
    apply (Permutation_in e Hperm), He. }
  assert (Hbyrank : Forall (valid_date localeTime) cd ->
                    rank p
                    = 1 + Z.of_nat
                            (List.length
                               (filter (not_later localeTime
                                          (subjectEntry act0 r))
                                       candidates))).
  { intros Hv. unfold p, position. cbn [rank]. rewrite Hcd.
    rewrite (sort_index localeTime candidates (subjectEntry act0 r)
               (Hvalid Hv) Hcand eq_refl).
    lia. }
  exists act0, candidates, birthYear, allActivities, w1.
  split; [exact Hact|]. split; [exact Hby|]. split; [exact Hcache|].
  split; [exact Hfetched|]. split; [exact Hperm|].
  split; [exact Htotal|]. split; [lia|].
  split; [rewrite Hidx, Hnth, Hxs; reflexivity|].
  split; [rewrite Hidx; exact Hbefore|].
  split; [reflexivity|].
  split.
  { intros Hsmall. apply (whole_percentile (total p) (rank p)); lia. }
  split.
  { intros Hv. split; [|split].
    - rewrite Hcd. apply sort_byDate_sorted, Hvalid, Hv.
    - intros k. rewrite Hcd. apply sort_byDate_stable, Hvalid, Hv.
    - apply Hbyrank, Hv. }
  split; [|vm_compute; reflexivity].
  intros Hrb.
  assert (Hv : Forall (valid_date localeTime) cd).
  { apply Forall_forall. intros e _. apply reads_back_valid, Hrb. }
  split.
  - apply (reads_back_sorted localeTime _ Hrb).
    rewrite Hcd. apply sort_byDate_sorted, Hvalid, Hv.
  - rewrite (Hbyrank Hv). f_equal. f_equal. f_equal.
    apply filter_ext. intros e. unfold not_later.
    pose proof (reads_back_key localeTime e (subjectEntry act0 r) Hrb)
      as Hkey.
    unfold date_le in Hkey. cbn [subjectEntry ComparisonEntry.date] in Hkey.
    destruct (Z.leb_spec (keyOf localeTime e)
                (keyOf localeTime (subjectEntry act0 r)));
      destruct (Z.leb_spec (dayNumber (ComparisonEntry.date e))
                  (dayNumber (start_date_local act0)));
      try reflexivity; exfalso; lia.
Qed.

End CohortComparison.

Lemma en_US_reads_back : reads_back en_US.
Proof.
  intros d. exists (dayNumber d). split; [reflexivity|].
  intros d' t' H. injection H as <-. reflexivity.
Qed.

Lemma cohort_comparison_witness :
  calculateRelativeEffortPoints 2025 hard_run born_1990
  = Some (effortResult (mkEffortTotals 5 1))
  /\ loadComparisonData unit cohort_getActivityDetail
       cohort_getCachedActivities 2025 en_US hard_run born_1990 Month tt
     = (tt, Some cohort_comparisonData)
  /\ 2 <= Z.of_nat (List.length cohort_comparisonData)
  /\ Sorted date_le cohort_comparisonData
  /\ rank (position cohort_comparisonData) = 1.
Proof.
  assert (H1 : calculateRelativeEffortPoints 2025 hard_run born_1990
               = Some (effortResult (mkEffortTotals 5 1)))
    by (vm_compute; reflexivity).
  assert (H2 : loadComparisonData unit cohort_getActivityDetail
                 cohort_getCachedActivities 2025 en_US hard_run born_1990
                 Month tt
               = (tt, Some cohort_comparisonData))
    by (vm_compute; reflexivity).
  assert (H3 : 2 <= Z.of_nat (List.length cohort_comparisonData))
    by (cbn; lia).
  split; [exact H1|]. split; [exact H2|]. split; [exact H3|].
  destruct (cohort_comparison unit cohort_getActivityDetail
              cohort_getCachedActivities 2025 en_US hard_run born_1990 Month
              tt tt cohort_comparisonData _ H1 H2 H3)
    as (act0 & candidates & birthYear & allActivities & w1
        & _ & _ & _ & _ & _ & _ & _ & _ & _ & _ & _ & _ & Hchron & _).
  split; [exact (proj1 (Hchron en_US_reads_back))|].
  vm_compute. reflexivity.
Defined.

(** C1 as stated fails.  The subject, a hard run of 5 effort points on
    1 August, is compared with an easy run of 1 point on 2 August: the
    list is in date order, the subject first, and the rank shown is 1,
    with percentile 100; sorted by effort ascending the subject would
    be second.  In an [en-GB] browser the list is not chronological
    either: compared over the year with runs of 2 August and 2 July,
    the subject of 1 August comes first and the run of 2 July
    second. *)
Lemma rank_is_chronological :
  loadComparisonData unit cohort_getActivityDetail
    cohort_getCachedActivities 2025 en_US hard_run born_1990 Month tt
  = (tt, Some cohort_comparisonData)
  /\ rank (position cohort_comparisonData) = 1
  /\ percentile (position cohort_comparisonData) = of_Z 100
  /\ spec_rank cohort_comparisonData = 2
  /\ (map ComparisonEntry.date
        (match snd (loadComparisonData unit cohort_getActivityDetail
                      cohort_getCachedActivities 2025 en_GB hard_run
                      born_1990 Year tt) with
         | Some cd => cd
         | None => []
         end)
      = [mkLocalDate 2025 7 1; mkLocalDate 2025 6 2; mkLocalDate 2025 7 2]
      /\ ~ dayNumber (mkLocalDate 2025 7 1)
           <= dayNumber (mkLocalDate 2025 6 2)).
Proof.
  split; [vm_compute; reflexivity|].
  split; [vm_compute; reflexivity|].
  split; [vm_compute; reflexivity|].
  split; [vm_compute; reflexivity|].
  split; [vm_compute; reflexivity|].
  vm_compute. intros H. apply H. reflexivity.
Qed.

(** ** Bulk stream backfill *)

Lemma filter_map_app {A B : Type} (f : A -> option B) (l1 l2 : list A) :
  filter_map f (l1 ++ l2) = filter_map f l1 ++ filter_map f l2.
Proof.
  induction l1 as [|x rest IH]; cbn [filter_map app]; [reflexivity|].
  destruct (f x); cbn [app]; rewrite IH; reflexivity.
Qed.

Lemma filter_map_steps_calls n acts : forall i,
  filter_map callOf (steps n i acts) = map act_id acts.
Proof.
  induction acts as [|a rest IH]; intros i; cbn; [reflexivity|].
  rewrite IH. reflexivity.
Qed.

Lemma filter_map_steps_progress n acts : forall i,
  filter_map progressOf (steps n i acts)
  = map (fun k => (i + Z.of_nat k + 1, n)) (seq 0 (List.length acts)).
Proof.
  induction acts as [|a rest IH]; intros i; [reflexivity|].
  cbn [steps filter_map progressOf List.length seq map].
  rewrite IH. rewrite <- seq_shift, map_map.
  f_equal; [f_equal; lia|].
  apply map_ext. intros k. f_equal. lia.
Qed.

Lemma filter_map_of_steps {B : Type} (f : Event -> option B) (l : list Event) :
  (forall e, isStep e = false -> f e = None) ->
  filter_map f l = filter_map f (filter isStep l).
Proof.
  intros Hf. induction l as [|e rest IH]; cbn [filter_map filter];
    [reflexivity|].
  destruct (isStep e) eqn:He.
  - cbn [filter_map]. rewrite IH. reflexivity.
  - rewrite (Hf e He). exact IH.
Qed.

Section BackfillProperties.

Variable World : Type.
Variable getActivityDetail : World -> Z -> World * option ActivityDetail.

(** The loop appends to the trace; among what it appends, the progress
    updates and detail requests are exactly [steps], there is no alert,
    and each logged failure is counted once. *)
Lemma backfillLoop_trace acts : forall n i s,
  let s' := backfillLoop World getActivityDetail n i acts s in
  exists tail,
    events s' = events s ++ tail
    /\ filter isStep tail = steps n i acts
    /\ filter_map alertOf tail = []
    /\ errorCount s'
       = errorCount s + Z.of_nat (List.length (filter isConsoleError tail))
    /\ successCount s' + errorCount s'
       = successCount s + errorCount s + Z.of_nat (List.length acts).
Proof.
  induction acts as [|a rest IH]; intros n i s; cbn zeta.
  - exists []. cbn. rewrite app_nil_r. repeat split; lia.
  - cbn [backfillLoop].
    destruct (getActivityDetail (world s) (act_id a)) as [w' [detail|]];
      [destruct (i <? n - 1)|];
      match goal with
      | |- context [backfillLoop _ _ _ _ _ ?s1] =>
          destruct (IH n (i + 1) s1) as [tail [He [Hs [Ha [Hc Hn]]]]];
          cbn [events successCount errorCount] in He, Hc, Hn;
          match type of He with
          | _ = ((events s ++ ?step) ++ ?extra) ++ tail =>
              exists (step ++ extra ++ tail)
          | _ = (events s ++ ?step) ++ tail =>
              exists (step ++ tail)
          end
      end;
      (split; [rewrite He, <- ?app_assoc; reflexivity|]);
      cbn [app filter isStep filter_map alertOf isConsoleError steps
           List.length];
      rewrite Hs, Ha;
      (split; [reflexivity|]); (split; [reflexivity|]);
      (split; [rewrite Hc|rewrite Hn]); lia.
Qed.

(** The loop requests the activities as [fetchOutcomes] does: it ends
    in the world the last request left, it counts the requests that
    were fulfilled and those that failed, and it logs the failed ones,
    in order. *)
Lemma backfillLoop_outcomes acts : forall n i s,
  let s' := backfillLoop World getActivityDetail n i acts s in
  let outcomes := fetchOutcomes World getActivityDetail (world s) acts in
  world s' = worldAfter World getActivityDetail (world s) acts
  /\ successCount s'
     = successCount s + Z.of_nat (List.length (filter fulfilled outcomes))
  /\ errorCount s'
     = errorCount s + Z.of_nat (List.length (filter failed outcomes))
  /\ exists tail,
       events s' = events s ++ tail
       /\ filter_map errorOf tail = map fst (filter failed outcomes)
       /\ filter_map alertOf tail = [].
Proof.
  induction acts as [|a rest IH]; intros n i s; cbn zeta.
  - cbn. repeat split; try lia. exists []. rewrite app_nil_r.
    repeat split; reflexivity.
  - cbn [backfillLoop fetchOutcomes worldAfter].
    destruct (getActivityDetail (world s) (act_id a)) as [w' [detail|]];
      cbn [fst]; [destruct (i <? n - 1)|];
      match goal with
      | |- context [backfillLoop _ _ _ _ _ ?s1] =>
          destruct (IH n (i + 1) s1)
            as [Hw [Hsc [Hec [tail [He [Herr Ha]]]]]];
          cbn [world events successCount errorCount] in Hw, Hsc, Hec, He,
                                                         Herr;
          rewrite Hw, Hsc, Hec;
          cbn [filter fulfilled failed snd negb List.length map fst];
          (split; [reflexivity|]); (split; [lia|]); (split; [lia|]);
          match type of He with
          | _ = ((events s ++ ?step) ++ ?extra) ++ tail =>
              exists (step ++ extra ++ tail)
          | _ = (events s ++ ?step) ++ tail =>
              exists (step ++ tail)
          end
      end;
      (split; [rewrite He, <- ?app_assoc; reflexivity|]);
      cbn [app filter_map errorOf alertOf]; rewrite Herr, Ha;
      split; reflexivity.
Qed.

Lemma fetchOutcomes_ids acts : forall w,
  map fst (fetchOutcomes World getActivityDetail w acts) = map act_id acts.
Proof.
  induction acts as [|a rest IH]; intros w; [reflexivity|].
  cbn [fetchOutcomes map].
  destruct (getActivityDetail w (act_id a)) as [w1 fetched].
  cbn [map fst]. rewrite IH. reflexivity.
Qed.

End BackfillProperties.

(** C9, as amended.  When the handler runs (authenticated, no backfill
    in progress), the activities to process are requested one after
    the other in the order given, each exactly once whether or not
    earlier ones failed, each in the world the request before it left;
    before each request the progress is set to [(i + 1, total)], so
    the per-item updates run from 1 to [total]; they are preceded by
    one update [(0, total)] and followed by the reset [(0, 0)].  The
    requests that fail, and only they, are logged, in order; the
    counts reported at the end are the number of requests that were
    fulfilled and the number of those that failed, which add up to
    [total].  For five activities of which the third fails, the counts
    are 4 and 1, the per-item updates are the five from 1 to 5, and
    the progress is set seven times in all. *)
Theorem bulk_backfill (World : Type)
    (getActivityDetail : World -> Z -> World * option ActivityDetail)
    (filteredActivities activities : list StravaActivity) (w : World) :
  let activitiesToProcess :=
    if 0 <? Z.of_nat (List.length filteredActivities)
    then filteredActivities else activities in
  let n := Z.of_nat (List.length activitiesToProcess) in
  let run :=
    fetchAllStreamData World getActivityDetail true false
      filteredActivities activities w in
  let trace := snd run in
  let outcomes :=
    fetchOutcomes World getActivityDetail w activitiesToProcess in
  filter_map callOf trace = map act_id activitiesToProcess
  /\ filter isStep trace
     = SetStreamProgress 0 n :: steps n 0 activitiesToProcess
       ++ [SetStreamProgress 0 0]
  /\ filter_map progressOf trace
     = (0, n) :: map (fun k => (Z.of_nat k + 1, n))
                     (seq 0 (List.length activitiesToProcess))
       ++ [(0, 0)]
  /\ map fst outcomes = map act_id activitiesToProcess
  /\ fst run = worldAfter World getActivityDetail w activitiesToProcess
  /\ filter_map errorOf trace = map fst (filter failed outcomes)
  /\ filter_map alertOf trace
     = [(Z.of_nat (List.length (filter fulfilled outcomes)),
         Z.of_nat (List.length (filter failed outcomes)))]
  /\ (exists s e,
        filter_map alertOf trace = [(s, e)]
        /\ s + e = n
        /\ e = Z.of_nat (List.length (filter isConsoleError trace)))
  /\ (let trace5 :=
        snd (fetchAllStreamData unit third_fails true false []
               five_activities tt) in
      filter_map callOf trace5 = [1; 2; 3; 4; 5]
      /\ filter_map errorOf trace5 = [3]
      /\ filter_map alertOf trace5 = [(4, 1)]
      /\ filter_map progressOf trace5
         = [(0, 5); (1, 5); (2, 5); (3, 5); (4, 5); (5, 5); (0, 0)]).
Proof.
  intros activitiesToProcess n run trace outcomes.
  assert (Hsteps : filter isStep trace
                   = SetStreamProgress 0 n :: steps n 0 activitiesToProcess
                     ++ [SetStreamProgress 0 0]
                   /\ exists s e,
                        filter_map alertOf trace = [(s, e)]
                        /\ s + e = n
                        /\ e = Z.of_nat
                                 (List.length (filter isConsoleError trace))).
  { unfold trace, run, fetchAllStreamData. cbn [negb orb snd].
    fold activitiesToProcess. fold n.
    destruct (backfillLoop_trace World getActivityDetail activitiesToProcess
                n 0
                (mkBackfill w 0 0
                   [SetLoadingStreams true; SetErrorNull;
                    SetStreamProgress 0 n]))
      as [tail [He [Hs [Ha [Hc Hn]]]]].
    cbn [events successCount errorCount] in He, Hc, Hn.
    rewrite He. split.
    - rewrite !filter_app, Hs. reflexivity.
    - eexists _, _. split; [|split].
      + rewrite !filter_map_app, Ha. reflexivity.
      + fold n in Hn. lia.
      + rewrite !filter_app, !length_app. cbn [filter isConsoleError
          List.length]. lia. }
  assert (Hout : fst run
                 = worldAfter World getActivityDetail w activitiesToProcess
                 /\ filter_map errorOf trace = map fst (filter failed outcomes)
                 /\ filter_map alertOf trace
                    = [(Z.of_nat (List.length (filter fulfilled outcomes)),
                        Z.of_nat (List.length (filter failed outcomes)))]).
  { unfold trace, run, fetchAllStreamData. cbn [negb orb fst snd].
    fold activitiesToProcess. fold n.
    destruct (backfillLoop_outcomes World getActivityDetail
                activitiesToProcess n 0
                (mkBackfill w 0 0
                   [SetLoadingStreams true; SetErrorNull;
                    SetStreamProgress 0 n]))
      as [Hw [Hsc [Hec [tail [He [Herr Ha]]]]]].
    cbn [world events successCount errorCount] in Hw, Hsc, Hec, He.
    fold outcomes in Hsc, Hec, Herr.
    split; [exact Hw|]. split.
    - rewrite He, !filter_map_app, Herr. cbn. apply app_nil_r.
    - rewrite He, !filter_map_app, Ha, Hsc, Hec. reflexivity. }
  destruct Hsteps as [Hsteps Halert]. destruct Hout as [Hw [Herr Hcount]].
  split.
  { rewrite (filter_map_of_steps callOf) by (intros [] He; try reflexivity;
                                             discriminate).
    rewrite Hsteps. cbn [filter_map callOf].
    rewrite filter_map_app, filter_map_steps_calls. cbn.
    apply app_nil_r. }
  split; [exact Hsteps|].
  split.
  { rewrite (filter_map_of_steps progressOf)
      by (intros [] He; try reflexivity; discriminate).
    rewrite Hsteps. cbn [filter_map progressOf].
    rewrite filter_map_app, filter_map_steps_progress. reflexivity. }
  split; [apply fetchOutcomes_ids|].
  split; [exact Hw|]. split; [exact Herr|]. split; [exact Hcount|].
  split; [exact Halert|].
  vm_compute. repeat split; reflexivity.
Qed.

(** C9 as stated fails.  For five activities of which the third fails
    the progress is set seven times, not five, the first time to
    [(0, 5)] and the last to [(0, 0)]; and the update [(1, 5)] comes
    before the first activity is requested, not after it. *)
Lemma backfill_progress_updates :
  let trace :=
    snd (fetchAllStreamData unit third_fails true false []
           five_activities tt) in
  List.length (filter_map progressOf trace) = 7%nat
  /\ filter_map progressOf trace
     = [(0, 5); (1, 5); (2, 5); (3, 5); (4, 5); (5, 5); (0, 0)]
  /\ firstn 5 trace
     = [SetLoadingStreams true; SetErrorNull; SetStreamProgress 0 5;
        SetStreamProgress 1 5; CallGetActivityDetail 1].
Proof.
  vm_compute. repeat split; reflexivity.
Qed.

(** * Properties of the service *)

(** ** Tables *)

Lemma table_get_put_same {R : Type} (k : Z) (r : R) (t : Table R) :
  table_get k (table_put k r t) = Some r.
Proof.
  induction t as [|[k' r'] rest IH]; cbn [table_put table_get].
  - rewrite Z.eqb_refl. reflexivity.
  - destruct (Z.ltb_spec k k'); cbn [table_get].
    + rewrite Z.eqb_refl. reflexivity.
    + destruct (Z.eqb_spec k k'); cbn [table_get].
      * rewrite Z.eqb_refl. reflexivity.
      * destruct (Z.eqb_spec k' k); [lia|]. exact IH.
Qed.

Lemma table_get_put_other {R : Type} (j k : Z) (r : R) (t : Table R) :
  j <> k -> table_get j (table_put k r t) = table_get j t.
Proof.
  intros Hjk. induction t as [|[k' r'] rest IH]; cbn [table_put table_get].
  - destruct (Z.eqb_spec k j); [congruence|reflexivity].
  - destruct (Z.ltb_spec k k'); cbn [table_get].
    + destruct (Z.eqb_spec k j); [congruence|reflexivity].
    + destruct (Z.eqb_spec k k'); cbn [table_get].
      * subst k'. destruct (Z.eqb_spec k j); [congruence|reflexivity].
      * destruct (Z.eqb_spec k' j); [reflexivity|exact IH].
Qed.

Lemma table_get_delete_same {R : Type} (k : Z) (t : Table R) :
  table_get k (table_delete k t) = None.
Proof.
  unfold table_delete.
  induction t as [|[k' r'] rest IH]; cbn [filter table_get fst];
    [reflexivity|].
  destruct (Z.eqb_spec k' k); cbn [negb table_get]; [exact IH|].
  destruct (Z.eqb_spec k' k); [contradiction|exact IH].
Qed.

Lemma table_get_delete_other {R : Type} (j k : Z) (t : Table R) :
  j <> k -> table_get j (table_delete k t) = table_get j t.
Proof.
  intros Hjk. unfold table_delete.
  induction t as [|[k' r'] rest IH]; cbn [filter table_get fst];
    [reflexivity|].
  destruct (Z.eqb_spec k' k); cbn [negb table_get].
  - subst k'. destruct (Z.eqb_spec k j); [congruence|exact IH].
  - rewrite IH. reflexivity.
Qed.

(** ** Invariants of asynchronous calls *)

Lemma preserves_resolve {W A : Type} (I : W -> Prop) (a : A) :
  preserves I (resolve a).
Proof. intros w Hw. exact Hw. Qed.

Lemma preserves_throw {W A : Type} (I : W -> Prop) (message : string) :
  preserves I (@throw W A message).
Proof. intros w Hw. exact Hw. Qed.

Lemma preserves_await {W A B : Type} (I : W -> Prop) (c : Async W A)
    (k : A -> Async W B) :
  preserves I c -> (forall a, preserves I (k a)) -> preserves I (await c k).
Proof.
  intros Hc Hk w Hw. unfold await.
  specialize (Hc w Hw). destruct (c w) as [w' [a|message]]; cbn in Hc |- *.
  - apply Hk, Hc.
  - exact Hc.
Qed.

Lemma preserves_try_catch {W A : Type} (I : W -> Prop) (c : Async W A)
    (handler : string -> Async W A) :
  preserves I c -> (forall message, preserves I (handler message)) ->
  preserves I (try_catch c handler).
Proof.
  intros Hc Hh w Hw. unfold try_catch.
  specialize (Hc w Hw). destruct (c w) as [w' [a|message]]; cbn in Hc |- *.
  - exact Hc.
  - apply Hh, Hc.
Qed.

(** ** Settings and tokens *)

Section Credentials.

Context {Remote : Type} {api : Api Remote}.

Lemma getSettings_eq (w : World Remote) :
  getSettings w
  = (setService (mkService (the_db w) (currentSettings w)) w,
     Ok (currentSettings w)).
Proof.
  unfold getSettings, currentSettings, setService, the_db.
  destruct w as [[d cached] r]. cbn.
  destruct cached; reflexivity.
Qed.

Lemma currentSettings_cached (w : World Remote) :
  currentSettings (setService (mkService (the_db w) (currentSettings w)) w)
  = currentSettings w.
Proof.
  unfold currentSettings, setService, the_db. cbn.
  destruct (svc_settings (service w)); [reflexivity|].
  destruct (table_first (db_settings (svc_db (service w)))); reflexivity.
Qed.

Lemma truthy_usable (token : option string) :
  truthy_string token = true <-> usable token.
Proof.
  unfold truthy_string, usable. destruct token as [t|].
  - destruct (String.eqb_spec t ""); cbn; split.
    + discriminate.
    + intros [t' [Ht Hne]]. inversion Ht; subst. contradiction.
    + intros _. exists t. split; [reflexivity|assumption].
    + reflexivity.
  - split; [discriminate|]. intros [t [Ht _]]. discriminate.
Qed.

Lemma truthy_not_usable (token : option string) :
  truthy_string token = false <-> ~ usable token.
Proof.
  rewrite <- truthy_usable. destruct (truthy_string token); split;
    try reflexivity; try discriminate; intros H; exfalso; apply H;
    reflexivity.
Qed.

(** What [saveSettings] leaves in memory and in the table. *)
Lemma saveSettings_existing (w : World Remote) (p : PartialSettings)
    (s : StravaSettings) :
  currentSettings w = Some s ->
  saveSettings p w
  = (mkWorld
       (mkService
          (mkDatabase
             (match settings_id s with
              | Some k =>
                  table_update k (fun row => mergeSettings row p)
                    (db_settings (the_db w))
              | None => db_settings (the_db w)
              end)
             (db_settings_next (the_db w)) (db_activities (the_db w))
             (db_activityDetails (the_db w)) (db_athlete (the_db w)))
          (Some (mergeSettings s p)))
       (remote w),
     Ok tt).
Proof.
  intros Hs. unfold saveSettings, await. rewrite getSettings_eq, Hs.
  reflexivity.
Qed.

Lemma saveSettings_first (w : World Remote) (p : PartialSettings) :
  currentSettings w = None ->
  saveSettings p w
  = (mkWorld
       (mkService
          (mkDatabase
             (table_put (db_settings_next (the_db w))
                (newSettings (db_settings_next (the_db w)) p)
                (db_settings (the_db w)))
             (db_settings_next (the_db w) + 1) (db_activities (the_db w))
             (db_activityDetails (the_db w)) (db_athlete (the_db w)))
          (Some (newSettings (db_settings_next (the_db w)) p)))
       (remote w),
     Ok tt).
Proof.
  intros Hs. unfold saveSettings, await. rewrite getSettings_eq, Hs.
  reflexivity.
Qed.

(** X1.  A token that does not expire within five minutes, or whose
    expiry is not set (missing or 0), is returned as stored: no request
    is sent and the database is not touched. *)
Theorem ensureValidToken_fresh (w : World Remote) (s : StravaSettings)
    (Hs : currentSettings w = Some s)
    (Htoken : usable (accessToken s))
    (Hfresh : expiresAt s = None \/ expiresAt s = Some 0
              \/ exists e, expiresAt s = Some e
                           /\ now (remote w) + 300000 <= e) :
  snd (ensureValidToken w) = Ok (accessToken s)
  /\ remote (fst (ensureValidToken w)) = remote w
  /\ the_db (fst (ensureValidToken w)) = the_db w.
Proof.
  assert (Hexp : forall w', remote w' = remote w -> tokenExpired s w' = false).
  { intros w' Hr. unfold tokenExpired. rewrite Hr.
    destruct Hfresh as [H|[H|[e [H Hle]]]]; rewrite H; [reflexivity..|].
    destruct (Z.ltb_spec e (now (remote w) + 5 * 60 * 1000)); [lia|].
    apply andb_false_r. }
  apply truthy_usable in Htoken.
  unfold ensureValidToken, await. rewrite getSettings_eq, Hs.
  rewrite Htoken. cbn [negb]. rewrite Hexp by reflexivity.
  cbn. repeat split; reflexivity.
Qed.

(** X2.  Without a usable access token (no settings, no token, or an
    empty one) [ensureValidToken] throws before anything is sent, and
    the database is not touched. *)
Theorem ensureValidToken_no_token (w : World Remote)
    (Hnone : forall s, currentSettings w = Some s -> ~ usable (accessToken s)) :
  snd (ensureValidToken w) = Err "No access token available"
  /\ remote (fst (ensureValidToken w)) = remote w
  /\ the_db (fst (ensureValidToken w)) = the_db w.
Proof.
  unfold ensureValidToken, await. rewrite getSettings_eq.
  destruct (currentSettings w) as [s|] eqn:Hs.
  - specialize (Hnone s eq_refl). apply truthy_not_usable in Hnone.
    rewrite Hnone.
    cbn. repeat split; reflexivity.
  - cbn. repeat split; reflexivity.
Qed.

Lemma refreshAccessToken_ok (w : World Remote) (s : StravaSettings)
    (rt cid cs : string) (r' : Remote) (data : TokenResponse) :
  currentSettings w = Some s ->
  refreshToken s = Some rt -> rt <> EmptyString ->
  clientId s = Some cid -> cid <> EmptyString ->
  clientSecret s = Some cs -> cs <> EmptyString ->
  postToken (remote w) (RefreshTokenGrant cid cs rt) = (r', Some data) ->
  refreshAccessToken w
  = (mkWorld
       (mkService
          (mkDatabase
             (match settings_id s with
              | Some k =>
                  table_update k
                    (fun row =>
                       mergeSettings row
                         (mkPartialSettings None None
                            (Some (access_token data))
                            (Some (refresh_token data))
                            (Some (expires_at data * 1000)) None))
                    (db_settings (the_db w))
              | None => db_settings (the_db w)
              end)
             (db_settings_next (the_db w)) (db_activities (the_db w))
             (db_activityDetails (the_db w)) (db_athlete (the_db w)))
          (Some (refreshed s data)))
       r',
     Ok tt).
Proof.
  intros Hs Hrt Hrt' Hcid Hcid' Hcs Hcs' Hpost.
  unfold refreshAccessToken, await at 1. rewrite getSettings_eq, Hs.
  assert (Ht : truthy_string (refreshToken s) = true)
    by (apply truthy_usable; exists rt; auto).
  assert (Hi : truthy_string (clientId s) = true)
    by (apply truthy_usable; exists cid; auto).
  assert (Hc : truthy_string (clientSecret s) = true)
    by (apply truthy_usable; exists cs; auto).
  rewrite Ht, Hi, Hc. cbn [negb orb].
  rewrite Hrt, Hcid, Hcs. cbn [string_of].
  unfold await, fetchToken. cbn [remote setService].
  rewrite Hpost.
  rewrite (saveSettings_existing _ _ s).
  - reflexivity.
  - unfold currentSettings. reflexivity.
Qed.

(** X3.  A token that expires within five minutes is refreshed first:
    with a refresh token, client id and client secret at hand and a
    token endpoint that accepts the one refresh request,
    [ensureValidToken] returns the new access token, and the settings
    in memory carry the new access token, refresh token and expiry
    (seconds turned into milliseconds) with the client id, client
    secret and scope as they were; the other tables are not touched. *)
Theorem ensureValidToken_refresh (w : World Remote) (s : StravaSettings)
    (e : Z) (rt cid cs : string) (r' : Remote) (data : TokenResponse)
    (Hs : currentSettings w = Some s)
    (Htoken : usable (accessToken s))
    (Hexp : expiresAt s = Some e)
    (Hset : e <> 0)
    (Hsoon : e < now (remote w) + 300000)
    (Hrt : refreshToken s = Some rt) (Hrt' : rt <> EmptyString)
    (Hcid : clientId s = Some cid) (Hcid' : cid <> EmptyString)
    (Hcs : clientSecret s = Some cs) (Hcs' : cs <> EmptyString)
    (Hpost : postToken (remote w) (RefreshTokenGrant cid cs rt)
             = (r', Some data)) :
  let w' := fst (ensureValidToken w) in
  snd (ensureValidToken w) = Ok (Some (access_token data))
  /\ remote w' = r'
  /\ svc_settings (service w') = Some (refreshed s data)
  /\ db_activities (the_db w') = db_activities (the_db w)
  /\ db_activityDetails (the_db w') = db_activityDetails (the_db w)
  /\ db_athlete (the_db w') = db_athlete (the_db w).
Proof.
  cbn zeta. apply truthy_usable in Htoken.
  assert (Hexpired : tokenExpired s
                       (setService (mkService (the_db w) (Some s)) w) = true).
  { unfold tokenExpired. rewrite Hexp. cbn [remote setService].
    destruct (Z.eqb_spec e 0); [contradiction|].
    destruct (Z.ltb_spec e (now (remote w) + 5 * 60 * 1000)); [reflexivity|lia]. }
  enough (Heq : ensureValidToken w
                = (mkWorld
                     (mkService
                        (mkDatabase
                           (match settings_id s with
                            | Some k =>
                                table_update k
                                  (fun row =>
                                     mergeSettings row
                                       (mkPartialSettings None None
                                          (Some (access_token data))
                                          (Some (refresh_token data))
                                          (Some (expires_at data * 1000))
                                          None))
                                  (db_settings (the_db w))
                            | None => db_settings (the_db w)
                            end)
                           (db_settings_next (the_db w))
                           (db_activities (the_db w))
                           (db_activityDetails (the_db w))
                           (db_athlete (the_db w)))
                        (Some (refreshed s data)))
                     r',
                   Ok (Some (access_token data))))
    by (rewrite Heq; cbn; repeat split; reflexivity).
  unfold ensureValidToken, await at 1. rewrite getSettings_eq, Hs.
  rewrite Htoken. cbn [negb].
  rewrite Hexpired. unfold await at 1.
  rewrite (refreshAccessToken_ok _ s rt cid cs r' data); auto.
Qed.

(** X4.  When the token has to be refreshed and the refresh token, the
    client id or the client secret is missing or empty, the call
    throws before any request is sent; when the token endpoint turns
    the refresh down, the call throws after that one request.  In both
    cases the stored settings keep the old token. *)
Theorem ensureValidToken_refresh_fails (w : World Remote) (s : StravaSettings)
    (e : Z)
    (Hs : currentSettings w = Some s)
    (Htoken : usable (accessToken s))
    (Hexp : expiresAt s = Some e)
    (Hset : e <> 0)
    (Hsoon : e < now (remote w) + 300000) :
  let w' := fst (ensureValidToken w) in
  (~ (usable (refreshToken s) /\ usable (clientId s)
      /\ usable (clientSecret s)) ->
   snd (ensureValidToken w)
   = Err "Missing refresh token or client credentials"
   /\ remote w' = remote w
   /\ the_db w' = the_db w
   /\ svc_settings (service w') = Some s)
  /\ (usable (refreshToken s) -> usable (clientId s) ->
      usable (clientSecret s) ->
      snd (postToken (remote w)
             (RefreshTokenGrant (string_of (clientId s))
                (string_of (clientSecret s))
                (string_of (refreshToken s)))) = None ->
      snd (ensureValidToken w) = Err "Failed to refresh token"
      /\ remote w'
         = fst (postToken (remote w)
                  (RefreshTokenGrant (string_of (clientId s))
                     (string_of (clientSecret s))
                     (string_of (refreshToken s))))
      /\ the_db w' = the_db w
      /\ svc_settings (service w') = Some s).
Proof.
  cbn zeta. apply truthy_usable in Htoken.
  assert (Hexpired : tokenExpired s
                       (setService (mkService (the_db w) (Some s)) w) = true).
  { unfold tokenExpired. rewrite Hexp. cbn [remote setService].
    destruct (Z.eqb_spec e 0); [contradiction|].
    destruct (Z.ltb_spec e (now (remote w) + 5 * 60 * 1000)); [reflexivity|lia]. }
  assert (Hunfold :
    ensureValidToken w
    = (refreshAccessToken ;;;
       updatedSettings <- getSettings ;;
       match updatedSettings with
       | Some u => resolve (accessToken u)
       | None => throw "TypeError"
       end)%async (setService (mkService (the_db w) (Some s)) w)).
  { unfold ensureValidToken, await at 1. rewrite getSettings_eq, Hs.
    rewrite Htoken. cbn [negb]. rewrite Hexpired. reflexivity. }
  assert (Hcur : currentSettings
                   (setService (mkService (the_db w) (Some s)) w) = Some s)
    by reflexivity.
  split.
  - intros Hmissing.
    assert (Hor : negb (truthy_string (refreshToken s))
                  || negb (truthy_string (clientId s))
                  || negb (truthy_string (clientSecret s)) = true).
    { destruct (truthy_string (refreshToken s)) eqn:H1;
        destruct (truthy_string (clientId s)) eqn:H2;
        destruct (truthy_string (clientSecret s)) eqn:H3;
        try reflexivity.
      exfalso. apply Hmissing. rewrite <- !truthy_usable. auto. }
    enough (Heq : ensureValidToken w
                  = (setService (mkService (the_db w) (Some s)) w,
                     Err "Missing refresh token or client credentials"))
      by (rewrite Heq; cbn; repeat split; reflexivity).
    rewrite Hunfold. unfold await at 1.
    unfold refreshAccessToken, await at 1.
    rewrite getSettings_eq, Hcur, Hor. reflexivity.
  - intros H1 H2 H3 Hpost.
    apply truthy_usable in H1. apply truthy_usable in H2.
    apply truthy_usable in H3.
    destruct (postToken (remote w)
                (RefreshTokenGrant (string_of (clientId s))
                   (string_of (clientSecret s))
                   (string_of (refreshToken s)))) as [r' response] eqn:Hp.
    cbn [snd fst] in Hpost |- *. subst response.
    enough (Heq : ensureValidToken w
                  = (mkWorld (mkService (the_db w) (Some s)) r',
                     Err "Failed to refresh token"))
      by (rewrite Heq; cbn; repeat split; reflexivity).
    rewrite Hunfold. unfold await at 1.
    unfold refreshAccessToken, await at 1.
    rewrite getSettings_eq, Hcur, H1, H2, H3. cbn [negb orb].
    unfold await, fetchToken. cbn [remote setService].
    rewrite Hp. reflexivity.
Qed.

(** *** The copy of the settings in memory *)

Lemma settings_keyed_update (k : Z) (p : PartialSettings)
    (rows : Table StravaSettings) :
  settings_keyed rows ->
  settings_keyed (table_update k (fun row => mergeSettings row p) rows).
Proof.
  unfold settings_keyed, table_update. intros H.
  apply Forall_map. eapply Forall_impl; [|exact H].
  intros [k' r] Hr. cbn in Hr |- *.
  destruct (k' =? k); cbn; exact Hr.
Qed.

Lemma table_first_update (k : Z) (p : PartialSettings)
    (rows : Table StravaSettings) (s : StravaSettings) :
  settings_keyed rows -> table_first rows = Some s ->
  settings_id s = Some k ->
  table_first (table_update k (fun row => mergeSettings row p) rows)
  = Some (mergeSettings s p).
Proof.
  intros Hkeyed Hfirst Hid. destruct rows as [|[k' r] rest]; [discriminate|].
  cbn in Hfirst. inversion Hfirst; subst r.
  inversion Hkeyed as [|? ? Hrow _]; subst. cbn in Hrow.
  rewrite Hid in Hrow. inversion Hrow; subst k'.
  cbn. rewrite Z.eqb_refl. reflexivity.
Qed.

Lemma coherent_getSettings :
  preserves (fun w : World Remote => coherent (service w)) getSettings.
Proof.
  intros w [Hkeyed Hfirst]. rewrite getSettings_eq. cbn.
  split; [exact Hkeyed|]. cbn. intros s Hs.
  unfold currentSettings in Hs.
  destruct (svc_settings (service w)) as [c|] eqn:Hc.
  - inversion Hs; subst. apply Hfirst. reflexivity.
  - exact Hs.
Qed.

Lemma coherent_saveSettings (p : PartialSettings) :
  preserves (fun w : World Remote => coherent (service w)) (saveSettings p).
Proof.
  intros w [Hkeyed Hfirst].
  assert (Hcur : forall s, currentSettings w = Some s ->
                           table_first (db_settings (the_db w)) = Some s).
  { intros s Hs. unfold currentSettings in Hs.
    destruct (svc_settings (service w)) as [c|] eqn:Hc; [|exact Hs].
    inversion Hs; subst. apply Hfirst. reflexivity. }
  destruct (currentSettings w) as [s|] eqn:Hs.
  - rewrite (saveSettings_existing w p s Hs). cbn.
    specialize (Hcur s eq_refl).
    assert (Hid : exists k, settings_id s = Some k).
    { unfold the_db in Hcur.
      destruct (db_settings (svc_db (service w))) as [|[k r] rest];
        [discriminate|].
      cbn in Hcur. inversion Hcur; subst r.
      inversion Hkeyed as [|? ? Hrow _]; subst. exists k. exact Hrow. }
    destruct Hid as [k Hid]. rewrite Hid. split; cbn.
    + apply settings_keyed_update. exact Hkeyed.
    + intros s' Hs'. inversion Hs'; subst s'.
      apply table_first_update; assumption.
  - rewrite (saveSettings_first w p Hs). cbn.
    assert (Hempty : db_settings (the_db w) = []).
    { unfold currentSettings in Hs.
      destruct (svc_settings (service w)); [discriminate|].
      destruct (db_settings (the_db w)) as [|[k r] rest];
        [reflexivity|discriminate]. }
    rewrite Hempty. split; cbn.
    + repeat constructor.
    + intros s' Hs'. inversion Hs'; reflexivity.
Qed.

Lemma coherent_fetchToken (request : TokenRequest) :
  preserves (fun w : World Remote => coherent (service w))
            (fetchToken request).
Proof.
  intros w Hw. unfold fetchToken.
  destruct (postToken (remote w) request). exact Hw.
Qed.

Lemma coherent_refreshAccessToken :
  preserves (fun w : World Remote => coherent (service w)) refreshAccessToken.
Proof.
  unfold refreshAccessToken.
  apply preserves_await; [apply coherent_getSettings|].
  intros [s|]; [|apply preserves_throw].
  destruct (negb (truthy_string (refreshToken s))
            || negb (truthy_string (clientId s))
            || negb (truthy_string (clientSecret s)));
    [apply preserves_throw|].
  apply preserves_await; [apply coherent_fetchToken|].
  intros [data|]; [apply coherent_saveSettings|apply preserves_throw].
Qed.

(** X5.  The copy of the settings that the service keeps in memory is
    always the first stored row: if that holds (and every stored row
    carries its key as id) before [saveSettings],
    [exchangeCodeForToken], [refreshAccessToken], [ensureValidToken]
    or [logout], it holds after, whether the call succeeds or
    throws. *)
Theorem settings_stay_coherent (p : PartialSettings)
    (code cid cs : string) :
  let I := fun w : World Remote => coherent (service w) in
  preserves I (saveSettings p)
  /\ preserves I (exchangeCodeForToken code cid cs)
  /\ preserves I refreshAccessToken
  /\ preserves I ensureValidToken
  /\ preserves I logout.
Proof.
  cbn zeta. split; [apply coherent_saveSettings|].
  split; [|split; [apply coherent_refreshAccessToken|split]].
  - unfold exchangeCodeForToken.
    apply preserves_await; [apply coherent_fetchToken|].
    intros [data|]; [apply coherent_saveSettings|apply preserves_throw].
  - unfold ensureValidToken.
    apply preserves_await; [apply coherent_getSettings|].
    intros [s|]; [|apply preserves_throw].
    destruct (negb (truthy_string (accessToken s)));
      [apply preserves_throw|].
    intros w Hw. destruct (tokenExpired s w); [|exact Hw].
    refine (preserves_await (fun w : World Remote => coherent (service w))
              _ _ coherent_refreshAccessToken _ w Hw).
    intros _. apply preserves_await; [apply coherent_getSettings|].
    intros [u|]; [apply preserves_resolve|apply preserves_throw].
  - intros w Hw. unfold logout, await, clearCache. cbn.
    split; cbn; [constructor|discriminate].
Qed.

End Credentials.

(** ** Activity details *)

Section Details.

Context {Remote : Type} {api : Api Remote}.

(** The token machinery only writes to the settings. *)
Lemma frame_getSettings (T : _) :
  preserves (fun w : World Remote => dataTables w = T) getSettings.
Proof.
  intros w Hw. rewrite getSettings_eq. exact Hw.
Qed.

Lemma frame_saveSettings (T : _) (p : PartialSettings) :
  preserves (fun w : World Remote => dataTables w = T) (saveSettings p).
Proof.
  intros w Hw. destruct (currentSettings w) as [s|] eqn:Hs.
  - rewrite (saveSettings_existing w p s Hs). exact Hw.
  - rewrite (saveSettings_first w p Hs). exact Hw.
Qed.

Lemma frame_fetchToken (T : _) (request : TokenRequest) :
  preserves (fun w : World Remote => dataTables w = T) (fetchToken request).
Proof.
  intros w Hw. unfold fetchToken.
  destruct (postToken (remote w) request). exact Hw.
Qed.

Lemma frame_refreshAccessToken (T : _) :
  preserves (fun w : World Remote => dataTables w = T) refreshAccessToken.
Proof.
  unfold refreshAccessToken.
  apply preserves_await; [apply frame_getSettings|].
  intros [s|]; [|apply preserves_throw].
  destruct (negb (truthy_string (refreshToken s))
            || negb (truthy_string (clientId s))
            || negb (truthy_string (clientSecret s)));
    [apply preserves_throw|].
  apply preserves_await; [apply frame_fetchToken|].
  intros [data|]; [apply frame_saveSettings|apply preserves_throw].
Qed.

Lemma frame_ensureValidToken (T : _) :
  preserves (fun w : World Remote => dataTables w = T) ensureValidToken.
Proof.
  unfold ensureValidToken.
  apply preserves_await; [apply frame_getSettings|].
  intros [s|]; [|apply preserves_throw].
  destruct (negb (truthy_string (accessToken s)));
    [apply preserves_throw|].
  intros w Hw. destruct (tokenExpired s w); [|exact Hw].
  refine (preserves_await (fun w : World Remote => dataTables w = T)
            _ _ (frame_refreshAccessToken T) _ w Hw).
  intros _. apply preserves_await; [apply frame_getSettings|].
  intros [u|]; [apply preserves_resolve|apply preserves_throw].
Qed.

Lemma frame_makeAuthenticatedRequest (T : _) {A : Type}
    (request : Remote -> string -> Remote * option A) :
  preserves (fun w : World Remote => dataTables w = T)
            (makeAuthenticatedRequest request).
Proof.
  unfold makeAuthenticatedRequest.
  apply preserves_await; [apply frame_ensureValidToken|].
  intros token w Hw. destruct (request (remote w) (string_of token)).
  exact Hw.
Qed.

Lemma frame_getActivityStreams (T : _) (activityId : Z) :
  preserves (fun w : World Remote => dataTables w = T)
            (getActivityStreams activityId).
Proof.
  unfold getActivityStreams.
  apply preserves_await; [apply frame_makeAuthenticatedRequest|].
  intros [streamsData|]; [apply preserves_resolve|apply preserves_throw].
Qed.

Lemma details_keyed_put (d : ActivityDetail) (t : Table ActivityDetail) :
  details_keyed t -> details_keyed (table_put (id d) d t).
Proof.
  intros Ht k d' Hget. destruct (Z.eq_dec k (id d)) as [->|Hne].
  - rewrite table_get_put_same in Hget. inversion Hget; reflexivity.
  - rewrite table_get_put_other in Hget by exact Hne. apply Ht, Hget.
Qed.

Lemma completeDetail_Some (activityId : Z) (w : World Remote)
    (d : ActivityDetail) :
  completeDetail activityId w = Some d
  <-> table_get activityId (details w) = Some d /\ streams d <> None.
Proof.
  unfold completeDetail, details.
  destruct (table_get activityId (db_activityDetails (the_db w))) as [c|].
  - destruct (streams c) eqn:Hs; split.
    + intros H. inversion H; subst. split; [reflexivity|congruence].
    + intros [H _]. exact H.
    + discriminate.
    + intros [H Hd]. inversion H; subst. congruence.
  - split; [discriminate|]. intros [H _]. discriminate.
Qed.

(** The steps of [getActivityDetail] after a cache miss and an accepted
    detail request. *)
Lemma getActivityDetail_miss (activityId : Z) (w w1 : World Remote)
    (body : ActivityDetail) :
  completeDetail activityId w = None ->
  makeAuthenticatedRequest (fun r token => getDetail r token activityId) w
  = (w1, Ok (Some body)) ->
  let w2 := fst (getActivityStreams activityId w1) in
  let withStreams :=
    match snd (getActivityStreams activityId w1) with
    | Ok s => mkActivityDetail (id body) (start_date_local body) (Some s)
    | Err _ => body
    end in
  getActivityDetail activityId w
  = (fst (putDetail withStreams w2), Ok withStreams).
Proof.
  intros Hmiss Hreq. cbn zeta.
  unfold getActivityDetail. rewrite Hmiss.
  unfold await, try_catch. rewrite Hreq.
  destruct (getActivityStreams activityId w1) as [w2 [s|message]];
    reflexivity.
Qed.

Lemma makeAuthenticatedRequest_response {A : Type}
    (request : Remote -> string -> Remote * option A)
    (w w1 : World Remote) (response : option A) :
  makeAuthenticatedRequest request w = (w1, Ok response) ->
  exists r token, request r token = (remote w1, response).
Proof.
  unfold makeAuthenticatedRequest, await.
  destruct (ensureValidToken w) as [w0 [token|message]]; [|discriminate].
  destruct (request (remote w0) (string_of token)) as [r' resp] eqn:Hreq.
  intros H. inversion H; subst. exists (remote w0), (string_of token).
  exact Hreq.
Qed.

(** The three ways a call to [getActivityDetail] can go: served from
    the cache; failed before anything was cached; or fetched, with the
    detail written to the cache after the token and stream steps, which
    leave the data tables alone. *)
Lemma getActivityDetail_cases (activityId : Z) (w : World Remote) :
  (exists c,
     completeDetail activityId w = Some c
     /\ getActivityDetail activityId w = (w, Ok c))
  \/ (completeDetail activityId w = None
      /\ (exists message,
            snd (getActivityDetail activityId w) = Err message)
      /\ dataTables (fst (getActivityDetail activityId w)) = dataTables w)
  \/ (completeDetail activityId w = None
      /\ exists w2 d body r token r',
           dataTables w2 = dataTables w
           /\ getActivityDetail activityId w = (fst (putDetail d w2), Ok d)
           /\ getDetail r token activityId = (r', Some body)
           /\ id d = id body
           /\ (streams d = streams body
               \/ exists m, snd (getActivityStreams activityId
                                   (fst (makeAuthenticatedRequest
                                           (fun r token =>
                                              getDetail r token activityId)
                                           w))) = Ok m
                            /\ streams d = Some m)).
Proof.
  destruct (completeDetail activityId w) as [c|] eqn:Hc.
  - left. exists c. split; [reflexivity|].
    unfold getActivityDetail. rewrite Hc. reflexivity.
  - right.
    pose proof (frame_makeAuthenticatedRequest (dataTables w)
                  (fun r token => getDetail r token activityId) w eq_refl)
      as Hframe1.
    destruct (makeAuthenticatedRequest
                (fun r token => getDetail r token activityId) w)
      as [w1 [[body|]|message]] eqn:Hreq; cbn [fst] in Hframe1.
    + right. split; [reflexivity|].
      pose proof (frame_getActivityStreams (dataTables w) activityId w1
                    Hframe1) as Hframe2.
      destruct (makeAuthenticatedRequest_response _ _ _ _ Hreq)
        as [r [token Hresp]].
      pose proof (getActivityDetail_miss activityId w w1 body Hc Hreq)
        as Hmiss.
      cbn zeta in Hmiss. cbn [fst].
      destruct (getActivityStreams activityId w1) as [w2 [m|message]];
        cbn [fst snd] in Hmiss, Hframe2 |- *.
      * exists w2, (mkActivityDetail (id body) (start_date_local body)
                      (Some m)), body, r, token, (remote w1).
        repeat split; try assumption.
        right. exists m. split; reflexivity.
      * exists w2, body, body, r, token, (remote w1).
        repeat split; try assumption.
        left. reflexivity.
    + left. split; [reflexivity|].
      unfold getActivityDetail. rewrite Hc. unfold await. rewrite Hreq.
      cbn. split; [eexists; reflexivity|exact Hframe1].
    + left. split; [reflexivity|].
      unfold getActivityDetail. rewrite Hc. unfold await. rewrite Hreq.
      cbn. split; [eexists; reflexivity|exact Hframe1].
Qed.

Lemma details_putDetail (d : ActivityDetail) (w2 : World Remote) :
  details (fst (putDetail d w2)) = table_put (id d) d (details w2)
  /\ db_activities (the_db (fst (putDetail d w2)))
     = db_activities (the_db w2)
  /\ db_athlete (the_db (fst (putDetail d w2))) = db_athlete (the_db w2).
Proof.
  unfold putDetail, details. cbn. repeat split; reflexivity.
Qed.

Lemma dataTables_eq (w1 w2 : World Remote) :
  dataTables w1 = dataTables w2 ->
  db_activities (the_db w1) = db_activities (the_db w2)
  /\ details w1 = details w2
  /\ db_athlete (the_db w1) = db_athlete (the_db w2).
Proof.
  unfold dataTables, details. intros H. inversion H. repeat split; assumption.
Qed.

(** X6.  When every cached detail is stored under its own id, a
    successful [getActivityDetail] leaves the detail it returns in
    the cache under its id, changes no other cached detail and no
    other data table, and keeps the cache keyed by id; a failed one
    leaves the data tables as they were. *)
Theorem getActivityDetail_write_through (activityId : Z) (w : World Remote)
    (Hkeyed : details_keyed (details w)) :
  let w' := fst (getActivityDetail activityId w) in
  match snd (getActivityDetail activityId w) with
  | Ok d =>
      table_get (id d) (details w') = Some d
      /\ (forall j, j <> id d ->
                    table_get j (details w') = table_get j (details w))
      /\ db_activities (the_db w') = db_activities (the_db w)
      /\ db_athlete (the_db w') = db_athlete (the_db w)
      /\ details_keyed (details w')
  | Err _ => dataTables w' = dataTables w
  end.
Proof.
  cbn zeta.
  destruct (getActivityDetail_cases activityId w)
    as [[c [Hc Heq]]|[[_ [[m Hm] Hframe]]|[_ Hfetched]]].
  - rewrite Heq. cbn [fst snd].
    apply completeDetail_Some in Hc. destruct Hc as [Hget _].
    rewrite (Hkeyed _ _ Hget). repeat split; auto.
  - rewrite Hm. exact Hframe.
  - destruct Hfetched as [w2 [d [body [r [token [r' [Hframe [Heq _]]]]]]]].
    rewrite Heq. cbn [fst snd].
    destruct (details_putDetail d w2) as [Hd [Ha Hath]].
    destruct (dataTables_eq _ _ Hframe) as [Ha2 [Hd2 Hath2]].
    rewrite Hd, Ha, Hath, Hd2, Ha2, Hath2. repeat split.
    + apply table_get_put_same.
    + intros j Hj. apply table_get_put_other. exact Hj.
    + apply details_keyed_put. exact Hkeyed.
Qed.

(** X7.  A detail that came back with streams, under the id asked for,
    satisfies the next request for that id: the second call returns
    the same detail and leaves the world, the remote side included, as
    it is. *)
Theorem getActivityDetail_twice (activityId : Z) (w w1 : World Remote)
    (d : ActivityDetail)
    (Hcall : getActivityDetail activityId w = (w1, Ok d))
    (Hstreams : streams d <> None)
    (Hid : id d = activityId) :
  getActivityDetail activityId w1 = (w1, Ok d).
Proof.
  assert (Hhit : completeDetail activityId w1 = Some d).
  { destruct (getActivityDetail_cases activityId w)
      as [[c [Hc Heq]]|[[_ [[m Hm] _]]|[_ Hfetched]]].
    - rewrite Heq in Hcall. inversion Hcall; subst. exact Hc.
    - rewrite Hcall in Hm. discriminate.
    - destruct Hfetched as [w2 [d' [body [r [token [r' [_ [Heq _]]]]]]]].
      rewrite Heq in Hcall. inversion Hcall; subst.
      apply completeDetail_Some. split; [|exact Hstreams].
      unfold details, setDb, the_db. cbn. apply table_get_put_same. }
  unfold getActivityDetail. rewrite Hhit. reflexivity.
Qed.

(** X8.  When the detail request succeeds and the stream request then
    fails, the call still resolves, with the detail as the server sent
    it, and caches it; if that detail has no streams, the cached copy
    does not satisfy the next request for its id, which goes to the
    server again. *)
Theorem getActivityDetail_without_streams (activityId : Z)
    (w w1 : World Remote) (body : ActivityDetail) (message : string)
    (Hmiss : completeDetail activityId w = None)
    (Hdetail : makeAuthenticatedRequest
                 (fun r token => getDetail r token activityId) w
               = (w1, Ok (Some body)))
    (Hfail : snd (getActivityStreams activityId w1) = Err message) :
  let w' := fst (getActivityDetail activityId w) in
  snd (getActivityDetail activityId w) = Ok body
  /\ table_get (id body) (details w') = Some body
  /\ (streams body = None -> completeDetail (id body) w' = None).
Proof.
  cbn zeta.
  rewrite (getActivityDetail_miss activityId w w1 body Hmiss Hdetail).
  cbn zeta. rewrite Hfail. cbn [fst snd].
  destruct (details_putDetail body (fst (getActivityStreams activityId w1)))
    as [Hd _].
  assert (Hget : table_get (id body)
                   (details (fst (putDetail body
                                    (fst (getActivityStreams activityId w1)))))
                 = Some body)
    by (rewrite Hd; apply table_get_put_same).
  split; [reflexivity|]. split; [exact Hget|].
  intros Hnone. unfold completeDetail. fold (details
    (fst (putDetail body (fst (getActivityStreams activityId w1))))).
  rewrite Hget, Hnone. reflexivity.
Qed.

(** X9.  [clearActivityDetailCache] with an id other than 0 removes
    that detail and no other; with the id 0, or without an id, it
    empties the cache.  It touches nothing else. *)
Theorem clearActivityDetailCache_scope (activityId : option Z)
    (w : World Remote) :
  let w' := fst (clearActivityDetailCache activityId w) in
  (forall k, activityId = Some k -> k <> 0 ->
     table_get k (details w') = None
     /\ forall j, j <> k -> table_get j (details w') = table_get j (details w))
  /\ (activityId = None \/ activityId = Some 0 -> details w' = [])
  /\ db_activities (the_db w') = db_activities (the_db w)
  /\ db_athlete (the_db w') = db_athlete (the_db w)
  /\ db_settings (the_db w') = db_settings (the_db w)
  /\ svc_settings (service w') = svc_settings (service w)
  /\ remote w' = remote w.
Proof.
  cbn zeta. unfold clearActivityDetailCache, details. cbn.
  split; [|split; [|repeat split; reflexivity]].
  - intros k Hk Hnz. subst activityId. cbn.
    destruct (Z.eqb_spec k 0); [contradiction|]. cbn. split.
    + apply table_get_delete_same.
    + intros j Hj. apply table_get_delete_other. exact Hj.
  - intros [H|H]; subst activityId; reflexivity.
Qed.

(** X10.  A forced refresh never answers from the cache.  For an
    activity id other than 0: when it succeeds, the detail is the one
    the server sent for that id; when it fails, the cache no longer
    holds a detail for that id, while every other cached detail is
    kept. *)
Theorem forced_refresh (activityId : Z) (w : World Remote)
    (Hid : activityId <> 0) :
  let w' := fst (loadActivityDetail activityId true w) in
  match snd (loadActivityDetail activityId true w) with
  | Ok d =>
      exists r token r' body,
        getDetail r token activityId = (r', Some body) /\ id d = id body
  | Err _ =>
      table_get activityId (details w') = None
      /\ forall j, j <> activityId ->
                   table_get j (details w') = table_get j (details w)
  end.
Proof.
  cbn zeta. unfold loadActivityDetail, await.
  destruct (clearActivityDetailCache (Some activityId) w) as [w0 res] eqn:Hclear.
  assert (Hres : res = Ok tt).
  { unfold clearActivityDetailCache in Hclear. inversion Hclear. reflexivity. }
  subst res.
  assert (Hgone : table_get activityId (details w0) = None
                  /\ forall j, j <> activityId ->
                       table_get j (details w0) = table_get j (details w)).
  { unfold clearActivityDetailCache in Hclear. inversion Hclear; subst w0.
    unfold details. cbn. destruct (Z.eqb_spec activityId 0); [contradiction|].
    cbn. split.
    - apply table_get_delete_same.
    - intros j Hj. apply table_get_delete_other. exact Hj. }
  destruct Hgone as [Hgone Hothers].
  destruct (getActivityDetail_cases activityId w0)
    as [[c [Hc _]]|[[_ [[m Hm] Hframe]]|[_ Hfetched]]].
  - apply completeDetail_Some in Hc. destruct Hc as [Hc _].
    rewrite Hgone in Hc. discriminate.
  - rewrite Hm. destruct (dataTables_eq _ _ Hframe) as [_ [Hd _]].
    rewrite Hd. split; assumption.
  - destruct Hfetched
      as [w2 [d [body [r [token [r' [_ [Heq [Hbody [Hidd _]]]]]]]]]].
    rewrite Heq. cbn [snd]. exists r, token, r', body. split; assumption.
Qed.

(** One awaited detail request, as the bulk backfill sees it. *)
Lemma awaitActivityDetail_step (activityId : Z) (w : World Remote) :
  answers_by_id api -> details_keyed (details w) ->
  let w' := fst (awaitActivityDetail w activityId) in
  details_keyed (details w')
  /\ (forall k, table_get k (details w) <> None ->
                table_get k (details w') <> None)
  /\ (forall d, snd (awaitActivityDetail w activityId) = Some d ->
                table_get activityId (details w') = Some d).
Proof.
  intros Hserver Hkeyed. cbn zeta. unfold awaitActivityDetail, settled.
  destruct (getActivityDetail_cases activityId w)
    as [[c [Hc Heq]]|[[_ [[m Hm] Hframe]]|[_ Hfetched]]].
  - rewrite Heq. cbn [fst snd]. split; [exact Hkeyed|].
    split; [auto|]. intros d Hd. inversion Hd; subst.
    apply completeDetail_Some in Hc. apply Hc.
  - destruct (getActivityDetail activityId w) as [w' res].
    cbn [fst snd] in Hm, Hframe. subst res. cbn [fst snd].
    destruct (dataTables_eq _ _ Hframe) as [_ [Hd _]]. rewrite Hd.
    split; [exact Hkeyed|]. split; [auto|discriminate].
  - destruct Hfetched
      as [w2 [d [body [r [token [r' [Hframe [Heq [Hbody [Hidd _]]]]]]]]]].
    rewrite Heq. cbn [fst snd].
    destruct (details_putDetail d w2) as [Hd _].
    destruct (dataTables_eq _ _ Hframe) as [_ [Hd2 _]].
    rewrite Hd, Hd2.
    assert (Hdid : id d = activityId)
      by (rewrite Hidd; apply (Hserver _ _ _ _ _ Hbody)).
    split; [apply details_keyed_put; exact Hkeyed|]. split.
    + intros k Hk. destruct (Z.eq_dec k (id d)) as [->|Hne].
      * rewrite table_get_put_same. discriminate.
      * rewrite table_get_put_other by exact Hne. exact Hk.
    + intros d' Hd'. inversion Hd'; subst d'. rewrite <- Hdid.
      apply table_get_put_same.
Qed.

Lemma backfillLoop_cache (acts : list StravaActivity) :
  answers_by_id api ->
  forall n i s,
    details_keyed (details (world s)) ->
    let s' := backfillLoop (World Remote) awaitActivityDetail n i acts s in
    details_keyed (details (world s'))
    /\ (forall e, In e (events s) -> In e (events s'))
    /\ (forall k, table_get k (details (world s)) <> None ->
                  table_get k (details (world s')) <> None)
    /\ (forall a, In a acts ->
                  In (ConsoleError (act_id a)) (events s')
                  \/ table_get (act_id a) (details (world s')) <> None).
Proof.
  intros Hserver. induction acts as [|a rest IH]; intros n i s Hkeyed;
    cbn zeta.
  - cbn [backfillLoop]. repeat split; auto.
  - cbn [backfillLoop].
    destruct (awaitActivityDetail_step (act_id a) (world s) Hserver Hkeyed)
      as [Hk' [Hkeep Hstored]].
    destruct (awaitActivityDetail (world s) (act_id a)) as [w' fetched].
    cbn [fst snd] in Hk', Hkeep, Hstored.
    match goal with
    | |- context [backfillLoop _ _ _ _ _ ?s1] =>
        assert (Hw1 : world s1 = w') by (destruct fetched; reflexivity);
        assert (Hev : forall e, In e (events s) -> In e (events s1))
          by (intros e He; destruct fetched; [destruct (i <? n - 1)|];
              cbn [events]; repeat (apply in_or_app; left); exact He);
        assert (Hcur : In (ConsoleError (act_id a)) (events s1)
                       \/ table_get (act_id a) (details (world s1)) <> None)
          by (destruct fetched as [d|];
              [right; cbn [world]; rewrite (Hstored d eq_refl); discriminate
              |left; cbn [events]; apply in_or_app; right; left; reflexivity]);
        specialize (IH n (i + 1) s1)
    end.
    rewrite Hw1 in IH, Hcur. specialize (IH Hk').
    cbn zeta in IH. destruct IH as [IHk [IHev [IHkeep IHacts]]].
    split; [exact IHk|]. split; [auto|]. split; [auto|].
    intros b [Hb|Hb].
    + subst b. destruct Hcur as [Hc|Hc]; [left; apply IHev, Hc|].
      right. apply IHkeep, Hc.
    + apply IHacts, Hb.
Qed.

(** X11.  The bulk backfill over the real service: when the cache is
    keyed by id and the server answers each detail request with the
    activity asked for, then after the run every activity processed
    either has a detail in the cache or had its failure logged. *)
Theorem backfill_fills_cache
    (filteredActivities activities : list StravaActivity) (w : World Remote)
    (Hserver : answers_by_id api)
    (Hkeyed : details_keyed (details w)) :
  let activitiesToProcess :=
    if 0 <? Z.of_nat (List.length filteredActivities)
    then filteredActivities else activities in
  let run := fetchAllStreamData (World Remote) awaitActivityDetail true false
               filteredActivities activities w in
  forall a, In a activitiesToProcess ->
    In (ConsoleError (act_id a)) (snd run)
    \/ table_get (act_id a) (details (fst run)) <> None.
Proof.
  cbn zeta. intros a Ha. unfold fetchAllStreamData. cbn [negb orb fst snd].
  match goal with
  | |- context [backfillLoop _ _ ?n ?i ?acts ?s0] =>
      destruct (backfillLoop_cache acts Hserver n i s0 Hkeyed)
        as [_ [_ [_ Hacts]]]
  end.
  destruct (Hacts a Ha) as [H|H].
  - left. apply in_or_app. left. exact H.
  - right. exact H.
Qed.

End Details.

(** ** Streams *)

Lemma setStream_heartrate_other (k : string) (data : list Z) (s : StreamData) :
  k <> "heartrate"%string -> heartrate (setStream k data s) = heartrate s.
Proof.
  intros Hk. unfold setStream.
  destruct (String.eqb_spec k "time"); [reflexivity|].
  destruct (String.eqb_spec k "heartrate"); [contradiction|reflexivity].
Qed.

Lemma setStream_heartrate_same (data : list Z) (s : StreamData) :
  heartrate (setStream "heartrate" data s) = Some data.
Proof. reflexivity. Qed.

Lemma unpack_from_no_heartrate (env : StreamsEnvelope) : forall acc,
  (forall data, ~ In ("heartrate"%string, Some data) env) ->
  heartrate
    (fold_left
       (fun streams entry =>
          match snd entry with
          | Some data => setStream (fst entry) data streams
          | None => streams
          end) env acc)
  = heartrate acc.
Proof.
  induction env as [|[k v] rest IH]; intros acc Hno; cbn [fold_left];
    [reflexivity|].
  rewrite IH by (intros data Hin; apply (Hno data); right; exact Hin).
  cbn [fst snd]. destruct v as [data|]; [|reflexivity].
  apply setStream_heartrate_other. intros Hk. subst k.
  apply (Hno data). left. reflexivity.
Qed.

Lemma unpack_from_heartrate (env : StreamsEnvelope) : forall acc data,
  NoDup (map fst env) -> In ("heartrate"%string, Some data) env ->
  heartrate
    (fold_left
       (fun streams entry =>
          match snd entry with
          | Some data => setStream (fst entry) data streams
          | None => streams
          end) env acc)
  = Some data.
Proof.
  induction env as [|[k v] rest IH]; intros acc data Hnodup Hin;
    [destruct Hin|].
  cbn [map fst] in Hnodup. inversion Hnodup as [|? ? Hnotin Hrest]; subst.
  cbn [fold_left fst snd]. destruct Hin as [Heq|Hin].
  - inversion Heq; subst k v.
    rewrite unpack_from_no_heartrate; [reflexivity|].
    intros d Hd. apply Hnotin. apply (in_map fst) in Hd. exact Hd.
  - apply IH; assumption.
Qed.

(** X12.  What the stream response gives the analytics.  When a
    detail is not in the cache with streams, and its detail and stream
    requests both succeed, [getActivityDetail] resolves with the
    detail carrying the unpacked streams, and caches it as a complete
    detail: the next request for it is served from the cache.  With
    the keys of the stream response distinct, a [heartrate] entry with
    data becomes the heart-rate stream the analytics read.  Without
    such an entry the detail has no heart-rate stream: relative effort
    is null and the zone distribution is empty, whatever the
    athlete. *)
Theorem unpackStreams_heartrate {Remote : Type} {api : Api Remote}
    (activityId : Z) (w w1 w2 : World Remote) (body : ActivityDetail)
    (streamsData : StreamsEnvelope)
    (Hmiss : completeDetail activityId w = None)
    (Hdetail : makeAuthenticatedRequest
                 (fun r token => getDetail r token activityId) w
               = (w1, Ok (Some body)))
    (Hstreams : makeAuthenticatedRequest
                  (fun r token => getStreams r token activityId) w1
                = (w2, Ok (Some streamsData))) :
  let d := mkActivityDetail (id body) (start_date_local body)
             (Some (unpackStreams streamsData)) in
  let w' := fst (getActivityDetail activityId w) in
  snd (getActivityDetail activityId w) = Ok d
  /\ completeDetail (id d) w' = Some d
  /\ getActivityDetail (id d) w' = (w', Ok d)
  /\ (forall data,
        NoDup (map fst streamsData) ->
        In ("heartrate"%string, Some data) streamsData ->
        heartrate_of (Some d) = Some data)
  /\ ((forall data, ~ In ("heartrate"%string, Some data) streamsData) ->
      forall (currentYear : Z) (athlete : option StravaAthlete),
        calculateRelativeEffortPoints currentYear (Some d) athlete = None
        /\ getHeartRateZoneDistribution currentYear (Some d) athlete = []).
Proof.
  cbn zeta.
  pose proof (getActivityDetail_miss activityId w w1 body Hmiss Hdetail)
    as Hrun.
  cbn zeta in Hrun.
  assert (Hs : getActivityStreams activityId w1
               = (w2, Ok (unpackStreams streamsData))).
  { unfold getActivityStreams, await. rewrite Hstreams. reflexivity. }
  rewrite Hs in Hrun. cbn [fst snd] in Hrun. rewrite Hrun. cbn [fst snd].
  set (d := mkActivityDetail (id body) (start_date_local body)
              (Some (unpackStreams streamsData))).
  assert (Hhit : completeDetail (id d) (fst (putDetail d w2)) = Some d).
  { unfold completeDetail. fold (details (fst (putDetail d w2))).
    rewrite (proj1 (details_putDetail d w2)), table_get_put_same.
    reflexivity. }
  split; [reflexivity|]. split; [exact Hhit|].
  split; [unfold getActivityDetail at 1; rewrite Hhit; reflexivity|].
  split.
  - intros data Hnodup Hin. unfold heartrate_of, d. cbn [streams].
    unfold unpackStreams. apply unpack_from_heartrate; assumption.
  - intros Hno currentYear athlete.
    assert (Hhr : heartrate_of (Some d) = None).
    { unfold heartrate_of, d. cbn [streams]. unfold unpackStreams.
      rewrite unpack_from_no_heartrate by exact Hno. reflexivity. }
    unfold calculateRelativeEffortPoints, getHeartRateZoneDistribution.
    rewrite Hhr. split; reflexivity.
Qed.

(** ** The athlete *)

Section Athlete.

Context {Remote : Type} {api : Api Remote}.

Lemma getAthlete_cached (w : World Remote) (a : AthleteRow) :
  table_first (db_athlete (the_db w)) = Some a ->
  getAthlete w = (w, Ok (Some a)).
Proof.
  intros Hfirst. unfold getAthlete, try_catch. rewrite Hfirst. reflexivity.
Qed.

(** X13.  With an athlete row in the store (stored under its id),
    [updateAthleteBirthYear] writes the year without any request, and
    [getAthlete] then answers, again without a request, with that
    athlete and the new birth year. *)
Theorem birth_year_read_back (w : World Remote) (a : AthleteRow)
    (birthYear : option Z)
    (Hfirst : table_first (db_athlete (the_db w)) = Some a)
    (Hkeyed : athlete_keyed (db_athlete (the_db w))) :
  let w1 := fst (updateAthleteBirthYear birthYear w) in
  snd (updateAthleteBirthYear birthYear w) = Ok tt
  /\ getAthlete w1
     = (w1, Ok (Some (mkAthleteRow (athlete_id a)
                        (mkStravaAthlete birthYear))))
  /\ remote w1 = remote w
  /\ athlete_keyed (db_athlete (the_db w1)).
Proof.
  cbn zeta. unfold updateAthleteBirthYear, await.
  rewrite (getAthlete_cached w a Hfirst). cbn [fst snd].
  unfold the_db in Hfirst, Hkeyed.
  destruct (db_athlete (svc_db (service w))) as [|[k r] rest] eqn:Hrows;
    [discriminate|].
  cbn in Hfirst. inversion Hfirst; subst r.
  inversion Hkeyed as [|? ? Hrow Hrest]; subst. cbn in Hrow.
  split; [reflexivity|]. split; [|split; [reflexivity|]].
  - apply getAthlete_cached. unfold the_db, setDb. cbn.
    rewrite Hrows. cbn. rewrite Hrow, Z.eqb_refl. reflexivity.
  - unfold the_db, setDb. cbn. rewrite Hrows.
    unfold athlete_keyed, table_update. apply Forall_map.
    eapply Forall_impl; [|exact Hkeyed].
    intros [k' r'] Hr. cbn in Hr |- *.
    destruct (k' =? athlete_id a); cbn; exact Hr.
Qed.

(** X14.  Without an athlete row, and with a profile request that
    fails for whatever reason, [getAthlete] answers [null] instead of
    throwing, and [updateAthleteBirthYear] resolves all the same:
    nothing is stored and no error is raised. *)
Theorem birth_year_without_athlete (w : World Remote) (birthYear : option Z)
    (Hnone : table_first (db_athlete (the_db w)) = None)
    (Hfail : forall w0 a,
               makeAuthenticatedRequest getProfile w <> (w0, Ok (Some a))) :
  snd (getAthlete w) = Ok None
  /\ snd (updateAthleteBirthYear birthYear w) = Ok tt
  /\ db_athlete (the_db (fst (updateAthleteBirthYear birthYear w))) = [].
Proof.
  assert (Hempty : db_athlete (the_db w) = []).
  { destruct (db_athlete (the_db w)) as [|[k r] rest];
      [reflexivity|discriminate]. }
  pose proof (frame_makeAuthenticatedRequest (dataTables w) getProfile w
                eq_refl) as Hframe.
  assert (Hget : snd (getAthlete w) = Ok None
                 /\ db_athlete (the_db (fst (getAthlete w))) = []).
  { unfold getAthlete, try_catch. rewrite Hnone. unfold await.
    destruct (makeAuthenticatedRequest getProfile w)
      as [w0 [[a|]|message]] eqn:Hreq; cbn [fst] in Hframe.
    - exfalso. apply (Hfail w0 a). reflexivity.
    - cbn. split; [reflexivity|].
      destruct (dataTables_eq _ _ Hframe) as [_ [_ Ha]].
      rewrite Ha. exact Hempty.
    - cbn. split; [reflexivity|].
      destruct (dataTables_eq _ _ Hframe) as [_ [_ Ha]].
      rewrite Ha. exact Hempty. }
  destruct Hget as [Hres Hrows]. split; [exact Hres|].
  unfold updateAthleteBirthYear, await.
  destruct (getAthlete w) as [w1 res]. cbn [fst snd] in Hres, Hrows.
  subst res. cbn. split; [reflexivity|exact Hrows].
Qed.

End Athlete.

(** ** Export and import *)

Lemma table_get_below {R : Type} (k : Z) (t : Table R) :
  Forall (fun row => fst row < k) t -> table_get k t = None.
Proof.
  induction t as [|[k' r'] rest IH]; intros H; [reflexivity|].
  inversion H as [|? ? Hhd Htl]; subst. cbn in Hhd. cbn [table_get].
  destruct (Z.eqb_spec k' k); [lia|]. apply IH, Htl.
Qed.

Lemma table_put_append {R : Type} (k : Z) (r : R) (t : Table R) :
  Forall (fun row => fst row < k) t -> table_put k r t = t ++ [(k, r)].
Proof.
  induction t as [|[k' r'] rest IH]; intros H; [reflexivity|].
  inversion H as [|? ? Hhd Htl]; subst. cbn in Hhd. cbn [table_put app].
  destruct (Z.ltb_spec k k'); [lia|].
  destruct (Z.eqb_spec k k'); [lia|]. rewrite IH by exact Htl. reflexivity.
Qed.

(** Adding back the rows of a sorted table, in order, rebuilds it. *)
Lemma table_bulkAdd_toArray {R : Type} (key : R -> Z) (t : Table R) :
  forall acc,
    table_sorted t ->
    Forall (fun row => key (snd row) = fst row) t ->
    Forall (fun row => Forall (fun row' => fst row < fst row') t) acc ->
    table_bulkAdd key (table_toArray t) acc = Some (acc ++ t).
Proof.
  unfold table_sorted, table_toArray.
  induction t as [|[k r] rest IH]; intros acc Hsorted Hkeyed Hbelow;
    cbn [map table_bulkAdd snd].
  - rewrite app_nil_r. reflexivity.
  - inversion Hsorted as [|? ? Hrest Hlt]; subst.
    inversion Hkeyed as [|? ? Hk Hkeyed']; subst. cbn in Hk. rewrite Hk.
    assert (Hacc : Forall (fun row => fst row < k) acc).
    { eapply Forall_impl; [|exact Hbelow]. intros row Hrow.
      inversion Hrow; subst. assumption. }
    unfold table_add. rewrite table_get_below by exact Hacc.
    rewrite table_put_append by exact Hacc.
    rewrite IH; [rewrite <- app_assoc; reflexivity|assumption..|].
    apply Forall_app. split.
    + eapply Forall_impl; [|exact Hbelow]. intros row Hrow.
      inversion Hrow; subst. assumption.
    + constructor; [|constructor]. cbn [fst]. exact Hlt.
Qed.

(** [bulkAdd] succeeds exactly when the keys are new and distinct. *)
Lemma table_bulkAdd_succeeds {R : Type} (key : R -> Z) (rows : list R) :
  forall acc,
    (exists t, table_bulkAdd key rows acc = Some t)
    <-> NoDup (map key rows)
        /\ forall r, In r rows -> table_get (key r) acc = None.
Proof.
  induction rows as [|r rest IH]; intros acc; cbn [table_bulkAdd map].
  - split; [intros _; split; [constructor|intros r []]|].
    intros _. exists acc. reflexivity.
  - unfold table_add.
    destruct (table_get (key r) acc) as [old|] eqn:Hget.
    + split; [intros [t Ht]; discriminate|].
      intros [_ Hnew]. specialize (Hnew r (or_introl eq_refl)).
      rewrite Hget in Hnew. discriminate.
    + rewrite IH. split.
      * intros [Hnodup Hnew]. split.
        -- constructor; [|exact Hnodup]. intros Hin.
           apply in_map_iff in Hin. destruct Hin as [r' [Hk Hr']].
           specialize (Hnew r' Hr'). rewrite Hk in Hnew.
           rewrite table_get_put_same in Hnew. discriminate.
        -- intros r' [Hr'|Hr']; [subst r'; exact Hget|].
           specialize (Hnew r' Hr').
           destruct (Z.eq_dec (key r') (key r)) as [Heq|Hne].
           ++ rewrite Heq, table_get_put_same in Hnew. discriminate.
           ++ rewrite table_get_put_other in Hnew by exact Hne. exact Hnew.
      * intros [Hnodup Hnew]. inversion Hnodup as [|? ? Hnotin Hnodup']; subst.
        split; [exact Hnodup'|]. intros r' Hr'.
        rewrite table_get_put_other.
        -- apply Hnew. right. exact Hr'.
        -- intros Heq. apply Hnotin. rewrite <- Heq. apply in_map, Hr'.
Qed.

(** With ids on all the rows, [bulkAdd] on the settings table is
    [bulkAdd] by id, and the generator only goes up. *)
Lemma settings_bulkAdd_explicit (rows : list StravaSettings) :
  Forall has_id rows ->
  forall t next,
    match settings_bulkAdd rows t next with
    | Some (t', next') =>
        table_bulkAdd settings_key rows t = Some t' /\ next <= next'
    | None => table_bulkAdd settings_key rows t = None
    end.
Proof.
  induction rows as [|r rest IH]; intros Hids t next;
    cbn [settings_bulkAdd table_bulkAdd].
  - split; [reflexivity|lia].
  - inversion Hids as [|? ? Hid Hids']; subst.
    unfold has_id in Hid.
    destruct (settings_id r) as [k|] eqn:Hk; [|contradiction].
    assert (Hkey : settings_key r = k)
      by (unfold settings_key; rewrite Hk; reflexivity).
    rewrite Hkey.
    destruct (table_add k r t) as [t'|]; [|reflexivity].
    specialize (IH Hids' t' (Z.max next (k + 1))).
    destruct (settings_bulkAdd rest t' (Z.max next (k + 1))) as [[t'' n'']|].
    + destruct IH as [IH Hle]. split; [exact IH|lia].
    + exact IH.
Qed.

Lemma settings_has_id (t : Table StravaSettings) :
  settings_keyed t ->
  Forall has_id (table_toArray t)
  /\ Forall (fun row => settings_key (snd row) = fst row) t.
Proof.
  unfold settings_keyed, table_toArray, has_id, settings_key. intros H. split.
  - apply Forall_map. eapply Forall_impl; [|exact H].
    intros row Hrow. rewrite Hrow. discriminate.
  - eapply Forall_impl; [|exact H]. intros row Hrow. rewrite Hrow.
    reflexivity.
Qed.

(** X15.  Export, then import, restores the store.  For a well-formed
    database (rows in key order, each under its own id) and a
    non-empty timestamp, importing the exported document into any
    database succeeds and leaves the four tables equal to the exported
    ones. *)
Theorem export_import_round_trip (timestamp : string) (d target : Database)
    (Hwf : wellFormed d)
    (Hts : timestamp <> EmptyString) :
  let imported := fst (importData (Some (exportData timestamp d)) target) in
  snd (importData (Some (exportData timestamp d)) target) = Ok tt
  /\ db_settings imported = db_settings d
  /\ db_activities imported = db_activities d
  /\ db_activityDetails imported = db_activityDetails d
  /\ db_athlete imported = db_athlete d.
Proof.
  cbn zeta.
  destruct Hwf as [[Hs1 Hs2] [[Ha1 Ha2] [[Hd1 Hd2] [Hh1 Hh2]]]].
  unfold importData.
  assert (Htruthy : truthy_string (doc_timestamp (exportData timestamp d))
                    = true).
  { apply truthy_usable. exists timestamp. split; [reflexivity|exact Hts]. }
  rewrite Htruthy. cbn [exportData doc_version truthy_number negb orb Z.eqb].
  unfold importTransaction.
  cbn [exportData doc_settings doc_activities doc_activityDetails doc_athlete
       rows_of clearAllData db_settings db_settings_next db_activities
       db_activityDetails db_athlete].
  destruct (settings_has_id _ Hs2) as [Hids Hkey].
  pose proof (settings_bulkAdd_explicit _ Hids [] (db_settings_next target))
    as Hset.
  rewrite (table_bulkAdd_toArray settings_key (db_settings d) [] Hs1 Hkey
             (Forall_nil _)) in Hset.
  destruct (settings_bulkAdd (table_toArray (db_settings d)) []
              (db_settings_next target)) as [[t' next']|];
    [|discriminate].
  destruct Hset as [Hset _]. inversion Hset; subst t'.
  rewrite (table_bulkAdd_toArray act_id (db_activities d) [] Ha1 Ha2
             (Forall_nil _)).
  rewrite (table_bulkAdd_toArray id (db_activityDetails d) [] Hd1 Hd2
             (Forall_nil _)).
  rewrite (table_bulkAdd_toArray athlete_id (db_athlete d) [] Hh1 Hh2
             (Forall_nil _)).
  cbn. repeat split; reflexivity.
Qed.

Lemma table_bulkAdd_keeps {R : Type} (key : R -> Z) (rows : list R) :
  forall acc t k x,
    table_bulkAdd key rows acc = Some t ->
    table_get k acc = Some x -> table_get k t = Some x.
Proof.
  induction rows as [|r rest IH]; intros acc t k x Hadd Hget;
    cbn [table_bulkAdd] in Hadd.
  - inversion Hadd; subst. exact Hget.
  - unfold table_add in Hadd.
    destruct (table_get (key r) acc) eqn:Hr; [discriminate|].
    apply (IH _ _ _ _ Hadd).
    rewrite table_get_put_other; [exact Hget|].
    intros Heq. subst k. congruence.
Qed.

Lemma table_bulkAdd_finds {R : Type} (key : R -> Z) (rows : list R) :
  forall acc t r,
    table_bulkAdd key rows acc = Some t ->
    In r rows -> table_get (key r) t = Some r.
Proof.
  induction rows as [|r0 rest IH]; intros acc t r Hadd Hin; [destruct Hin|].
  cbn [table_bulkAdd] in Hadd. unfold table_add in Hadd.
  destruct (table_get (key r0) acc) eqn:Hr; [discriminate|].
  destruct Hin as [Heq|Hin].
  - subst r0. apply (table_bulkAdd_keeps key rest _ _ _ _ Hadd).
    apply table_get_put_same.
  - apply (IH _ _ _ Hadd Hin).
Qed.

Lemma importTransaction_succeeds (doc : Document) (d : Database) :
  Forall has_id (rows_of (doc_settings doc)) ->
  (exists imported, importTransaction doc (clearAllData d) = Some imported)
  <-> distinct_ids doc.
Proof.
  intros Hids. unfold importTransaction, distinct_ids.
  cbn [clearAllData db_settings db_settings_next db_activities
       db_activityDetails db_athlete].
  pose proof (settings_bulkAdd_explicit _ Hids [] (db_settings_next d))
    as Hset.
  pose proof (table_bulkAdd_succeeds settings_key
                (rows_of (doc_settings doc)) []) as H1.
  pose proof (table_bulkAdd_succeeds act_id
                (rows_of (doc_activities doc)) []) as H2.
  pose proof (table_bulkAdd_succeeds id
                (rows_of (doc_activityDetails doc)) []) as H3.
  pose proof (table_bulkAdd_succeeds athlete_id
                (rows_of (doc_athlete doc)) []) as H4.
  assert (Hnew : forall (R : Type) (key : R -> Z) (rows : list R) r,
             In r rows -> table_get (key r) (@nil (Z * R)) = None)
    by reflexivity.
  split.
  - intros [imported Himp].
    destruct (settings_bulkAdd (rows_of (doc_settings doc)) []
                (db_settings_next d)) as [[t1 n1]|]; [|discriminate].
    destruct Hset as [Hset _].
    destruct (table_bulkAdd act_id (rows_of (doc_activities doc)) [])
      as [t2|] eqn:E2; [|discriminate].
    destruct (table_bulkAdd id (rows_of (doc_activityDetails doc)) [])
      as [t3|] eqn:E3; [|discriminate].
    destruct (table_bulkAdd athlete_id (rows_of (doc_athlete doc)) [])
      as [t4|] eqn:E4; [|discriminate].
    repeat split.
    + apply H1. exists t1. exact Hset.
    + apply H2. exists t2. reflexivity.
    + apply H3. exists t3. reflexivity.
    + apply H4. exists t4. reflexivity.
  - intros [D1 [D2 [D3 D4]]].
    destruct (proj2 H1 (conj D1 (Hnew _ _ _))) as [t1 E1].
    destruct (proj2 H2 (conj D2 (Hnew _ _ _))) as [t2 E2].
    destruct (proj2 H3 (conj D3 (Hnew _ _ _))) as [t3 E3].
    destruct (proj2 H4 (conj D4 (Hnew _ _ _))) as [t4 E4].
    rewrite E1 in Hset.
    destruct (settings_bulkAdd (rows_of (doc_settings doc)) []
                (db_settings_next d)) as [[t1' n1]|]; [|discriminate].
    rewrite E2, E3, E4. eexists. reflexivity.
Qed.

Section Importing.

Context {Remote : Type}.

(** X16.  A document that cannot be parsed, or that lacks a version or
    a timestamp (a version of 0 and an empty timestamp count as
    missing), is turned down before anything is cleared: the import
    throws and the whole world, settings in memory included, is as it
    was. *)
Theorem import_rejected (data : option Document) (w : World Remote)
    (Hbad : forall doc, data = Some doc -> ~ accepted doc) :
  fst (importAllData data w) = w
  /\ exists message, snd (importAllData data w) = Err message.
Proof.
  assert (Hsame : setDb (the_db w) w = w)
    by (destruct w as [[d s] r]; reflexivity).
  unfold importAllData, await, importData.
  destruct data as [doc|].
  - specialize (Hbad doc eq_refl). unfold accepted in Hbad.
    destruct (truthy_number (doc_version doc));
      destruct (truthy_string (doc_timestamp doc)); cbn [negb orb];
      try (exfalso; apply Hbad; split; reflexivity);
      cbn [fst snd]; rewrite Hsame; split; try reflexivity;
      eexists; reflexivity.
  - cbn [fst snd]. rewrite Hsame. split; [reflexivity|].
    eexists; reflexivity.
Qed.

(** X17.  An accepted document, with ids on its settings rows, is
    imported exactly when the ids of each of its tables are distinct.
    Then every row of the document is found under its id and the
    settings in memory are dropped.  Otherwise the import throws after
    the store was cleared: the four tables are left empty, while the
    settings in memory stay as they were. *)
Theorem import_outcome (doc : Document) (w : World Remote)
    (Haccepted : accepted doc)
    (Hids : Forall has_id (rows_of (doc_settings doc))) :
  let w' := fst (importAllData (Some doc) w) in
  (distinct_ids doc ->
   snd (importAllData (Some doc) w) = Ok tt
   /\ svc_settings (service w') = None
   /\ (forall a, In a (rows_of (doc_activities doc)) ->
                 table_get (act_id a) (db_activities (the_db w')) = Some a)
   /\ (forall a, In a (rows_of (doc_activityDetails doc)) ->
                 table_get (id a) (db_activityDetails (the_db w')) = Some a)
   /\ (forall a, In a (rows_of (doc_athlete doc)) ->
                 table_get (athlete_id a) (db_athlete (the_db w')) = Some a))
  /\ (~ distinct_ids doc ->
      (exists message, snd (importAllData (Some doc) w) = Err message)
      /\ db_settings (the_db w') = []
      /\ db_activities (the_db w') = []
      /\ db_activityDetails (the_db w') = []
      /\ db_athlete (the_db w') = []
      /\ svc_settings (service w') = svc_settings (service w)).
Proof.
  cbn zeta. destruct Haccepted as [Hv Ht].
  pose proof (importTransaction_succeeds doc (the_db w) Hids) as Hiff.
  unfold importAllData, await, importData. rewrite Hv, Ht. cbn [negb orb].
  destruct (importTransaction doc (clearAllData (the_db w)))
    as [imported|] eqn:Himp.
  - split; [|intros Hnot; exfalso; apply Hnot, Hiff; eexists; reflexivity].
    intros _. cbn [fst snd]. split; [reflexivity|]. split; [reflexivity|].
    unfold importTransaction in Himp.
    cbn [clearAllData db_settings db_settings_next db_activities
         db_activityDetails db_athlete] in Himp.
    destruct (settings_bulkAdd (rows_of (doc_settings doc)) []
                (db_settings_next (the_db w))) as [[t1 n1]|]; [|discriminate].
    destruct (table_bulkAdd act_id (rows_of (doc_activities doc)) [])
      as [t2|] eqn:E2; [|discriminate].
    destruct (table_bulkAdd id (rows_of (doc_activityDetails doc)) [])
      as [t3|] eqn:E3; [|discriminate].
    destruct (table_bulkAdd athlete_id (rows_of (doc_athlete doc)) [])
      as [t4|] eqn:E4; [|discriminate].
    inversion Himp; subst imported. cbn.
    repeat split; intros a Ha.
    + apply (table_bulkAdd_finds act_id _ _ _ _ E2 Ha).
    + apply (table_bulkAdd_finds id _ _ _ _ E3 Ha).
    + apply (table_bulkAdd_finds athlete_id _ _ _ _ E4 Ha).
  - split.
    + intros Hd. apply Hiff in Hd. destruct Hd as [imported Hd]. discriminate.
    + intros _. cbn. repeat split. eexists; reflexivity.
Qed.

End Importing.

(** ** Chart data *)

Lemma rounds_step (n interval i : Z) :
  1 <= interval -> i < n ->
  rounds n interval i = S (rounds n interval (i + interval)).
Proof.
  intros Hk Hi. unfold rounds.
  destruct (Z.ltb_spec i n); [|lia].
  destruct (Z.ltb_spec (i + interval) n).
  - replace (n - i + interval - 1)
      with (1 * interval + (n - (i + interval) + interval - 1)) by lia.
    rewrite Z.div_add_l by lia.
    rewrite Z2Nat.inj_add; [reflexivity|lia|].
    apply Z.div_pos; lia.
  - replace ((n - i + interval - 1) / interval) with 1; [reflexivity|].
    apply Z.div_unique with (r := n - i - 1); lia.
Qed.

Lemma forStep_spec {A : Type} (body : Z -> A) (n interval : Z) :
  1 <= interval ->
  forall fuel i data,
    n - i <= Z.of_nat fuel ->
    forStep fuel n interval i body data
    = Some (data ++ map (fun j => body (i + Z.of_nat j * interval))
                        (seq 0 (rounds n interval i))).
Proof.
  intros Hk. induction fuel as [|fuel IH]; intros i data Hfuel;
    cbn [forStep].
  - destruct (Z.ltb_spec i n); [lia|].
    unfold rounds. destruct (Z.ltb_spec i n); [lia|].
    cbn. rewrite app_nil_r. reflexivity.
  - destruct (Z.ltb_spec i n) as [Hi|Hi].
    + rewrite IH by lia. rewrite (rounds_step n interval i Hk Hi).
      cbn [seq map]. rewrite <- seq_shift, map_map, <- app_assoc.
      cbn [app]. do 3 f_equal.
      * f_equal. lia.
      * apply map_ext. intros j. f_equal. lia.
    + unfold rounds. destruct (Z.ltb_spec i n); [lia|].
      cbn. rewrite app_nil_r. reflexivity.
Qed.

Lemma rounds_bounds (n : Z) :
  0 <= n ->
  let c := Z.of_nat (rounds n (sampleInterval n) 0) in
  c <= 199 /\ (n < 200 -> c = n) /\ (100 <= n -> 100 <= c).
Proof.
  intros Hn. cbn zeta. unfold rounds, sampleInterval.
  destruct (Z.ltb_spec 0 n) as [Hpos|Hzero].
  - assert (Hq : 0 <= n / 100) by (apply Z.div_pos; lia).
    pose proof (Z.div_mod n 100 ltac:(lia)) as Hdm.
    pose proof (Z.mod_pos_bound n 100 ltac:(lia)) as Hmod.
    set (k := Z.max 1 (n / 100)) in *.
    assert (Hk : 1 <= k) by (unfold k; lia).
    rewrite Z2Nat.id by (apply Z.div_pos; lia).
    pose proof (Z.div_mod (n - 0 + k - 1) k ltac:(lia)) as Hdc.
    pose proof (Z.mod_pos_bound (n - 0 + k - 1) k ltac:(lia)) as Hmc.
    set (c := (n - 0 + k - 1) / k) in *.
    set (m := (n - 0 + k - 1) mod k) in *.
    assert (Hkq : k = 1 /\ n / 100 <= 1 \/ k = n / 100 /\ 1 <= n / 100)
      by (unfold k; lia).
    split; [|split].
    + destruct Hkq as [[Hk1 Hle]|[Hkq Hge]]; nia.
    + intros Hsmall. assert (n / 100 <= 1) by nia.
      assert (k = 1) by (unfold k; lia). nia.
    + intros Hbig. assert (1 <= n / 100) by nia.
      assert (k = n / 100) by (unfold k; lia). nia.
  - cbn. repeat split; lia.
Qed.

(** X18.  The heart-rate chart is sampled: with both streams present
    the loop ends (within [timeData.length] rounds) and yields the
    samples at the indices 0, [interval], [2 * interval], ... below
    the length, where [interval] is [max(1, floor(length / 100))]:
    every sample when there are fewer than 200, at least 100 points
    when there are at least 100 samples, and never more than 199
    points.  A time sample without a heart-rate sample at its index
    gets an undefined heart rate. *)
Theorem heart_rate_chart (a : ActivityDetail) (s : StreamData)
    (timeData heartrateData : list Z)
    (Hs : streams a = Some s)
    (Htime : time s = Some timeData)
    (Hhr : heartrate s = Some heartrateData) :
  let n := Z.of_nat (List.length timeData) in
  let interval := sampleInterval n in
  exists points,
    getHeartRateData (Some a) = Some points
    /\ points
       = map (fun j => heartRatePoint timeData heartrateData
                         (Z.of_nat j * interval))
             (seq 0 (List.length points))
    /\ (forall j, (j < List.length points)%nat ->
          Z.of_nat j * interval < n)
    /\ Z.of_nat (List.length points) <= 199
    /\ (n < 200 -> List.length points = List.length timeData)
    /\ (100 <= n -> 100 <= Z.of_nat (List.length points))
    /\ (forall j p, nth_error points j = Some p ->
          (List.length heartrateData <= j * Z.to_nat interval)%nat ->
          point_heartrate p = None).
Proof.
  cbn zeta. unfold getHeartRateData. rewrite Hs, Htime, Hhr.
  set (n := Z.of_nat (List.length timeData)).
  assert (Hk : 1 <= sampleInterval n) by (unfold sampleInterval; lia).
  rewrite (forStep_spec _ n (sampleInterval n) Hk) by lia.
  cbn [app]. eexists. split; [reflexivity|].
  rewrite length_map, length_seq.
  destruct (rounds_bounds n ltac:(lia)) as [Hmax [Hsmall Hbig]].
  split; [apply map_ext; intros j; f_equal; lia|].
  split; [|split; [exact Hmax|split; [|split; [exact Hbig|]]]].
  - intros j Hj. unfold rounds in Hj.
    destruct (Z.ltb_spec 0 n) as [Hpos|]; [|lia].
    set (k := sampleInterval n) in *.
    pose proof (Z.div_mod (n - 0 + k - 1) k ltac:(lia)) as Hdc.
    pose proof (Z.mod_pos_bound (n - 0 + k - 1) k ltac:(lia)) as Hmc.
    assert (Hc : 0 <= (n - 0 + k - 1) / k) by (apply Z.div_pos; lia).
    assert (Hjc : Z.of_nat j < (n - 0 + k - 1) / k) by lia.
    nia.
  - intros Hlt. apply Nat2Z.inj. exact (Hsmall Hlt).
  - intros j p Hnth Hshort.
    rewrite nth_error_map in Hnth.
    destruct (nth_error (seq 0 (rounds n (sampleInterval n) 0)) j)
      as [j'|] eqn:Hj; [|discriminate].
    cbn in Hnth. inversion Hnth; subst p.
    assert (Hlt : (j < List.length (seq 0 (rounds n (sampleInterval n) 0)))%nat)
      by (apply nth_error_Some; rewrite Hj; discriminate).
    rewrite length_seq in Hlt.
    rewrite nth_error_nth' with (d := 0%nat) in Hj
      by (rewrite length_seq; exact Hlt).
    rewrite seq_nth in Hj by exact Hlt. inversion Hj; subst j'.
    cbn [heartRatePoint point_heartrate].
    apply nth_error_None.
    rewrite Z2Nat.inj_mul, Nat2Z.id by lia. exact Hshort.
Qed.

(** ** Sessions and the activity list *)

Lemma find_last {A : Type} (f : A -> bool) (l : list A) (a : A) :
  find f (l ++ [a])
  = match find f l with
    | Some x => Some x
    | None => if f a then Some a else None
    end.
Proof.
  induction l as [|x l IH]; cbn; [reflexivity|].
  destruct (f x); [reflexivity|exact IH].
Qed.

Lemma putActivities_get (activities : list StravaActivity) :
  forall (t : Table StravaActivity) (k : Z),
    table_get k (putActivities activities t)
    = match find (fun a => act_id a =? k) (rev activities) with
      | Some a => Some a
      | None => table_get k t
      end.
Proof.
  unfold putActivities.
  induction activities as [|a l IH]; intros t k; cbn [fold_left rev find];
    [reflexivity|].
  rewrite IH, find_last.
  destruct (find (fun a0 => act_id a0 =? k) (rev l)); [reflexivity|].
  destruct (Z.eqb_spec (act_id a) k) as [Heq|Hne].
  - rewrite <- Heq. apply table_get_put_same.
  - apply table_get_put_other. auto.
Qed.

Section Session.

Context {Remote : Type} {api : Api Remote}.

(** X19.  [logout] always succeeds and sends nothing.  Afterwards the
    settings, the activities and the details are gone, so
    [isAuthenticated] answers false and [ensureValidToken] throws; the
    athlete table is not cleared, so [getAthlete] still answers with
    the stored athlete, birth year included. *)
Theorem logout_closes_session (w : World Remote) :
  let w' := fst (logout w) in
  snd (logout w) = Ok tt
  /\ remote w' = remote w
  /\ db_settings (the_db w') = []
  /\ db_activities (the_db w') = []
  /\ db_activityDetails (the_db w') = []
  /\ snd (isAuthenticated w') = Ok false
  /\ snd (ensureValidToken w') = Err "No access token available"
  /\ db_athlete (the_db w') = db_athlete (the_db w)
  /\ forall a, table_first (db_athlete (the_db w)) = Some a ->
               getAthlete w' = (w', Ok (Some a)).
Proof.
  cbn zeta.
  assert (Hout : logout w
                 = (mkWorld
                      (mkService
                         (mkDatabase [] (db_settings_next (the_db w)) [] []
                            (db_athlete (the_db w)))
                         None)
                      (remote w),
                    Ok tt)) by reflexivity.
  rewrite Hout. cbn [fst snd].
  repeat split; try reflexivity.
  intros a Ha. unfold getAthlete, try_catch, the_db. cbn.
  unfold the_db in Ha. rewrite Ha. reflexivity.
Qed.

(** X20.  [exchangeCodeForToken] sends one request to the token
    endpoint.  When the endpoint accepts, the call resolves, the
    settings in memory carry the client id and secret given and the
    tokens, expiry (seconds turned into milliseconds) and scope
    received, and [isAuthenticated] then answers true exactly when the
    access token received is not empty.  When the endpoint refuses,
    the call throws and neither the store nor the settings in memory
    change. *)
Theorem exchange_authenticates (w : World Remote) (code cid cs : string) :
  let answer := postToken (remote w) (AuthorizationCodeGrant cid cs code) in
  let w' := fst (exchangeCodeForToken code cid cs w) in
  remote w' = fst answer
  /\ dataTables w' = dataTables w
  /\ match snd answer with
     | Some data =>
         snd (exchangeCodeForToken code cid cs w) = Ok tt
         /\ (exists s,
               svc_settings (service w') = Some s
               /\ clientId s = Some cid
               /\ clientSecret s = Some cs
               /\ accessToken s = Some (access_token data)
               /\ refreshToken s = Some (refresh_token data)
               /\ expiresAt s = Some (expires_at data * 1000)
               /\ scope s = Some (granted_scope data))
         /\ snd (isAuthenticated w')
            = Ok (negb (String.eqb (access_token data) ""))
     | None =>
         snd (exchangeCodeForToken code cid cs w)
         = Err "Failed to exchange code for token"
         /\ service w' = service w
     end.
Proof.
  cbn zeta. unfold exchangeCodeForToken, await, fetchToken.
  destruct (postToken (remote w) (AuthorizationCodeGrant cid cs code))
    as [r [data|]] eqn:Hpost; cbn [fst snd].
  - set (p := {| p_clientId := Some cid;
                 p_clientSecret := Some cs;
                 p_accessToken := Some (access_token data);
                 p_refreshToken := Some (refresh_token data);
                 p_expiresAt := Some (expires_at data * 1000);
                 p_scope := Some (granted_scope data) |}).
    destruct (currentSettings (setRemote r w)) as [s|] eqn:Hs.
    + rewrite (saveSettings_existing (setRemote r w) p s Hs).
      cbn [fst snd remote service svc_settings].
      split; [reflexivity|]. split; [reflexivity|].
      split; [reflexivity|]. split.
      * eexists. split; [reflexivity|]. cbn. repeat split; reflexivity.
      * unfold isAuthenticated, await, getSettings, resolve. cbn.
        reflexivity.
    + rewrite (saveSettings_first (setRemote r w) p Hs).
      cbn [fst snd remote service svc_settings].
      split; [reflexivity|]. split; [reflexivity|].
      split; [reflexivity|]. split.
      * eexists. split; [reflexivity|]. cbn. repeat split; reflexivity.
      * unfold isAuthenticated, await, getSettings, resolve. cbn.
        reflexivity.
  - cbn. repeat split; reflexivity.
Qed.

(** X21.  [getActivities] writes the page it received through to the
    activity cache: each activity of the page is stored under its id
    (the last one, where the page repeats an id), every other cached
    activity is kept, and the page is returned as received.  When the
    request is refused or cannot be sent, the call throws and no data
    table changes. *)
Theorem getActivities_upsert (page perPage : Z) (w : World Remote) :
  let w' := fst (getActivities page perPage w) in
  match snd (makeAuthenticatedRequest
               (fun r token => getPage r token page perPage) w) with
  | Ok (Some activities) =>
      snd (getActivities page perPage w) = Ok activities
      /\ (forall a, In a activities ->
                    exists b, In b activities /\ act_id b = act_id a
                              /\ table_get (act_id a)
                                   (db_activities (the_db w')) = Some b)
      /\ (forall k, (forall a, In a activities -> act_id a <> k) ->
                    table_get k (db_activities (the_db w'))
                    = table_get k (db_activities (the_db w)))
      /\ db_activityDetails (the_db w') = db_activityDetails (the_db w)
      /\ db_athlete (the_db w') = db_athlete (the_db w)
  | Ok None =>
      snd (getActivities page perPage w) = Err "Failed to fetch activities"
      /\ dataTables w' = dataTables w
  | Err message =>
      snd (getActivities page perPage w) = Err message
      /\ dataTables w' = dataTables w
  end.
Proof.
  cbn zeta.
  pose proof (frame_makeAuthenticatedRequest (dataTables w)
                (fun r token => getPage r token page perPage) w eq_refl)
    as Hframe.
  unfold getActivities, await.
  destruct (makeAuthenticatedRequest
              (fun r token => getPage r token page perPage) w)
    as [w1 [[activities|]|message]]; cbn [fst snd] in *.
  - unfold dataTables in Hframe. injection Hframe as Ha Hd Hp.
    unfold setDb, the_db in *. cbn. rewrite <- Ha.
    split; [reflexivity|]. split; [|split; [|split; assumption]].
    + intros a Hin. rewrite putActivities_get.
      destruct (find (fun a0 => act_id a0 =? act_id a) (rev activities))
        as [b|] eqn:Hfind.
      * apply find_some in Hfind. destruct Hfind as [Hb Hk].
        exists b. rewrite <- in_rev in Hb.
        apply Z.eqb_eq in Hk. auto.
      * exfalso.
        assert (Hno : (act_id a =? act_id a) = false)
          by (apply (find_none _ _ Hfind a); rewrite <- in_rev; exact Hin).
        rewrite Z.eqb_refl in Hno. discriminate.
    + intros k Hk. rewrite putActivities_get.
      destruct (find (fun a0 => act_id a0 =? k) (rev activities))
        as [b|] eqn:Hfind; [|reflexivity].
      apply find_some in Hfind. destruct Hfind as [Hb Hkb].
      rewrite <- in_rev in Hb. apply Z.eqb_eq in Hkb.
      exfalso. exact (Hk b Hb Hkb).
  - split; [reflexivity|exact Hframe].
  - split; [reflexivity|exact Hframe].
Qed.

End Session.

Section PagingProofs.

Context {Remote : Type} {api : Api Remote}.
Variable getCachedActivities : Async (World Remote) (list StravaActivity).

Ltac ls_simpl :=
  cbn [fst snd ls_activities ls_currentPage ls_hasMoreData ls_loadingMore
       ls_error setActivities setCurrentPage setHasMoreData setLoadingMore
       setError].

Lemma loadActivities_reset (st : ListState) (w : World Remote) :
  pagesShown (snd (loadActivities getCachedActivities true st w))
  /\ ls_loadingMore (snd (loadActivities getCachedActivities true st w))
     = ls_loadingMore st.
Proof.
  unfold loadActivities, pagesShown.
  destruct (getCachedActivities w) as [w1 [cached|message]];
    [|ls_simpl; split; [lia|reflexivity]].
  destruct (getActivities 1 30 w1) as [w2 [fresh|message]];
    [|ls_simpl; split; [lia|reflexivity]].
  destruct (Z.ltb_spec (Z.of_nat (List.length fresh)) 30);
    ls_simpl; split; try reflexivity; lia.
Qed.

Lemma loadMoreActivities_keeps (st : ListState) (w : World Remote) :
  pagesShown st -> ls_loadingMore st = false ->
  pagesShown (snd (loadMoreActivities getCachedActivities st w))
  /\ ls_loadingMore (snd (loadMoreActivities getCachedActivities st w))
     = false.
Proof.
  intros [Hpage Hshown] Hidle. unfold loadMoreActivities, pagesShown.
  rewrite Hidle. cbn [orb].
  destruct (ls_hasMoreData st); cbn [negb]; [|ls_simpl; auto].
  unfold loadActivities.
  destruct (getActivities (ls_currentPage (setLoadingMore true st)) 30 w)
    as [w1 [fresh|message]]; [|ls_simpl; auto].
  destruct (Z.ltb_spec (Z.of_nat (List.length fresh)) 30); ls_simpl;
    rewrite ?length_app; split; try reflexivity; lia.
Qed.

Lemma clicks_keep (n : nat) : forall (st : ListState) (w : World Remote),
  pagesShown st -> ls_loadingMore st = false ->
  pagesShown (snd (clicks getCachedActivities n st w))
  /\ ls_loadingMore (snd (clicks getCachedActivities n st w)) = false.
Proof.
  induction n as [|n IH]; intros st w Hshown Hidle; cbn [clicks];
    [auto|].
  destruct (loadMoreActivities_keeps st w Hshown Hidle) as [H1 H2].
  destruct (loadMoreActivities getCachedActivities st w) as [w1 st1].
  apply IH; assumption.
Qed.

Lemma clicks_done (n : nat) (st : ListState) (w : World Remote) :
  ls_hasMoreData st = false ->
  clicks getCachedActivities n st w = (w, st).
Proof.
  intros Hdone. induction n as [|n IH]; cbn [clicks]; [reflexivity|].
  unfold loadMoreActivities. rewrite Hdone, orb_true_r. exact IH.
Qed.

(** X22.  Paging of the activity list.  After a refresh and any number
    of clicks on "load more" (none of them while another is running),
    no page has been skipped: with [p] the page to ask for next, at
    least [30 * (p - 1)] activities are shown.  A click then asks for
    page [p]: a page of fewer than 30 activities is appended and ends
    the paging, a failed request leaves list, page and flag as they
    are, so that the next click asks for the same page again; and once
    the paging has ended, further clicks send nothing and change
    nothing. *)
Theorem activity_list_paging (st : ListState) (w : World Remote) (n m : nat)
    (Hidle : ls_loadingMore st = false) :
  let start := loadActivities getCachedActivities true st w in
  let later := clicks getCachedActivities n (snd start) (fst start) in
  let next := loadMoreActivities getCachedActivities (snd later) (fst later) in
  pagesShown (snd later)
  /\ (ls_hasMoreData (snd later) = false ->
      clicks getCachedActivities m (snd later) (fst later) = later)
  /\ (ls_hasMoreData (snd later) = true ->
      match getActivities (ls_currentPage (snd later)) 30 (fst later) with
      | (w', Ok fresh) =>
          fst next = w'
          /\ ls_activities (snd next) = ls_activities (snd later) ++ fresh
          /\ ls_hasMoreData (snd next)
             = negb (Z.of_nat (List.length fresh) <? 30)
          /\ ls_currentPage (snd next)
             = (if Z.of_nat (List.length fresh) <? 30
                then ls_currentPage (snd later)
                else ls_currentPage (snd later) + 1)
      | (w', Err message) =>
          fst next = w'
          /\ ls_error (snd next) = Some message
          /\ ls_activities (snd next) = ls_activities (snd later)
          /\ ls_currentPage (snd next) = ls_currentPage (snd later)
          /\ ls_hasMoreData (snd next) = true
      end).
Proof.
  cbn zeta.
  destruct (loadActivities_reset st w) as [Hshown Hsame].
  rewrite Hidle in Hsame.
  destruct (loadActivities getCachedActivities true st w) as [w0 st0].
  cbn [fst snd] in *.
  destruct (clicks_keep n st0 w0 Hshown Hsame) as [Hlater Hidle'].
  destruct (clicks getCachedActivities n st0 w0) as [w1 st1] eqn:Hclicks.
  cbn [fst snd] in *.
  split; [exact Hlater|]. split.
  - intros Hdone. apply clicks_done. exact Hdone.
  - intros Hmore. unfold loadMoreActivities, loadActivities.
    rewrite Hidle', Hmore. cbn [orb negb].
    change (ls_currentPage (setLoadingMore true st1))
      with (ls_currentPage st1).
    destruct (getActivities (ls_currentPage st1) 30 w1)
      as [w2 [fresh|message]].
    + destruct (Z.ltb_spec (Z.of_nat (List.length fresh)) 30); ls_simpl;
        rewrite ?Hmore; repeat split; reflexivity.
    + ls_simpl. rewrite ?Hmore. repeat split; reflexivity.
Qed.

End PagingProofs.

(** ** The properties on the sample store *)

Lemma ensureValidToken_fresh_witness :
  currentSettings (sample_world (Some 900000))
  = Some (sample_settings (Some 900000))
  /\ snd (@ensureValidToken Z sample_api (sample_world (Some 900000)))
     = Ok (Some "access-1"%string).
Proof.
  split; [reflexivity|].
  refine (proj1 (@ensureValidToken_fresh Z sample_api
                   (sample_world (Some 900000))
                   (sample_settings (Some 900000)) eq_refl _ _)).
  - exists "access-1"%string. split; [reflexivity|discriminate].
  - right. right. exists 900000. split; [reflexivity|cbn; lia].
Defined.

Lemma ensureValidToken_no_token_witness :
  currentSettings empty_world = None
  /\ snd (@ensureValidToken Z sample_api empty_world)
     = Err "No access token available".
Proof.
  split; [reflexivity|].
  refine (proj1 (@ensureValidToken_no_token Z sample_api empty_world _)).
  intros s Hs. discriminate.
Defined.

Lemma ensureValidToken_refresh_witness :
  1200 < 1000 + 300000
  /\ snd (@ensureValidToken Z sample_api (sample_world (Some 1200)))
     = Ok (Some "access-2"%string).
Proof.
  split; [lia|].
  refine (proj1 (@ensureValidToken_refresh Z sample_api
                   (sample_world (Some 1200)) (sample_settings (Some 1200))
                   1200 "refresh-1" "client" "secret" 1001
                   (mkTokenResponse "access-2" "refresh-2" 7200 "read")
                   eq_refl _ eq_refl _ _ eq_refl _ eq_refl _ eq_refl _
                   eq_refl)).
  - exists "access-1"%string. split; [reflexivity|discriminate].
  - discriminate.
  - cbn. lia.
  - discriminate.
  - discriminate.
  - discriminate.
Defined.

Lemma ensureValidToken_refresh_fails_witness :
  snd (@ensureValidToken Z sample_api stale_world)
  = Err "Missing refresh token or client credentials"
  /\ snd (@ensureValidToken Z refusing_api (sample_world (Some 1200)))
     = Err "Failed to refresh token".
Proof.
  split.
  - refine (proj1 (proj1 (@ensureValidToken_refresh_fails Z sample_api
                            stale_world _ 1200 eq_refl _ eq_refl _ _) _)).
    + exists "access-1"%string. split; [reflexivity|discriminate].
    + discriminate.
    + cbn. lia.
    + intros [[t [Ht _]] _]. discriminate Ht.
  - refine (proj1 (proj2 (@ensureValidToken_refresh_fails Z refusing_api
                            (sample_world (Some 1200))
                            (sample_settings (Some 1200)) 1200
                            eq_refl _ eq_refl _ _) _ _ _ eq_refl)).
    + exists "access-1"%string. split; [reflexivity|discriminate].
    + discriminate.
    + cbn. lia.
    + exists "refresh-1"%string. split; [reflexivity|discriminate].
    + exists "client"%string. split; [reflexivity|discriminate].
    + exists "secret"%string. split; [reflexivity|discriminate].
Defined.

Lemma settings_stay_coherent_witness :
  coherent (service (sample_world (Some 1200)))
  /\ coherent (service (fst (@ensureValidToken Z sample_api
                               (sample_world (Some 1200))))).
Proof.
  assert (Hbefore : coherent (service (sample_world (Some 1200)))).
  { split; [repeat constructor|]. intros s Hs. discriminate Hs. }
  split; [exact Hbefore|].
  exact (proj1 (proj2 (proj2 (proj2
           (@settings_stay_coherent Z sample_api
              (mkPartialSettings None None None None None None)
              EmptyString EmptyString EmptyString))))
           (sample_world (Some 1200)) Hbefore).
Defined.

Ltac sample_keyed :=
  let k := fresh "k" in
  let d := fresh "d" in
  let H := fresh "H" in
  intros k d H;
  unfold details, the_db, sample_world, sample_db in H;
  cbn [service svc_db db_activityDetails table_get] in H;
  destruct (Z.eqb_spec 1 k);
  [inversion H; subst; reflexivity|discriminate H].

Lemma getActivityDetail_write_through_witness :
  details_keyed (details (sample_world None))
  /\ table_get 2 (details (fst (@getActivityDetail Z sample_api 2
                                  (sample_world None))))
     = Some (fetched_detail 2).
Proof.
  assert (Hkeyed : details_keyed (details (sample_world None)))
    by sample_keyed.
  split; [exact Hkeyed|].
  exact (proj1 (@getActivityDetail_write_through Z sample_api 2
                  (sample_world None) Hkeyed)).
Defined.

Lemma getActivityDetail_twice_witness :
  let w1 := fst (@getActivityDetail Z sample_api 2 (sample_world None)) in
  remote w1 = 1002
  /\ @getActivityDetail Z sample_api 2 w1 = (w1, Ok (fetched_detail 2)).
Proof.
  cbn zeta. split; [reflexivity|].
  refine (@getActivityDetail_twice Z sample_api 2 (sample_world None) _
            (fetched_detail 2) eq_refl _ eq_refl).
  discriminate.
Defined.

Lemma getActivityDetail_without_streams_witness :
  snd (@getActivityDetail Z sample_api 4 (sample_world None))
  = Ok (bare_detail 4)
  /\ completeDetail 4 (fst (@getActivityDetail Z sample_api 4
                              (sample_world None))) = None.
Proof.
  pose proof (@getActivityDetail_without_streams Z sample_api 4
                (sample_world None) _ (bare_detail 4)
                "Failed to fetch activity streams"
                eq_refl eq_refl eq_refl) as [Hresult [_ Hnext]].
  split; [exact Hresult|exact (Hnext eq_refl)].
Defined.

Lemma clearActivityDetailCache_scope_witness :
  table_get 1 (details (sample_world None)) = Some (fetched_detail 1)
  /\ table_get 1 (details (fst (@clearActivityDetailCache Z (Some 1)
                                  (sample_world None)))) = None.
Proof.
  split; [reflexivity|].
  refine (proj1 (proj1 (@clearActivityDetailCache_scope Z (Some 1)
                          (sample_world None)) 1 eq_refl _)).
  discriminate.
Defined.

Lemma forced_refresh_witness :
  table_get 1 (details (sample_world None)) = Some (fetched_detail 1)
  /\ table_get 1 (details (fst (@loadActivityDetail Z refusing_api 1 true
                                  (sample_world None)))) = None.
Proof.
  split; [reflexivity|].
  refine (proj1 (@forced_refresh Z refusing_api 1 (sample_world None) _)).
  discriminate.
Defined.

Lemma backfill_fills_cache_witness :
  answers_by_id sample_api
  /\ details_keyed (details (sample_world None))
  /\ forall a, In a five_activities ->
       In (ConsoleError (act_id a))
          (snd (fetchAllStreamData (World Z) (@awaitActivityDetail Z sample_api)
                  true false [] five_activities (sample_world None)))
       \/ table_get (act_id a)
            (details (fst (fetchAllStreamData (World Z)
                             (@awaitActivityDetail Z sample_api)
                             true false [] five_activities
                             (sample_world None)))) <> None.
Proof.
  assert (Hserver : answers_by_id sample_api).
  { intros r token activityId r' body H. cbn in H.
    destruct (activityId =? 3); inversion H; reflexivity. }
  assert (Hkeyed : details_keyed (details (sample_world None)))
    by sample_keyed.
  split; [exact Hserver|]. split; [exact Hkeyed|].
  exact (@backfill_fills_cache Z sample_api [] five_activities
           (sample_world None) Hserver Hkeyed).
Defined.

Lemma unpackStreams_heartrate_witness :
  completeDetail 2 (sample_world None) = None
  /\ snd (@getActivityDetail Z sample_api 2 (sample_world None))
     = Ok (fetched_detail 2)
  /\ heartrate_of (Some (fetched_detail 2)) = Some [100; 160; 100].
Proof.
  pose proof (@unpackStreams_heartrate Z sample_api 2 (sample_world None)
                _ _ (bare_detail 2) sample_envelope
                eq_refl eq_refl eq_refl) as [Hresult [_ [_ [Hhr _]]]].
  split; [reflexivity|]. split; [exact Hresult|].
  refine (Hhr [100; 160; 100] _ _).
  - repeat constructor; cbn; intuition discriminate.
  - right. left. reflexivity.
Defined.

Lemma birth_year_read_back_witness :
  let w1 := fst (@updateAthleteBirthYear Z sample_api (Some 1985)
                   (sample_world None)) in
  table_first (db_athlete (the_db (sample_world None))) = Some sample_athlete
  /\ @getAthlete Z sample_api w1
     = (w1, Ok (Some (mkAthleteRow 77 (mkStravaAthlete (Some 1985))))).
Proof.
  cbn zeta. split; [reflexivity|].
  refine (proj1 (proj2 (@birth_year_read_back Z sample_api (sample_world None)
                          sample_athlete (Some 1985) eq_refl _))).
  repeat constructor.
Defined.

Lemma birth_year_without_athlete_witness :
  snd (@getAthlete Z sample_api empty_world) = Ok None
  /\ snd (@updateAthleteBirthYear Z sample_api (Some 1985) empty_world)
     = Ok tt.
Proof.
  refine (let H := @birth_year_without_athlete Z sample_api empty_world
                      (Some 1985) eq_refl _ in
          conj (proj1 H) (proj1 (proj2 H))).
  intros w0 a Hcall. vm_compute in Hcall. discriminate Hcall.
Defined.

Ltac sample_table :=
  repeat (constructor; try reflexivity; try (cbn; lia)).

Lemma export_import_round_trip_witness :
  wellFormed (sample_db None)
  /\ db_activityDetails
       (fst (importData (Some (exportData "2025-07-01" (sample_db None)))
               (the_db empty_world)))
     = db_activityDetails (sample_db None).
Proof.
  assert (Hwf : wellFormed (sample_db None)).
  { unfold wellFormed, table_sorted, settings_keyed, activities_keyed,
      details_rows_keyed, athlete_keyed.
    repeat split; sample_table. }
  split; [exact Hwf|].
  refine (proj1 (proj2 (proj2 (proj2
            (export_import_round_trip "2025-07-01" (sample_db None)
               (the_db empty_world) Hwf _))))).
  discriminate.
Defined.

Lemma import_rejected_witness :
  fst (@importAllData Z (Some unversioned_document) (sample_world None))
  = sample_world None.
Proof.
  refine (proj1 (@import_rejected Z (Some unversioned_document)
                   (sample_world None) _)).
  intros doc Hdoc [Hversion _]. inversion Hdoc; subst doc.
  discriminate Hversion.
Defined.

Lemma import_outcome_witness :
  accepted clashing_document
  /\ db_activities (the_db (sample_world None)) <> []
  /\ db_activities
       (the_db (fst (@importAllData Z (Some clashing_document)
                       (sample_world None)))) = [].
Proof.
  assert (Haccepted : accepted clashing_document)
    by (split; reflexivity).
  split; [exact Haccepted|]. split; [discriminate|].
  refine (proj1 (proj2 (proj2 (proj2
            (@import_outcome Z clashing_document (sample_world None)
               Haccepted _) _)))).
  - constructor.
  - intros [_ [_ [Hdup _]]]. cbn in Hdup.
    inversion Hdup as [|x l Hnotin _]. apply Hnotin. left. reflexivity.
Defined.

Lemma heart_rate_chart_witness :
  exists points,
    getHeartRateData (Some (fetched_detail 2)) = Some points
    /\ List.length points = 3%nat.
Proof.
  destruct (heart_rate_chart (fetched_detail 2)
              (mkStreamData (Some [0; 30; 60]) (Some [100; 160; 100]))
              [0; 30; 60] [100; 160; 100] eq_refl eq_refl eq_refl)
    as [points [Hget [_ [_ [_ [Hall _]]]]]].
  exists points. split; [exact Hget|]. apply Hall. cbn. lia.
Defined.

Lemma logout_closes_session_witness :
  let w' := fst (@logout Z (sample_world None)) in
  @getAthlete Z sample_api w' = (w', Ok (Some sample_athlete)).
Proof.
  cbn zeta.
  refine (proj2 (proj2 (proj2 (proj2 (proj2 (proj2 (proj2 (proj2
            (@logout_closes_session Z sample_api (sample_world None))))))))) _ _).
  reflexivity.
Defined.

Lemma getActivities_upsert_witness :
  table_get 5 (db_activities
                 (the_db (fst (@getActivities Z sample_api 1 30
                                 (sample_world None)))))
  = None.
Proof.
  refine (proj1 (proj2 (proj2
            (@getActivities_upsert Z sample_api 1 30 (sample_world None))))
            5 _).
  intros a [Ha|[Ha|[]]]; subst a; discriminate.
Defined.

Lemma activity_list_paging_witness :
  let start := @loadActivities Z sample_api sample_getCachedActivities true
                 sample_list (sample_world None) in
  let later := @clicks Z sample_api sample_getCachedActivities 3
                 (snd start) (fst start) in
  ls_loadingMore sample_list = false
  /\ pagesShown (snd later)
  /\ @clicks Z sample_api sample_getCachedActivities 2
       (snd later) (fst later) = later.
Proof.
  cbn zeta. split; [reflexivity|].
  pose proof (@activity_list_paging Z sample_api sample_getCachedActivities
                sample_list (sample_world None) 3 2 eq_refl)
    as [Hshown [Hdone _]].
  split; [exact Hshown|exact (Hdone eq_refl)].
Defined.
